(** * Programmatic tool client: registry, dispatch and agentic run loop

    A shallow embedding of [src/Research/programmatic_tool_client.py] and the
    properties of its tool registry, its dispatcher [_execute_tool] and its
    run loop [run].

    Modelling conventions.
    - Python dictionaries read by the code are records whose keys are optional
      fields: [d.get(k, default)] is a [match] on the field, [d[k]] raises
      [KeyError] when the field is absent.  A key that is present holds a
      value of the type the transport gives it (a string, an integer, a list
      of blocks); the [caller] of an invocation may also hold [None], and
      [expires_at] holds a string, a datetime object or [None].
    - Python integers are unbounded: [Z].
    - The outside world (the model transport, the state the handlers act on,
      the clock) is an abstract type [World] threaded through every call; a
      computation is a function [World -> result A * World].
    - Library functions ([json.dumps], [datetime.fromisoformat],
      [datetime.now]) are parameters of the development.
    - Exceptions are values; [except Exception] catches exactly those whose
      class derives from [Exception].
    - Console output ([print]) is not part of the model. *)

From Stdlib Require Import String Ascii List ZArith Lia Bool DecimalString.
Import ListNotations.
Open Scope string_scope.
Open Scope Z_scope.

Set Warnings "-register-all".

(** ** Python values *)

(** Values exchanged with tool handlers: JSON-like data, plus [PObject] for
    any other object (named by its class), which [json.dumps] rejects. *)
Inductive pyval : Type :=
| PNone
| PBool (b : bool)
| PInt (z : Z)
| PStr (s : string)
| PList (l : list pyval)
| PDict (d : list (string * pyval))
| PObject (class_name : string).

(** Keyword arguments of a call: the dictionary unpacked by a double-star
    argument. *)
Definition kwargs := list (string * pyval).

(** [isinstance(v, str)] *)
Definition isinstance_str (v : pyval) : bool :=
  match v with PStr _ => true | _ => false end.

(** ** Exceptions and the computation monad *)

(** A raised exception: [type(e).__name__], [str(e)] and whether
    [isinstance(e, Exception)] holds ([KeyboardInterrupt], [SystemExit],
    [asyncio.CancelledError] derive from [BaseException] only). *)
Record exn : Type := mk_exn {
  exc_name : string;
  exc_str : string;
  exc_is_Exception : bool
}.

Inductive result (A : Type) : Type :=
| Ok (a : A)
| Err (e : exn).
Arguments Ok {A} a.
Arguments Err {A} e.

Definition M (World A : Type) : Type := World -> result A * World.

Definition ret {World A} (a : A) : M World A := fun w => (Ok a, w).

Definition raise {World A} (e : exn) : M World A := fun w => (Err e, w).

Definition bind {World A B} (m : M World A) (k : A -> M World B) : M World B :=
  fun w => match m w with
           | (Ok a, w') => k a w'
           | (Err e, w') => (Err e, w')
           end.

Definition lift {World A} (r : result A) : M World A := fun w => (r, w).

Notation "x <- m ;; k" := (bind m (fun x => k))
  (at level 61, m at next level, right associativity).

(** [try: body except Exception as e: handler(e)] *)
Definition try_except_Exception {World A}
    (body : M World A) (handler : exn -> M World A) : M World A :=
  fun w => match body w with
           | (Ok a, w') => (Ok a, w')
           | (Err e, w') =>
               if exc_is_Exception e then handler e w' else (Err e, w')
           end.

Definition KeyError (key : string) : exn :=
  mk_exn "KeyError" ("'" ++ key ++ "'") true.

Definition TypeError (message : string) : exn :=
  mk_exn "TypeError" message true.

Definition AttributeError (message : string) : exn :=
  mk_exn "AttributeError" message true.

(** A value that may be [None]. *)
Inductive nullable (A : Type) : Type :=
| IsNone
| Value (a : A).
Arguments IsNone {A}.
Arguments Value {A} a.

(** [d[key]] on an optional field. *)
Definition getitem {World A} (key : string) (field : option A) : M World A :=
  match field with
  | Some v => ret v
  | None => raise (KeyError key)
  end.

(** [d.get(key, default)] on an optional field. *)
Definition get {A} (field : option A) (default : A) : A :=
  match field with
  | Some v => v
  | None => default
  end.

(** [d.get(key) == s] for a string-valued key. *)
Definition get_eqb (field : option string) (s : string) : bool :=
  match field with
  | Some v => String.eqb v s
  | None => false
  end.

(** Truthiness of [str | None]: [None] and the empty string are falsy. *)
Definition truthy_str (o : option string) : bool :=
  match o with
  | Some s => negb (String.eqb s "")
  | None => false
  end.

Definition newline : string := String (ascii_of_nat 10) EmptyString.

(** [s.replace("Z", "+00:00")] *)
Fixpoint replace_Z (s : string) : string :=
  match s with
  | EmptyString => EmptyString
  | String c s' =>
      if Ascii.eqb c "Z" then "+00:00" ++ replace_Z s'
      else String c (replace_Z s')
  end.

(** [sep.join(parts)] is [String.concat sep parts]. *)
Definition join (sep : string) (parts : list string) : string :=
  String.concat sep parts.

(** ** Insertion-ordered dictionaries with string keys

    [self._tools] is a [dict[str, ToolDefinition]]; [.values()] iterates in
    insertion order and assigning to an existing key keeps its position. *)

Fixpoint dict_get {V} (k : string) (d : list (string * V)) : option V :=
  match d with
  | [] => None
  | (k', v) :: d' => if String.eqb k k' then Some v else dict_get k d'
  end.

Definition dict_contains {V} (k : string) (d : list (string * V)) : bool :=
  match dict_get k d with Some _ => true | None => false end.

(** [d[k] = v] *)
Fixpoint dict_set {V} (k : string) (v : V) (d : list (string * V))
  : list (string * V) :=
  match d with
  | [] => [(k, v)]
  | (k', v') :: d' =>
      if String.eqb k k' then (k', v) :: d' else (k', v') :: dict_set k v d'
  end.

Definition dict_values {V} (d : list (string * V)) : list V := map snd d.

Definition dict_keys {V} (d : list (string * V)) : list string := map fst d.

(** Number of entries stored under key [k]. *)
Definition dict_count {V} (k : string) (d : list (string * V)) : nat :=
  length (filter (fun kv => String.eqb k (fst kv)) d).

(** ** Data classes and wire shapes *)

(** A tool handler: a Python callable with its [__name__], whether
    [asyncio.iscoroutinefunction] holds of it, and its behaviour on keyword
    arguments. *)
Module PyFunction.
Record t (World : Type) : Type := mk {
  __name__ : string;
  iscoroutinefunction : bool;
  call : kwargs -> M World pyval
}.
Arguments mk {World}.
Arguments __name__ {World}.
Arguments iscoroutinefunction {World}.
Arguments call {World}.
End PyFunction.

Module ToolDefinition.
Record t (World : Type) : Type := mk {
  name : string;
  description : string;
  input_schema : pyval;
  handler : PyFunction.t World;
  allowed_callers : list string
}.
Arguments mk {World}.
Arguments name {World}.
Arguments description {World}.
Arguments input_schema {World}.
Arguments handler {World}.
Arguments allowed_callers {World}.
End ToolDefinition.

(** The [caller] object of a tool-use block. *)
Module Caller.
Record t : Type := mk {
  type : option string;
  tool_id : option string
}.
End Caller.

(** A content entry of a turn: a response block (text, tool_use, or any
    other kind) or a tool_result entry.  One record with the keys the code
    reads or writes. *)
Module Block.
Record t : Type := mk {
  type : option string;
  text : option string;
  id : option string;
  name : option string;
  input : option kwargs;
  caller : option (nullable Caller.t);
  tool_use_id : option string;
  content : option string
}.

Definition empty : t := mk None None None None None None None None.

(** [{"type": "text", "text": s}] *)
Definition text_block (s : string) : t :=
  mk (Some "text") (Some s) None None None None None None.

(** [{"type": "tool_use", "id": i, "name": n, "input": a, "caller": c}],
    the [caller] key being optional and its value a dictionary or [None]. *)
Definition tool_use (i n : string) (a : kwargs)
    (c : option (nullable Caller.t)) : t :=
  mk (Some "tool_use") None (Some i) (Some n) (Some a) c None None.

(** [{"type": "tool_result", "tool_use_id": i, "content": s}] *)
Definition tool_result (i s : string) : t :=
  mk (Some "tool_result") None None None None None (Some i) (Some s).
End Block.

Module Usage.
Record t : Type := mk {
  input_tokens : option Z;
  output_tokens : option Z
}.
End Usage.

(** A [datetime] object: its instant, in microseconds since the epoch (the
    resolution of [datetime]), and whether it carries an offset (is aware)
    or not (is naive). *)
Module Datetime.
Record t : Type := mk {
  timestamp : Z;
  aware : bool
}.
End Datetime.

(** The value of [expires_at]: the text of a timestamp, a datetime object
    (what [model_dump] makes of a typed field), or [None]. *)
Inductive expires_value : Type :=
| ExpiresStr (s : string)
| ExpiresDatetime (d : Datetime.t)
| ExpiresNone.

(** The session descriptor of a response. *)
Module Container.
Record t : Type := mk {
  id : option string;
  expires_at : option expires_value
}.

(** Truthiness of the dictionary: the empty dictionary is falsy. *)
Definition truthy (c : t) : bool :=
  match id c, expires_at c with
  | None, None => false
  | _, _ => true
  end.
End Container.

(** [raw = response.model_dump()] *)
Module Raw.
Record t : Type := mk {
  usage : option Usage.t;
  container : option Container.t;
  stop_reason : option string;
  content : option (list Block.t)
}.
End Raw.

(** The content of a conversation turn: a string or a list of entries. *)
Inductive message_content : Type :=
| ContentStr (s : string)
| ContentList (l : list Block.t).

Module Message.
Record t : Type := mk {
  role : string;
  content : message_content
}.
End Message.

(** An entry of the tools array sent to the API. *)
Module ToolParam.
Record t : Type := mk {
  type : option string;
  name : string;
  description : option string;
  input_schema : option pyval;
  allowed_callers : option (list string)
}.
End ToolParam.

(** The keyword arguments of [messages.create]. *)
Module Request.
Record t : Type := mk {
  model : string;
  max_tokens : Z;
  messages : list Message.t;
  tools : list ToolParam.t;
  system : option string;
  container : option string
}.
End Request.

Module RunResult.
Record t : Type := mk {
  text : string;
  tool_calls_made : Z;
  container_id : option string;
  total_input_tokens : Z;
  total_output_tokens : Z;
  raw_messages : list Raw.t
}.
End RunResult.


(** The local variables of [run] that live across iterations of its
    [while True] loop. *)
Module Loop.
Record t : Type := mk {
  messages : list Message.t;
  container_id : option string;
  total_input : Z;
  total_output : Z;
  total_tool_calls : Z;
  all_raw : list Raw.t
}.
End Loop.

(** The client object.  [_client] is the transport: the call
    [self._client.messages.create] followed by [model_dump]. *)
Record ProgrammaticToolClient (World : Type) : Type := mk_client {
  _client : Request.t -> M World Raw.t;
  _model : string;
  _max_tokens : Z;
  _timeout_buffer : Z;
  _tools : list (string * ToolDefinition.t World)
}.
Arguments mk_client {World}.
Arguments _client {World}.
Arguments _model {World}.
Arguments _max_tokens {World}.
Arguments _timeout_buffer {World}.
Arguments _tools {World}.

(** The [caller] argument of the [tool] decorator. *)
Inductive caller_literal : Type := Direct | CodeExecution | Both.

(** How one pass through the loop body ends: [return RunResult(...)] or the
    next iteration. *)
Inductive step (A : Type) : Type :=
| Return (r : RunResult.t)
| Continue (st : A).
Arguments Return {A} r.
Arguments Continue {A} st.

(** What [run] has done after at most a given number of iterations. *)
Inductive outcome : Type :=
| Returned (r : RunResult.t)
| Raised (e : exn)
| Running (st : Loop.t).

(** ** The client *)

Definition MODEL : string := "claude-opus-4-6".
Definition CODE_EXECUTION_TOOL_TYPE : string := "code_execution_20260120".

Section Client.

Variable World : Type.

(** [json.dumps], which raises on values it cannot serialise. *)
Variable json_dumps : pyval -> result string.

(** [datetime.fromisoformat], which raises [ValueError] on a string it
    cannot parse. *)
Variable fromisoformat : string -> result Datetime.t.

(** [datetime.now(timezone.utc)], in microseconds since the epoch. *)
Variable now : World -> Z.

Definition __init__ (client : Request.t -> M World Raw.t)
    (model : option string) (max_tokens timeout_buffer_seconds : Z)
  : ProgrammaticToolClient World :=
  {| _client := client;
     _model := if truthy_str model then get model MODEL else MODEL;
     _max_tokens := max_tokens;
     _timeout_buffer := timeout_buffer_seconds;
     _tools := [] |}.

(** *** Tool registration *)

Definition caller_map (caller : caller_literal) : list string :=
  match caller with
  | Direct => ["direct"]
  | CodeExecution => [CODE_EXECUTION_TOOL_TYPE]
  | Both => ["direct"; CODE_EXECUTION_TOOL_TYPE]
  end.

(** [tool_name = name or fn.__name__] *)
Definition tool_name (name : option string) (fn : PyFunction.t World)
  : string :=
  if truthy_str name then get name "" else PyFunction.__name__ fn.

(** [self.tool(description, input_schema, caller, name)(fn)]: the effect of
    the decorator on the client. *)
Definition tool (self : ProgrammaticToolClient World)
    (description : string) (input_schema : pyval) (caller : caller_literal)
    (name : option string) (fn : PyFunction.t World)
  : ProgrammaticToolClient World :=
  let tool_name := tool_name name fn in
  {| _client := _client self;
     _model := _model self;
     _max_tokens := _max_tokens self;
     _timeout_buffer := _timeout_buffer self;
     _tools :=
       dict_set tool_name
         (ToolDefinition.mk tool_name description input_schema fn
            (caller_map caller))
         (_tools self) |}.

(** *** Build the API tool list *)

Definition _build_tools (self : ProgrammaticToolClient World)
  : list ToolParam.t :=
  ToolParam.mk (Some CODE_EXECUTION_TOOL_TYPE) "code_execution" None None None
  :: map (fun td =>
            ToolParam.mk None (ToolDefinition.name td)
              (Some (ToolDefinition.description td))
              (Some (ToolDefinition.input_schema td))
              (Some (ToolDefinition.allowed_callers td)))
         (dict_values (_tools self)).

(** *** Execute a single tool *)

Definition _execute_tool (self : ProgrammaticToolClient World)
    (name : string) (input_data : kwargs) : M World string :=
  match dict_get name (_tools self) with
  | None => ret ("Error: Unknown tool '" ++ name ++ "'")
  | Some td =>
      let handler := ToolDefinition.handler td in
      try_except_Exception
        (result <- (if PyFunction.iscoroutinefunction handler
                    then PyFunction.call handler input_data
                    else PyFunction.call handler input_data) ;;
         match result with
         | PStr s => ret s
         | _ => lift (json_dumps result)
         end)
        (fun e => ret ("Error: " ++ exc_name e ++ ": " ++ exc_str e))
  end.

(** *** Check container expiry *)

(** Returns whether the warning is printed.  [replace] applied to a
    datetime object is [datetime.replace], which rejects the string
    arguments, and [None] has no [replace]; the difference of a naive and an
    aware datetime raises.  [now] reads the clock, in microseconds since the
    epoch; [total_seconds()] of a difference of [d] microseconds is below
    the buffer of [b] seconds when [d < b * 1000000]. *)
Definition _check_container_expiry (self : ProgrammaticToolClient World)
    (container : option Container.t) : M World bool :=
  match container with
  | None => ret false
  | Some c =>
      if negb (Container.truthy c) then ret false
      else match Container.expires_at c with
           | None => ret false
           | Some ExpiresNone =>
               raise (AttributeError
                        "'NoneType' object has no attribute 'replace'")
           | Some (ExpiresDatetime _) =>
               raise (TypeError
                        "'str' object cannot be interpreted as an integer")
           | Some (ExpiresStr s) =>
               expires <- lift (fromisoformat (replace_Z s)) ;;
               fun w =>
                 if Datetime.aware expires
                 then (Ok (Datetime.timestamp expires - now w
                           <? _timeout_buffer self * 1000000), w)
                 else (Err (TypeError
                              ("can't subtract offset-naive and "
                               ++ "offset-aware datetimes")), w)
           end
  end.

(** *** Extract tool use blocks *)

Definition _extract_tool_calls (content : list Block.t) : list Block.t :=
  filter (fun block => get_eqb (Block.type block) "tool_use") content.

(** [caller.get] on [None] raises [AttributeError]. *)
Definition _is_programmatic (tool_call : Block.t) : result bool :=
  let caller := get (Block.caller tool_call) (Value (Caller.mk None None)) in
  match caller with
  | IsNone =>
      Err (AttributeError "'NoneType' object has no attribute 'get'")
  | Value caller =>
      Ok (negb (String.eqb (get (Caller.type caller) "") "direct"))
  end.

(** *** Main run loop *)

(** [[f(x) for x in xs]] where [f] may raise. *)
Fixpoint comprehension {A B} (f : A -> M World B) (xs : list A)
  : M World (list B) :=
  match xs with
  | [] => ret []
  | x :: xs' =>
      y <- f x ;;
      ys <- comprehension f xs' ;;
      ret (y :: ys)
  end.

(** The [for tc in tool_calls] loop, from the current values of
    [total_tool_calls] and [tool_results].  The classification [is_prog]
    only feeds the line the loop prints. *)
Fixpoint build_tool_results (self : ProgrammaticToolClient World)
    (tool_calls : list Block.t) (total_tool_calls : Z)
    (tool_results : list Block.t) : M World (Z * list Block.t) :=
  match tool_calls with
  | [] => ret (total_tool_calls, tool_results)
  | tc :: rest =>
      let total_tool_calls := total_tool_calls + 1 in
      is_prog <- lift (_is_programmatic tc) ;;
      name <- getitem "name" (Block.name tc) ;;
      input <- getitem "input" (Block.input tc) ;;
      result_str <- _execute_tool self name input ;;
      id <- getitem "id" (Block.id tc) ;;
      build_tool_results self rest total_tool_calls
        (tool_results ++ [Block.tool_result id result_str])%list
  end.

Definition build_kwargs (self : ProgrammaticToolClient World)
    (tools : list ToolParam.t) (system : option string) (st : Loop.t)
  : Request.t :=
  {| Request.model := _model self;
     Request.max_tokens := _max_tokens self;
     Request.messages := Loop.messages st;
     Request.tools := tools;
     Request.system := if truthy_str system then system else None;
     Request.container :=
       if truthy_str (Loop.container_id st) then Loop.container_id st
       else None |}.

(** "Track container": [if container: container_id = container.get("id",
    container_id)]. *)
Definition track_container (container : option Container.t)
    (container_id : option string) : option string :=
  match container with
  | Some c =>
      if Container.truthy c
      then match Container.id c with
           | Some i => Some i
           | None => container_id
           end
      else container_id
  | None => container_id
  end.

(** The blocks of [content] whose type is [text]. *)
Definition text_blocks (content : list Block.t) : list Block.t :=
  filter (fun block => get_eqb (Block.type block) "text") content.

(** The loop body after the API call: from "all_raw.append(raw)" to the end
    of the [if]/[else] on the stop reason. *)
Definition process_response (self : ProgrammaticToolClient World)
    (st : Loop.t) (raw : Raw.t) : M World (step Loop.t) :=
  let all_raw := (Loop.all_raw st ++ [raw])%list in
  let usage := get (Raw.usage raw) (Usage.mk None None) in
  let total_input := Loop.total_input st + get (Usage.input_tokens usage) 0 in
  let total_output :=
    Loop.total_output st + get (Usage.output_tokens usage) 0 in
  let container := Raw.container raw in
  let container_id := track_container container (Loop.container_id st) in
  _ <- match container with
       | Some c =>
           if Container.truthy c
           then _check_container_expiry self container
           else ret false
       | None => ret false
       end ;;
  let stop_reason := get (Raw.stop_reason raw) "" in
  let content := get (Raw.content raw) [] in
  if String.eqb stop_reason "end_turn" then
    text_parts <-
      comprehension (fun block => getitem "text" (Block.text block))
        (text_blocks content) ;;
    ret (Return
           (RunResult.mk (join newline text_parts) (Loop.total_tool_calls st)
              container_id total_input total_output all_raw))
  else if String.eqb stop_reason "tool_use" then
    let tool_calls := _extract_tool_calls content in
    r <- build_tool_results self tool_calls (Loop.total_tool_calls st) [] ;;
    let '(total_tool_calls, tool_results) := r in
    ret (Continue
           (Loop.mk
              ((Loop.messages st
                  ++ [Message.mk "assistant" (ContentList content)])
                 ++ [Message.mk "user" (ContentList tool_results)])%list
              container_id total_input total_output total_tool_calls all_raw))
  else
    let text_parts :=
      map (fun block => get (Block.text block) "") (text_blocks content) in
    let joined := join newline text_parts in
    ret (Return
           (RunResult.mk
              (if String.eqb joined "" then "Unexpected stop: " ++ stop_reason
               else joined)
              (Loop.total_tool_calls st)
              container_id total_input total_output all_raw)).

(** One pass through the body of [while True]. *)
Definition iteration (self : ProgrammaticToolClient World)
    (tools : list ToolParam.t) (system : option string) (st : Loop.t)
  : M World (step Loop.t) :=
  raw <- _client self (build_kwargs self tools system st) ;;
  process_response self st raw.

(** [while True], cut after [fuel] iterations. *)
Fixpoint while_true (self : ProgrammaticToolClient World)
    (tools : list ToolParam.t) (system : option string)
    (fuel : nat) (st : Loop.t) (w : World) : outcome * World :=
  match fuel with
  | O => (Running st, w)
  | S fuel' =>
      match iteration self tools system st w with
      | (Err e, w') => (Raised e, w')
      | (Ok (Return r), w') => (Returned r, w')
      | (Ok (Continue st'), w') => while_true self tools system fuel' st' w'
      end
  end.

(** The state on entry to the loop. *)
Definition initial (user_message : string) (container_id : option string)
  : Loop.t :=
  Loop.mk [Message.mk "user" (ContentStr user_message)] container_id 0 0 0 [].

Definition run (self : ProgrammaticToolClient World)
    (user_message : string) (system : option string)
    (container_id : option string) (fuel : nat) (w : World)
  : outcome * World :=
  let tools := _build_tools self in
  while_true self tools system fuel (initial user_message container_id) w.

End Client.

Arguments __init__ {World}.
Arguments caller_map : clear implicits.
Arguments tool_name {World}.
Arguments tool {World}.
Arguments _build_tools {World}.
Arguments _execute_tool {World}.
Arguments _check_container_expiry {World}.
Arguments comprehension {World A B}.
Arguments build_tool_results {World}.
Arguments build_kwargs {World}.
Arguments process_response {World}.
Arguments iteration {World}.
Arguments while_true {World}.
Arguments run {World}.

(** ** Specification-side vocabulary *)

(** The tool invocations a sequence of responses asks for: the tool_use
    blocks of the responses whose stop reason is [tool_use]. *)
Definition invocations (raws : list Raw.t) : list Block.t :=
  flat_map
    (fun raw =>
       if String.eqb (get (Raw.stop_reason raw) "") "tool_use"
       then _extract_tool_calls (get (Raw.content raw) [])
       else [])
    raws.

(** A tool-use entry carrying the three keys the loop subscripts, and a
    [caller] that is absent or a dictionary. *)
Definition well_formed_call (tc : Block.t) : bool :=
  match Block.name tc, Block.input tc, Block.id tc, Block.caller tc with
  | Some _, Some _, Some _, Some IsNone => false
  | Some _, Some _, Some _, _ => true
  | _, _, _, _ => false
  end.

(** The expiry check of the session descriptor of a response does not
    raise: there is no descriptor, or no [expires_at] in it, or a string
    that parses to an aware datetime. *)
Definition expiry_check_passes (fromisoformat : string -> result Datetime.t)
    (raw : Raw.t) : bool :=
  match Raw.container raw with
  | None => true
  | Some c =>
      match Container.expires_at c with
      | None => true
      | Some ExpiresNone => false
      | Some (ExpiresDatetime _) => false
      | Some (ExpiresStr s) =>
          match fromisoformat (replace_Z s) with
          | Ok d => Datetime.aware d
          | Err _ => false
          end
      end
  end.

(** Every exception a registered handler raises derives from [Exception]. *)
Definition handlers_raise_Exception_only {World}
    (self : ProgrammaticToolClient World) : Prop :=
  forall name td input_data w e w',
    dict_get name (_tools self) = Some td ->
    PyFunction.call (ToolDefinition.handler td) input_data w = (Err e, w') ->
    exc_is_Exception e = true.

(** Every exception [json.dumps] raises derives from [Exception]. *)
Definition dumps_raises_Exception_only
    (json_dumps : pyval -> result string) : Prop :=
  forall v e, json_dumps v = Err e -> exc_is_Exception e = true.

(** The transport answers every request with stop reason [tool_use]. *)
Definition always_tool_use {World} (self : ProgrammaticToolClient World)
  : Prop :=
  forall request w, exists raw w',
    _client self request w = (Ok raw, w')
    /\ get (Raw.stop_reason raw) "" = "tool_use".

(** The text of a response: the newline-join of the text of every text
    block of its content, in order. *)
Definition response_text (raw : Raw.t) : string :=
  join newline
    (map (fun block => get (Block.text block) "")
       (text_blocks (get (Raw.content raw) []))).

(** What dispatch makes of the outcome of a handler call: a returned
    string is passed through, another value is serialised, and an exception
    deriving from [Exception] becomes an error string. *)
Definition dispatch_outcome {World} (json_dumps : pyval -> result string)
    (called : result pyval * World) : result string * World :=
  let contain (e : exn) (w : World) : result string * World :=
    if exc_is_Exception e
    then (Ok ("Error: " ++ exc_name e ++ ": " ++ exc_str e), w)
    else (Err e, w) in
  match called with
  | (Ok (PStr s), w) => (Ok s, w)
  | (Ok v, w) =>
      match json_dumps v with
      | Ok t => (Ok t, w)
      | Err e => contain e w
      end
  | (Err e, w) => contain e w
  end.

(** The usage a response reports, with the defaults of the code. *)
Definition input_tokens_of (raw : Raw.t) : Z :=
  get (Usage.input_tokens (get (Raw.usage raw) (Usage.mk None None))) 0.

Definition output_tokens_of (raw : Raw.t) : Z :=
  get (Usage.output_tokens (get (Raw.usage raw) (Usage.mk None None))) 0.

(** The session handle held after a sequence of responses, starting from the
    handle [container_id]. *)
Definition held_container_id (container_id : option string)
    (raws : list Raw.t) : option string :=
  fold_left (fun cid raw => track_container (Raw.container raw) cid)
    raws container_id.

(** Every response of the transport carries well-formed invocations and a
    session descriptor on which the expiry check does not raise. *)
Definition well_formed_responses {World}
    (fromisoformat : string -> result Datetime.t)
    (self : ProgrammaticToolClient World) : Prop :=
  forall request w raw w',
    _client self request w = (Ok raw, w') ->
    forallb well_formed_call (_extract_tool_calls (get (Raw.content raw) []))
    = true
    /\ expiry_check_passes fromisoformat raw = true.

(** The state the loop continues with after a [tool_use] response [raw]
    whose invocations produced [tool_results]. *)
Definition next_state (st : Loop.t) (raw : Raw.t)
    (tool_results : list Block.t) : Loop.t :=
  Loop.mk
    ((Loop.messages st
        ++ [Message.mk "assistant" (ContentList (get (Raw.content raw) []))])
       ++ [Message.mk "user" (ContentList tool_results)])%list
    (track_container (Raw.container raw) (Loop.container_id st))
    (Loop.total_input st + input_tokens_of raw)
    (Loop.total_output st + output_tokens_of raw)
    (Loop.total_tool_calls st
     + Z.of_nat (length (_extract_tool_calls (get (Raw.content raw) []))))
    (Loop.all_raw st ++ [raw])%list.

(** The result returned on a terminal response [raw] with the text [text]. *)
Definition final_result (st : Loop.t) (raw : Raw.t) (text : string)
  : RunResult.t :=
  RunResult.mk text (Loop.total_tool_calls st)
    (track_container (Raw.container raw) (Loop.container_id st))
    (Loop.total_input st + input_tokens_of raw)
    (Loop.total_output st + output_tokens_of raw)
    (Loop.all_raw st ++ [raw])%list.

(** [dispatches json_dumps self tool_calls w tool_results w']: each of the
    invocations [tool_calls] is classified, and dispatching them one after
    the other from the world [w] returns, for each, a string;
    [tool_results] are the tool_result entries holding these strings, keyed
    to the invocations' identifiers, and [w'] is the world the last dispatch
    leaves. *)
Inductive dispatches {World} (json_dumps : pyval -> result string)
    (self : ProgrammaticToolClient World)
  : list Block.t -> World -> list Block.t -> World -> Prop :=
| dispatches_nil (w : World) : dispatches json_dumps self [] w [] w
| dispatches_cons (tc : Block.t) (rest : list Block.t)
    (is_prog : bool) (name : string) (input : kwargs) (id : string)
    (result_str : string) (w w1 w2 : World) (tool_results : list Block.t) :
    _is_programmatic tc = Ok is_prog ->
    Block.name tc = Some name ->
    Block.input tc = Some input ->
    Block.id tc = Some id ->
    _execute_tool json_dumps self name input w = (Ok result_str, w1) ->
    dispatches json_dumps self rest w1 tool_results w2 ->
    dispatches json_dumps self (tc :: rest) w
      (Block.tool_result id result_str :: tool_results) w2.

(** ** A reference serialiser and example clients *)

(** The code points of a string, read as UTF-8.  [pending] counts the
    continuation bytes still expected and [acc] holds the bits read so
    far. *)
Fixpoint code_points (s : string) (pending : nat) (acc : N) : list N :=
  match s with
  | EmptyString => []
  | String c s' =>
      let n := N_of_ascii c in
      match pending with
      | O =>
          if (n <? 128)%N then n :: code_points s' 0 0%N
          else if (n <? 224)%N then code_points s' 1 (n - 192)%N
          else if (n <? 240)%N then code_points s' 2 (n - 224)%N
          else code_points s' 3 (n - 240)%N
      | S pending' =>
          let acc' := (acc * 64 + (n - 128))%N in
          match pending' with
          | O => acc' :: code_points s' 0 0%N
          | S _ => code_points s' pending' acc'
          end
      end
  end.

Definition hex_digit (n : N) : string :=
  String (match n with
          | 0 => "0" | 1 => "1" | 2 => "2" | 3 => "3" | 4 => "4"
          | 5 => "5" | 6 => "6" | 7 => "7" | 8 => "8" | 9 => "9"
          | 10 => "a" | 11 => "b" | 12 => "c" | 13 => "d" | 14 => "e"
          | _ => "f"
          end)%N%char EmptyString.

(** [\uXXXX] for a code unit. *)
Definition json_escape_unit (n : N) : string :=
  ("\u" ++ hex_digit (n / 4096) ++ hex_digit ((n / 256) mod 16)
   ++ hex_digit ((n / 16) mod 16) ++ hex_digit (n mod 16))%N.

(** The escape of one character under [ensure_ascii=True]: a character
    outside the basic plane is written as a surrogate pair. *)
Definition json_escape_char (n : N) : string :=
  (if n =? 34 then "\" ++ String (ascii_of_N n) EmptyString
   else if n =? 92 then "\\"
   else if n =? 8 then "\b"
   else if n =? 9 then "\t"
   else if n =? 10 then "\n"
   else if n =? 12 then "\f"
   else if n =? 13 then "\r"
   else if (n <? 32) || (126 <? n)
        then if n <? 65536 then json_escape_unit n
             else json_escape_unit (55296 + (n - 65536) / 1024)
                  ++ json_escape_unit (56320 + (n - 65536) mod 1024)
   else String (ascii_of_N n) EmptyString)%N%bool.

Definition json_escape (s : string) : string :=
  String.concat "" (map json_escape_char (code_points s 0 0%N)).

Definition json_quote (s : string) : string :=
  String (ascii_of_nat 34) (json_escape s ++ String (ascii_of_nat 34) "").

Definition string_of_Z (z : Z) : string :=
  NilZero.string_of_int (Z.to_int z).

(** The list of the values of a list of results, or its first error. *)
Fixpoint sequence {A} (rs : list (result A)) : result (list A) :=
  match rs with
  | [] => Ok []
  | Ok a :: rs' =>
      match sequence rs' with
      | Ok l => Ok (a :: l)
      | Err e => Err e
      end
  | Err e :: _ => Err e
  end.

(** [json.dumps] with its default arguments, on [pyval]. *)
Fixpoint json_dumps_ref (v : pyval) : result string :=
  match v with
  | PNone => Ok "null"
  | PBool true => Ok "true"
  | PBool false => Ok "false"
  | PInt z => Ok (string_of_Z z)
  | PStr s => Ok (json_quote s)
  | PList l =>
      match sequence (map json_dumps_ref l) with
      | Ok items => Ok ("[" ++ join ", " items ++ "]")
      | Err e => Err e
      end
  | PDict d =>
      match sequence
              (map (fun kv =>
                      match json_dumps_ref (snd kv) with
                      | Ok s => Ok (json_quote (fst kv) ++ ": " ++ s)
                      | Err e => Err e
                      end) d) with
      | Ok items => Ok ("{" ++ join ", " items ++ "}")
      | Err e => Err e
      end
  | PObject c =>
      Err (mk_exn "TypeError"
             ("Object of type " ++ c ++ " is not JSON serializable") true)
  end.

(** In the examples the world is the number of exchanges made so far; the
    parser knows one instant, with and without offset, and the clock stands
    one hour before it. *)
Definition ex_fromisoformat (s : string) : result Datetime.t :=
  if String.eqb s "2026-01-01T00:00:00+00:00"
  then Ok (Datetime.mk 1767225600000000 true)
  else if String.eqb s "2026-01-01T00:00:00"
  then Ok (Datetime.mk 1767225600000000 false)
  else Err (mk_exn "ValueError"
              ("Invalid isoformat string: '" ++ s ++ "'") true).

Definition ex_now (_ : nat) : Z := 1767222000000000.

Definition ex_expires : option expires_value :=
  Some (ExpiresStr "2026-01-01T00:00:00Z").

(** A transport that replays a script and fails when it is exhausted. *)
Definition scripted (script : list Raw.t) : Request.t -> M nat Raw.t :=
  fun _ n =>
    match nth_error script n with
    | Some raw => (Ok raw, S n)
    | None => (Err (mk_exn "APIConnectionError" "Connection error." true), n)
    end.

(** A transport that gives the same response to every request. *)
Definition constant_transport (raw : Raw.t) : Request.t -> M nat Raw.t :=
  fun _ n => (Ok raw, S n).

(** [def add(a, b): return a + b] *)
Definition ex_add : PyFunction.t nat :=
  PyFunction.mk "add" false
    (fun input_data =>
       match dict_get "a" input_data, dict_get "b" input_data with
       | Some (PInt a), Some (PInt b) => ret (PInt (a + b))
       | _, _ => raise (mk_exn "TypeError" "add() got unexpected arguments" true)
       end).

(** [def sub(a, b): return a - b], registered under the name [add] in the
    overwrite example. *)
Definition ex_sub : PyFunction.t nat :=
  PyFunction.mk "sub" false
    (fun input_data =>
       match dict_get "a" input_data, dict_get "b" input_data with
       | Some (PInt a), Some (PInt b) => ret (PInt (a - b))
       | _, _ => raise (mk_exn "TypeError" "sub() got unexpected arguments" true)
       end).

(** [async def fail(): raise ValueError("bad input")] *)
Definition ex_fail : PyFunction.t nat :=
  PyFunction.mk "fail" true
    (fun _ => raise (mk_exn "ValueError" "bad input" true)).

(** [def quit(): raise KeyboardInterrupt()] *)
Definition ex_quit : PyFunction.t nat :=
  PyFunction.mk "quit" false
    (fun _ => raise (mk_exn "KeyboardInterrupt" "" false)).

(** [def echo(text): return text] *)
Definition ex_echo : PyFunction.t nat :=
  PyFunction.mk "echo" false
    (fun input_data =>
       match dict_get "text" input_data with
       | Some v => ret v
       | None => raise (mk_exn "TypeError" "echo() missing argument" true)
       end).

Definition ex_schema : pyval := PDict [("type", PStr "object")].

Definition ex_register (self : ProgrammaticToolClient nat)
    (fn : PyFunction.t nat) : ProgrammaticToolClient nat :=
  tool self "An example tool." ex_schema CodeExecution None fn.

(** A client over a given transport with [add], [fail] and [echo]. *)
Definition ex_client (client : Request.t -> M nat Raw.t)
  : ProgrammaticToolClient nat :=
  ex_register
    (ex_register (ex_register (__init__ client None 4096 30) ex_add) ex_fail)
    ex_echo.

(** The same client with [quit] registered as well. *)
Definition ex_client_quit (client : Request.t -> M nat Raw.t)
  : ProgrammaticToolClient nat :=
  ex_register (ex_client client) ex_quit.

Definition ex_direct : option (nullable Caller.t) :=
  Some (Value (Caller.mk (Some "direct") None)).

Definition ex_code : option (nullable Caller.t) :=
  Some (Value (Caller.mk (Some CODE_EXECUTION_TOOL_TYPE) (Some "srvtoolu_1"))).

Definition ex_args (a b : Z) : kwargs := [("a", PInt a); ("b", PInt b)].

Definition ex_usage : option Usage.t := Some (Usage.mk (Some 10) (Some 5)).

(** A [tool_use] response with three invocations: a direct [add], an
    untagged call of an unknown tool and a programmatic failing call. *)
Definition ex_raw_tools : Raw.t :=
  Raw.mk ex_usage
    (Some (Container.mk (Some "cont_1") ex_expires))
    (Some "tool_use")
    (Some [Block.text_block "Let me compute.";
           Block.tool_use "t1" "add" (ex_args 1 2) ex_direct;
           Block.tool_use "t2" "nope" [] None;
           Block.tool_use "t3" "fail" [] ex_code]).

(** A [tool_use] response with a single invocation of [add(a=1, b=2)]. *)
Definition ex_raw_add : Raw.t :=
  Raw.mk ex_usage None (Some "tool_use")
    (Some [Block.tool_use "t1" "add" (ex_args 1 2) None]).

(** A [tool_use] response invoking [quit]. *)
Definition ex_raw_quit : Raw.t :=
  Raw.mk ex_usage None (Some "tool_use")
    (Some [Block.tool_use "q1" "quit" [] None]).

(** An [end_turn] response with two text blocks around another block. *)
Definition ex_raw_end : Raw.t :=
  Raw.mk ex_usage (Some (Container.mk None ex_expires))
    (Some "end_turn")
    (Some [Block.text_block "Result: 3";
           Block.mk (Some "thinking") None None None None None None None;
           Block.text_block "Done."]).

(** An [end_turn] response without any text block. *)
Definition ex_raw_end_empty : Raw.t :=
  Raw.mk ex_usage None (Some "end_turn") (Some []).

(** A session of three exchanges. *)
Definition ex_session : list Raw.t := [ex_raw_tools; ex_raw_add; ex_raw_end].

(** A response with the stop reason [max_tokens] and no text. *)
Definition ex_raw_max_tokens : Raw.t :=
  Raw.mk ex_usage None (Some "max_tokens")
    (Some [Block.tool_use "t9" "add" (ex_args 1 2) None]).

(** A response with the stop reason [pause_turn] and some text. *)
Definition ex_raw_pause : Raw.t :=
  Raw.mk ex_usage None (Some "pause_turn") (Some [Block.text_block "Wait"]).

(** ** Registration sequences, sums and further vocabulary *)

(** The arguments of one use of the [tool] decorator. *)
Module Registration.
Record t (World : Type) : Type := mk {
  description : string;
  input_schema : pyval;
  caller : caller_literal;
  name : option string;
  fn : PyFunction.t World
}.
Arguments mk {World}.
Arguments description {World}.
Arguments input_schema {World}.
Arguments caller {World}.
Arguments name {World}.
Arguments fn {World}.
End Registration.

(** One use of the decorator, and a sequence of uses in program order. *)
Definition register {World} (self : ProgrammaticToolClient World)
    (r : Registration.t World) : ProgrammaticToolClient World :=
  tool self (Registration.description r) (Registration.input_schema r)
    (Registration.caller r) (Registration.name r) (Registration.fn r).

Definition register_all {World} (self : ProgrammaticToolClient World)
    (regs : list (Registration.t World)) : ProgrammaticToolClient World :=
  fold_left register regs self.

(** The name a registration registers under and the definition it stores. *)
Definition registered_name {World} (r : Registration.t World) : string :=
  tool_name (Registration.name r) (Registration.fn r).

Definition definition_of {World} (r : Registration.t World)
  : ToolDefinition.t World :=
  ToolDefinition.mk (registered_name r) (Registration.description r)
    (Registration.input_schema r) (Registration.fn r)
    (caller_map (Registration.caller r)).

(** The last registration of a sequence made under the name [name]. *)
Definition last_registration {World} (name : string)
    (regs : list (Registration.t World)) : option (Registration.t World) :=
  find (fun r => String.eqb (registered_name r) name) (rev regs).

(** A list of names without its repetitions, each name at its first
    occurrence. *)
Fixpoint first_occurrences (names : list string) : list string :=
  match names with
  | [] => []
  | n :: names' =>
      n :: filter (fun n' => negb (String.eqb n' n)) (first_occurrences names')
  end.

(** The catalog entry of a tool definition. *)
Definition tool_param {World} (td : ToolDefinition.t World) : ToolParam.t :=
  ToolParam.mk None (ToolDefinition.name td)
    (Some (ToolDefinition.description td))
    (Some (ToolDefinition.input_schema td))
    (Some (ToolDefinition.allowed_callers td)).

(** The sum of a count over a sequence of responses. *)
Definition sum_tokens (count : Raw.t -> Z) (raws : list Raw.t) : Z :=
  fold_right (fun raw total => count raw + total) 0 raws.

(** The stop reason of a response is [tool_use]. *)
Definition is_tool_use (raw : Raw.t) : Prop :=
  get (Raw.stop_reason raw) "" = "tool_use".

(** The roles of a conversation that has seen [n] tool-use exchanges. *)
Fixpoint alternating_roles (n : nat) : list string :=
  match n with
  | O => []
  | S n' => ("assistant" :: "user" :: alternating_roles n')%list
  end.

(** The content of the assistant turns of a conversation, in order. *)
Definition assistant_contents (messages : list Message.t)
  : list message_content :=
  map Message.content
    (filter (fun m => String.eqb (Message.role m) "assistant") messages).

(** The same client with another expiry-warning buffer. *)
Definition with_timeout_buffer {World} (self : ProgrammaticToolClient World)
    (timeout_buffer_seconds : Z) : ProgrammaticToolClient World :=
  mk_client (_client self) (_model self) (_max_tokens self)
    timeout_buffer_seconds (_tools self).

(** The same invocation with another [caller] object. *)
Definition with_caller (tc : Block.t) (caller : option (nullable Caller.t))
  : Block.t :=
  Block.mk (Block.type tc) (Block.text tc) (Block.id tc) (Block.name tc)
    (Block.input tc) caller (Block.tool_use_id tc) (Block.content tc).

(** ** The [fetch_logs] tool of [examples.py] *)

(** The [logs] table of [fetch_logs]. *)
Definition fetch_logs_table : list (string * string) :=
  [("web-01",
    join newline
      ["2025-01-15 10:00:01 INFO  Request /api/users 200 45ms";
       "2025-01-15 10:00:02 ERROR Connection pool exhausted";
       "2025-01-15 10:00:03 INFO  Request /api/orders 200 23ms";
       "2025-01-15 10:00:04 WARN  Slow query detected: 850ms";
       "2025-01-15 10:00:05 ERROR Database timeout after 30s";
       "2025-01-15 10:00:06 INFO  Request /api/products 200 12ms"]);
   ("db-01",
    join newline
      ["2025-01-15 10:00:01 INFO  Checkpoint complete";
       "2025-01-15 10:00:02 ERROR Replication lag: 15s";
       "2025-01-15 10:00:03 INFO  Vacuum started"])].

(** The class name of a value that cannot be a dictionary key, if any.
    Arguments decoded from JSON hold no [PObject]; it is taken as
    hashable. *)
Definition unhashable (v : pyval) : option string :=
  match v with
  | PList _ => Some "list"
  | PDict _ => Some "dict"
  | _ => None
  end.

(** [logs.get(server_id, "No logs found")] *)
Definition fetch_logs_body {World} (server_id : pyval) : M World pyval :=
  match unhashable server_id with
  | Some class_name =>
      raise (TypeError ("unhashable type: '" ++ class_name ++ "'"))
  | None =>
      match server_id with
      | PStr s => ret (PStr (get (dict_get s fetch_logs_table) "No logs found"))
      | _ => ret (PStr "No logs found")
      end
  end.

(** The name under which the interpreter reports the nested function in
    its messages. *)
Definition fetch_logs_qualname : string :=
  "example_conditional_filtering.<locals>.fetch_logs".

(** [async def fetch_logs(server_id: str) -> str].  A call with the
    unpacked arguments binds the one parameter [server_id]: any other
    keyword, and the absence of this one, raise [TypeError]. *)
Definition fetch_logs {World} : PyFunction.t World :=
  PyFunction.mk "fetch_logs" true
    (fun input_data =>
       match find (fun kv => negb (String.eqb (fst kv) "server_id"))
               input_data with
       | Some (k, _) =>
           raise (TypeError
                    (fetch_logs_qualname
                     ++ "() got an unexpected keyword argument '" ++ k ++ "'"))
       | None =>
           match dict_get "server_id" input_data with
           | Some server_id => fetch_logs_body server_id
           | None =>
               raise (TypeError
                        (fetch_logs_qualname
                         ++ "() missing 1 required positional argument: "
                         ++ "'server_id'"))
           end
       end).

(** The registration of [fetch_logs] in [example_conditional_filtering]. *)
Definition fetch_logs_registration {World} : Registration.t World :=
  Registration.mk
    ("Fetch full log contents for a server. "
     ++ "Returns the complete log as a string, one entry per line.")
    (PDict
       [("type", PStr "object");
        ("properties",
         PDict
           [("server_id",
             PDict [("type", PStr "string");
                    ("description", PStr "Server identifier")])]);
        ("required", PList [PStr "server_id"])])
    CodeExecution None fetch_logs.

(** ** Further example data *)

(** A handler that acts on the world: [def bump(): counter += 1]. *)
Definition ex_bump : PyFunction.t nat :=
  PyFunction.mk "bump" false (fun _ w => (Ok PNone, S w)).

(** [def make_set(): return set()], a value [json.dumps] rejects. *)
Definition ex_make_set : PyFunction.t nat :=
  PyFunction.mk "make_set" false (fun _ => ret (PObject "set")).

Definition ex_registration (fn : PyFunction.t nat) : Registration.t nat :=
  Registration.mk "An example tool." ex_schema CodeExecution None fn.

(** A [tool_use] response without any tool-use block. *)
Definition ex_raw_no_calls : Raw.t :=
  Raw.mk ex_usage None (Some "tool_use")
    (Some [Block.text_block "Thinking about it."]).

(** A tool-use entry for [bump] without its [id]. *)
Definition ex_call_without_id : Block.t :=
  Block.mk (Some "tool_use") None None (Some "bump") (Some []) None None None.

(** A response, with a given stop reason, that has a text block without
    [text]. *)
Definition ex_raw_textless (stop_reason : string) : Raw.t :=
  Raw.mk None None (Some stop_reason)
    (Some [Block.text_block "a";
           Block.mk (Some "text") None None None None None None None]).

(** A response with a usage record that lacks the output count. *)
Definition ex_raw_partial_usage : Raw.t :=
  Raw.mk (Some (Usage.mk (Some 7) None)) None (Some "end_turn") (Some []).

(** * Properties *)

(** ** Dictionaries *)

Lemma dict_get_set_eq {V} (k : string) (v : V) (d : list (string * V)) :
  dict_get k (dict_set k v d) = Some v.
Proof.
  induction d as [|[k' v'] d IH]; simpl.
  - now rewrite String.eqb_refl.
  - destruct (String.eqb k k') eqn:E; simpl; rewrite E; auto.
Qed.

Lemma dict_get_set_neq {V} (k k' : string) (v : V) (d : list (string * V)) :
  k' <> k -> dict_get k' (dict_set k v d) = dict_get k' d.
Proof.
  intros Hne. induction d as [|[k0 v0] d IH]; simpl.
  - apply String.eqb_neq in Hne. now rewrite Hne.
  - destruct (String.eqb k k0) eqn:E; simpl.
    + apply String.eqb_eq in E. subst k0.
      apply String.eqb_neq in Hne. now rewrite Hne.
    + now rewrite IH.
Qed.

Lemma dict_keys_set {V} (k : string) (v : V) (d : list (string * V)) :
  dict_keys (dict_set k v d)
  = match dict_get k d with
    | Some _ => dict_keys d
    | None => (dict_keys d ++ [k])%list
    end.
Proof.
  unfold dict_keys.
  induction d as [|[k' v'] d IH]; simpl; [reflexivity|].
  destruct (String.eqb k k') eqn:E; simpl; [reflexivity|].
  rewrite IH. now destruct (dict_get k d).
Qed.

Lemma dict_get_None_iff {V} (k : string) (d : list (string * V)) :
  dict_get k d = None <-> ~ In k (dict_keys d).
Proof.
  induction d as [|[k' v'] d IH]; simpl.
  - tauto.
  - destruct (String.eqb k k') eqn:E.
    + apply String.eqb_eq in E. subst. split; [discriminate | tauto].
    + apply String.eqb_neq in E. rewrite IH. split.
      * intros H [H1 | H1]; [congruence | tauto].
      * tauto.
Qed.

Lemma dict_set_NoDup {V} (k : string) (v : V) (d : list (string * V)) :
  NoDup (dict_keys d) -> NoDup (dict_keys (dict_set k v d)).
Proof.
  intros Hd. rewrite dict_keys_set.
  destruct (dict_get k d) eqn:E; [assumption|].
  apply dict_get_None_iff in E.
  apply NoDup_app; [assumption | repeat constructor; tauto |].
  intros a Ha [Hk | []]. now subst.
Qed.

Lemma dict_count_not_In {V} (k : string) (d : list (string * V)) :
  ~ In k (dict_keys d) -> dict_count k d = 0%nat.
Proof.
  unfold dict_count, dict_keys.
  induction d as [|[k' v'] d IH]; simpl; [reflexivity|].
  intros H. destruct (String.eqb k k') eqn:E.
  - apply String.eqb_eq in E. subst. tauto.
  - apply IH. tauto.
Qed.

Lemma dict_count_NoDup {V} (k : string) (v : V) (d : list (string * V)) :
  NoDup (dict_keys d) -> dict_get k d = Some v -> dict_count k d = 1%nat.
Proof.
  unfold dict_count, dict_keys.
  induction d as [|[k' v'] d IH]; simpl; [discriminate|].
  intros Hd Hg. inversion Hd as [|? ? Hnin Hd']; subst.
  destruct (String.eqb k k') eqn:E; simpl.
  - apply String.eqb_eq in E. subst.
    apply dict_count_not_In in Hnin. unfold dict_count in Hnin.
    now rewrite Hnin.
  - now apply IH.
Qed.

(** ** Dispatch *)

Section Dispatch.

Variable World : Type.
Variable json_dumps : pyval -> result string.
Variable self : ProgrammaticToolClient World.

Lemma execute_tool_unknown (name : string) (input_data : kwargs) (w : World) :
  dict_get name (_tools self) = None ->
  _execute_tool json_dumps self name input_data w
  = (Ok ("Error: Unknown tool '" ++ name ++ "'"), w).
Proof. intros H. unfold _execute_tool. now rewrite H. Qed.

Lemma execute_tool_returns (name : string) (td : ToolDefinition.t World)
    (input_data : kwargs) (w w' : World) (v : pyval) :
  dict_get name (_tools self) = Some td ->
  PyFunction.call (ToolDefinition.handler td) input_data w = (Ok v, w') ->
  _execute_tool json_dumps self name input_data w
  = match v with
    | PStr s => (Ok s, w')
    | _ =>
        match json_dumps v with
        | Ok t => (Ok t, w')
        | Err e =>
            if exc_is_Exception e
            then (Ok ("Error: " ++ exc_name e ++ ": " ++ exc_str e), w')
            else (Err e, w')
        end
    end.
Proof.
  intros Hg Hc. unfold _execute_tool, try_except_Exception, bind.
  rewrite Hg.
  destruct (PyFunction.iscoroutinefunction (ToolDefinition.handler td));
    rewrite Hc; destruct v; try reflexivity;
    unfold lift; destruct (json_dumps _); reflexivity.
Qed.

Lemma execute_tool_raises (name : string) (td : ToolDefinition.t World)
    (input_data : kwargs) (w w' : World) (e : exn) :
  dict_get name (_tools self) = Some td ->
  PyFunction.call (ToolDefinition.handler td) input_data w = (Err e, w') ->
  _execute_tool json_dumps self name input_data w
  = if exc_is_Exception e
    then (Ok ("Error: " ++ exc_name e ++ ": " ++ exc_str e), w')
    else (Err e, w').
Proof.
  intros Hg Hc. unfold _execute_tool, try_except_Exception, bind.
  rewrite Hg.
  destruct (PyFunction.iscoroutinefunction (ToolDefinition.handler td));
    rewrite Hc; reflexivity.
Qed.

(** An exception that leaves dispatch does not derive from [Exception]. *)
Lemma execute_tool_escapes (name : string) (input_data : kwargs)
    (w w' : World) (e : exn) :
  _execute_tool json_dumps self name input_data w = (Err e, w') ->
  exc_is_Exception e = false.
Proof.
  destruct (dict_get name (_tools self)) as [td|] eqn:Hg.
  - destruct (PyFunction.call (ToolDefinition.handler td) input_data w)
      as [[v|e0] w0] eqn:Hc.
    + rewrite (execute_tool_returns _ _ _ _ _ _ Hg Hc).
      destruct v; try discriminate;
        destruct (json_dumps _) as [t|e1]; try discriminate;
        destruct (exc_is_Exception e1) eqn:E; try discriminate;
        intros H; inversion H; subst; assumption.
    + rewrite (execute_tool_raises _ _ _ _ _ _ Hg Hc).
      destruct (exc_is_Exception e0) eqn:E; try discriminate.
      intros H; inversion H; subst; assumption.
  - rewrite (execute_tool_unknown _ _ _ Hg). discriminate.
Qed.

(** With handlers and serialiser that raise nothing outside [Exception],
    dispatch always returns a string. *)
Lemma execute_tool_total (name : string) (input_data : kwargs) (w : World) :
  handlers_raise_Exception_only self ->
  dumps_raises_Exception_only json_dumps ->
  exists s w', _execute_tool json_dumps self name input_data w = (Ok s, w').
Proof.
  intros Hh Hj.
  destruct (_execute_tool json_dumps self name input_data w)
    as [[s|e] w'] eqn:E; [eauto|].
  exfalso. pose proof (execute_tool_escapes _ _ _ _ _ E) as Hesc.
  destruct (dict_get name (_tools self)) as [td|] eqn:Hg.
  - destruct (PyFunction.call (ToolDefinition.handler td) input_data w)
      as [[v|e0] w0] eqn:Hc.
    + rewrite (execute_tool_returns _ _ _ _ _ _ Hg Hc) in E.
      destruct v; try discriminate;
        destruct (json_dumps _) as [t|e1] eqn:Ej; try discriminate;
        rewrite (Hj _ _ Ej) in E; discriminate.
    + rewrite (execute_tool_raises _ _ _ _ _ _ Hg Hc) in E.
      rewrite (Hh _ _ _ _ _ _ Hg Hc) in E. discriminate.
  - rewrite (execute_tool_unknown _ _ _ Hg) in E. discriminate.
Qed.

End Dispatch.

(** ** The loop body *)

Section LoopBody.

Variable World : Type.
Variable json_dumps : pyval -> result string.
Variable fromisoformat : string -> result Datetime.t.
Variable now : World -> Z.
Variable self : ProgrammaticToolClient World.

(** The classification raises on a [caller] that is [None] only. *)
Lemma is_programmatic_Ok (tc : Block.t) :
  Block.caller tc <> Some IsNone ->
  exists is_prog, _is_programmatic tc = Ok is_prog.
Proof.
  unfold _is_programmatic. intros H.
  destruct (Block.caller tc) as [[|c]|]; cbn [get]; eauto.
  now elim H.
Qed.

Lemma is_programmatic_Err (tc : Block.t) (e : exn) :
  _is_programmatic tc = Err e ->
  Block.caller tc = Some IsNone
  /\ e = AttributeError "'NoneType' object has no attribute 'get'".
Proof.
  unfold _is_programmatic.
  destruct (Block.caller tc) as [[|c]|]; cbn [get]; try discriminate.
  intros H. inversion H. auto.
Qed.



Lemma dispatches_classified (tool_calls tool_results : list Block.t)
    (w w' : World) :
  dispatches json_dumps self tool_calls w tool_results w' ->
  Forall (fun tc => exists is_prog, _is_programmatic tc = Ok is_prog)
    tool_calls.
Proof. induction 1; constructor; eauto. Qed.

(** The [for] loop succeeds exactly when every invocation is classified
    and every dispatch returns. *)
Lemma build_tool_results_inv (tool_calls : list Block.t) :
  forall (total : Z) (results : list Block.t) (w w' : World)
         (total' : Z) (results' : list Block.t),
    build_tool_results json_dumps self tool_calls total results w
    = (Ok (total', results'), w') ->
    exists rs,
      dispatches json_dumps self tool_calls w rs w'
      /\ total' = total + Z.of_nat (length tool_calls)
      /\ results' = (results ++ rs)%list.
Proof.
  induction tool_calls as [|tc rest IH]; intros total results w w' total' results'.
  - simpl. unfold ret. intros H. inversion H; subst.
    exists []. repeat split; [constructor | lia | now rewrite app_nil_r].
  - cbn [build_tool_results]. unfold bind, getitem, lift.
    destruct (_is_programmatic tc) as [b|e] eqn:Hp; [|discriminate].
    destruct (Block.name tc) as [name|] eqn:Hn; [|discriminate].
    destruct (Block.input tc) as [input|] eqn:Hi; [|discriminate].
    unfold ret at 1 2.
    destruct (_execute_tool json_dumps self name input w) as [[s|e] w1] eqn:He;
      [|discriminate].
    destruct (Block.id tc) as [id|] eqn:Hid; [|discriminate].
    unfold ret at 1. intros H. apply IH in H as (rs & Hd & Ht & Hr).
    exists (Block.tool_result id s :: rs). repeat split.
    + econstructor; eassumption.
    + rewrite Ht. cbn [length]. lia.
    + rewrite Hr, <- app_assoc. reflexivity.
Qed.

Lemma build_tool_results_complete (tool_calls rs : list Block.t)
    (w w' : World) :
  dispatches json_dumps self tool_calls w rs w' ->
  forall (total : Z) (results : list Block.t),
    build_tool_results json_dumps self tool_calls total results w
    = (Ok (total + Z.of_nat (length tool_calls), (results ++ rs)%list), w').
Proof.
  induction 1
    as [|tc rest b name input id s w w1 w2 rs Hp Hn Hi Hid He Hd IH];
    intros total results.
  - simpl. unfold ret. now rewrite Z.add_0_r, app_nil_r.
  - cbn [build_tool_results]. unfold bind, getitem, lift.
    rewrite Hp, Hn, Hi. unfold ret at 1 2. rewrite He, Hid. unfold ret at 1.
    rewrite IH, <- app_assoc.
    replace (total + 1 + Z.of_nat (length rest))
      with (total + Z.of_nat (length (tc :: rest)))
      by (cbn [length]; lia).
    reflexivity.
Qed.

(** One pass of the [for] loop whose dispatch returns. *)
Lemma build_tool_results_step (tc : Block.t) (rest : list Block.t)
    (is_prog : bool) (name : string) (input : kwargs) (id result_str : string)
    (total : Z) (results : list Block.t) (w w1 : World) :
  _is_programmatic tc = Ok is_prog ->
  Block.name tc = Some name ->
  Block.input tc = Some input ->
  Block.id tc = Some id ->
  _execute_tool json_dumps self name input w = (Ok result_str, w1) ->
  build_tool_results json_dumps self (tc :: rest) total results w
  = build_tool_results json_dumps self rest (total + 1)
      (results ++ [Block.tool_result id result_str])%list w1.
Proof.
  intros Hp Hn Hi Hid He.
  cbn [build_tool_results]. unfold bind, getitem, lift.
  rewrite Hp, Hn, Hi. unfold ret at 1 2. now rewrite He, Hid.
Qed.

(** One pass of the [for] loop whose dispatch raises. *)
Lemma build_tool_results_raise (tc : Block.t) (rest : list Block.t)
    (is_prog : bool) (name : string) (input : kwargs) (e : exn)
    (total : Z) (results : list Block.t) (w w1 : World) :
  _is_programmatic tc = Ok is_prog ->
  Block.name tc = Some name ->
  Block.input tc = Some input ->
  _execute_tool json_dumps self name input w = (Err e, w1) ->
  build_tool_results json_dumps self (tc :: rest) total results w
  = (Err e, w1).
Proof.
  intros Hp Hn Hi He.
  cbn [build_tool_results]. unfold bind, getitem, lift.
  rewrite Hp, Hn, Hi. unfold ret at 1 2. now rewrite He.
Qed.

(** Well-formed invocations dispatched to handlers that raise nothing
    outside [Exception] all return. *)
Lemma dispatches_total (tool_calls : list Block.t) :
  handlers_raise_Exception_only self ->
  dumps_raises_Exception_only json_dumps ->
  forallb well_formed_call tool_calls = true ->
  forall w, exists rs w', dispatches json_dumps self tool_calls w rs w'.
Proof.
  intros Hh Hj. induction tool_calls as [|tc rest IH]; intros Hwf w.
  - exists [], w. constructor.
  - simpl in Hwf. apply andb_true_iff in Hwf as [Htc Hrest].
    unfold well_formed_call in Htc.
    destruct (Block.name tc) as [name|] eqn:Hn; [|discriminate].
    destruct (Block.input tc) as [input|] eqn:Hi; [|discriminate].
    destruct (Block.id tc) as [id|] eqn:Hid; [|discriminate].
    assert (Hc : Block.caller tc <> Some IsNone).
    { intros Hc. rewrite Hc in Htc. discriminate. }
    destruct (is_programmatic_Ok tc Hc) as (b & Hp).
    destruct (execute_tool_total World json_dumps self name input w Hh Hj)
      as (s & w1 & He).
    destruct (IH Hrest w1) as (rs & w2 & Hd).
    exists (Block.tool_result id s :: rs), w2. econstructor; eassumption.
Qed.

(** The expiry check as the loop body runs it: on a session descriptor
    that is not empty. *)
Local Abbreviation expiry_check container :=
  (match container with
   | Some c =>
       if Container.truthy c
       then _check_container_expiry fromisoformat now self container
       else ret false
   | None => ret false
   end).

(** The check never changes the world; it returns when
    [expiry_check_passes] and raises otherwise. *)
Lemma expiry_check_inv (raw : Raw.t) (w w' : World) (r : result bool) :
  expiry_check (Raw.container raw) w = (r, w') ->
  w' = w
  /\ match r with
     | Ok _ => expiry_check_passes fromisoformat raw = true
     | Err e =>
         expiry_check_passes fromisoformat raw = false
         /\ _check_container_expiry fromisoformat now self
              (Raw.container raw) w = (Err e, w)
     end.
Proof.
  unfold expiry_check_passes, _check_container_expiry, ret, raise, bind, lift.
  destruct (Raw.container raw) as [c|];
    [|intros H; inversion H; subst; auto].
  unfold Container.truthy.
  destruct (Container.expires_at c) as [[s|d|]|].
  - destruct (Container.id c); cbn [negb];
      (destruct (fromisoformat (replace_Z s)) as [dt|e];
       [destruct (Datetime.aware dt)|];
       intros H; inversion H; subst; auto).
  - destruct (Container.id c); cbn [negb];
      intros H; inversion H; subst; auto.
  - destruct (Container.id c); cbn [negb];
      intros H; inversion H; subst; auto.
  - destruct (Container.id c); cbn [negb];
      intros H; inversion H; subst; auto.
Qed.

Lemma expiry_check_Ok (raw : Raw.t) (w : World) :
  expiry_check_passes fromisoformat raw = true ->
  exists warned, expiry_check (Raw.container raw) w = (Ok warned, w).
Proof.
  intros Hpass.
  destruct (expiry_check (Raw.container raw) w) as [[b|e] w'] eqn:Hc;
    apply expiry_check_inv in Hc as [-> Hr].
  - eauto.
  - destruct Hr as [Hr _]. congruence.
Qed.

Lemma expiry_check_Err (raw : Raw.t) (w : World) :
  expiry_check_passes fromisoformat raw = false ->
  exists e,
    expiry_check (Raw.container raw) w = (Err e, w)
    /\ _check_container_expiry fromisoformat now self (Raw.container raw) w
       = (Err e, w).
Proof.
  intros Hfail.
  destruct (expiry_check (Raw.container raw) w) as [[b|e] w'] eqn:Hc;
    apply expiry_check_inv in Hc as [-> Hr].
  - congruence.
  - destruct Hr as [_ Hr]. eauto.
Qed.

Lemma comprehension_text (blocks : list Block.t) :
  forall (w w' : World) (parts : list string),
    comprehension (fun block => getitem "text" (Block.text block)) blocks w
    = (Ok parts, w') ->
    w' = w
    /\ parts = map (fun block => get (Block.text block) "") blocks
    /\ Forall (fun block => Block.text block <> None) blocks.
Proof.
  induction blocks as [|b blocks IH]; intros w w' parts.
  - simpl. unfold ret. intros H. inversion H. auto.
  - cbn [comprehension]. unfold bind, getitem.
    destruct (Block.text b) as [t|] eqn:Ht; [|discriminate].
    unfold ret at 1.
    destruct (comprehension _ blocks w) as [[ps|e] w1] eqn:Hc; [|discriminate].
    unfold ret. intros H. inversion H; subst.
    destruct (IH _ _ _ Hc) as (-> & -> & Hall). split; [reflexivity|]. split.
    + simpl. now rewrite Ht.
    + constructor; [congruence | assumption].
Qed.

Lemma comprehension_text_complete (blocks : list Block.t) (w : World) :
  Forall (fun block => Block.text block <> None) blocks ->
  comprehension (fun block => getitem "text" (Block.text block)) blocks w
  = (Ok (map (fun block => get (Block.text block) "") blocks), w).
Proof.
  set (F := fun block : Block.t => getitem "text" (Block.text block)).
  induction 1 as [|blk blocks Hb Ht IH]; [reflexivity|].
  cbn [comprehension map]. unfold bind at 1. unfold F at 1.
  destruct (Block.text blk) as [t|]; [|congruence].
  cbn [getitem get]. unfold ret at 1, bind at 1. rewrite IH. reflexivity.
Qed.

End LoopBody.

(** ** One response *)

Section Response.

Variable World : Type.
Variable json_dumps : pyval -> result string.
Variable fromisoformat : string -> result Datetime.t.
Variable now : World -> Z.
Variable self : ProgrammaticToolClient World.

Local Abbreviation process :=
  (process_response json_dumps fromisoformat now self).

(** Unfolds the loop body and steps over an expiry check that passes. *)
Local Ltac step_over_expiry_check raw w Hpass :=
  unfold process_response, bind;
  let b := fresh "b" in
  let Hb := fresh "Hb" in
  destruct (expiry_check_Ok World fromisoformat now self raw w Hpass)
    as [b Hb];
  rewrite Hb.

(** Unfolds the loop body of a response that did not raise: its expiry
    check passed. *)
Local Ltac invert_expiry_check raw w Hpass :=
  unfold process_response, bind;
  let b := fresh "b" in
  let e := fresh "e" in
  let w1 := fresh "w" in
  let Hc := fresh "Hc" in
  destruct (match Raw.container raw with
            | Some c =>
                if Container.truthy c
                then _check_container_expiry fromisoformat now self
                       (Raw.container raw)
                else ret false
            | None => ret false
            end w) as [[b|e] w1] eqn:Hc; [|discriminate];
  apply expiry_check_inv in Hc as [-> Hpass].

(** A response whose expiry check raises ends the run with that error,
    whatever its stop reason. *)
Lemma process_response_expiry_Err (st : Loop.t) (raw : Raw.t) (w : World) :
  expiry_check_passes fromisoformat raw = false ->
  exists e,
    process st raw w = (Err e, w)
    /\ _check_container_expiry fromisoformat now self (Raw.container raw) w
       = (Err e, w).
Proof.
  intros Hfail.
  destruct (expiry_check_Err World fromisoformat now self raw w Hfail)
    as (e & Hc & He).
  exists e. split; [|assumption].
  unfold process_response, bind. now rewrite Hc.
Qed.

(** A [tool_use] response whose invocations all dispatch continues the
    loop. *)
Lemma process_response_tool_use (st : Loop.t) (raw : Raw.t) (w w' : World)
    (rs : list Block.t) :
  expiry_check_passes fromisoformat raw = true ->
  get (Raw.stop_reason raw) "" = "tool_use" ->
  dispatches json_dumps self
    (_extract_tool_calls (get (Raw.content raw) [])) w rs w' ->
  process st raw w = (Ok (Continue (next_state st raw rs)), w').
Proof.
  intros Hpass Hs Hd. step_over_expiry_check raw w Hpass.
  rewrite Hs. cbn [String.eqb Ascii.eqb Bool.eqb].
  rewrite (build_tool_results_complete _ _ _ _ _ _ _ Hd). reflexivity.
Qed.

(** A [tool_use] response in which the [for] loop raises ends the run
    with that error. *)
Lemma process_response_tool_use_Err (st : Loop.t) (raw : Raw.t)
    (w w' : World) (e : exn) :
  expiry_check_passes fromisoformat raw = true ->
  get (Raw.stop_reason raw) "" = "tool_use" ->
  build_tool_results json_dumps self
    (_extract_tool_calls (get (Raw.content raw) []))
    (Loop.total_tool_calls st) [] w = (Err e, w') ->
  process st raw w = (Err e, w').
Proof.
  intros Hpass Hs Hb. step_over_expiry_check raw w Hpass.
  rewrite Hs. cbn [String.eqb Ascii.eqb Bool.eqb].
  now rewrite Hb.
Qed.

(** A response whose stop reason is neither [end_turn] nor [tool_use] ends
    the run. *)
Lemma process_response_other (st : Loop.t) (raw : Raw.t) (w : World) :
  expiry_check_passes fromisoformat raw = true ->
  get (Raw.stop_reason raw) "" <> "end_turn" ->
  get (Raw.stop_reason raw) "" <> "tool_use" ->
  process st raw w
  = (Ok (Return
           (final_result st raw
              (if String.eqb (response_text raw) ""
               then "Unexpected stop: " ++ get (Raw.stop_reason raw) ""
               else response_text raw))), w).
Proof.
  intros Hpass H1 H2. step_over_expiry_check raw w Hpass.
  apply String.eqb_neq in H1, H2. rewrite H1, H2. reflexivity.
Qed.

(** An [end_turn] response whose text blocks all carry their text ends the
    run. *)
Lemma process_response_end_turn (st : Loop.t) (raw : Raw.t) (w : World) :
  expiry_check_passes fromisoformat raw = true ->
  get (Raw.stop_reason raw) "" = "end_turn" ->
  Forall (fun block => Block.text block <> None)
    (text_blocks (get (Raw.content raw) [])) ->
  process st raw w = (Ok (Return (final_result st raw (response_text raw))), w).
Proof.
  intros Hpass Hs Ht. step_over_expiry_check raw w Hpass.
  rewrite Hs. cbn [String.eqb Ascii.eqb Bool.eqb].
  rewrite (comprehension_text_complete World _ w Ht). reflexivity.
Qed.

Lemma process_response_Continue_inv (st st' : Loop.t) (raw : Raw.t)
    (w w' : World) :
  process st raw w = (Ok (Continue st'), w') ->
  get (Raw.stop_reason raw) "" = "tool_use"
  /\ expiry_check_passes fromisoformat raw = true
  /\ exists rs,
       dispatches json_dumps self
         (_extract_tool_calls (get (Raw.content raw) [])) w rs w'
       /\ st' = next_state st raw rs.
Proof.
  invert_expiry_check raw w Hpass.
  destruct (String.eqb (get (Raw.stop_reason raw) "") "end_turn") eqn:E1.
  { destruct (comprehension _ _ w) as [[ps|e] w1]; discriminate. }
  destruct (String.eqb (get (Raw.stop_reason raw) "") "tool_use") eqn:E2;
    [|discriminate].
  apply String.eqb_eq in E2.
  destruct (build_tool_results _ _ _ _ _ w) as [[[total rs]|e] w1] eqn:Hb;
    [|discriminate].
  unfold ret. intros Hret. inversion Hret; subst. clear Hret.
  apply build_tool_results_inv in Hb as (rs' & Hd & -> & ->).
  split; [assumption|]. split; [assumption|].
  exists rs'. split; [assumption | reflexivity].
Qed.

Lemma process_response_Return_inv (st : Loop.t) (raw : Raw.t)
    (w w' : World) (r : RunResult.t) :
  process st raw w = (Ok (Return r), w') ->
  w' = w
  /\ get (Raw.stop_reason raw) "" <> "tool_use"
  /\ r = final_result st raw
           (if String.eqb (get (Raw.stop_reason raw) "") "end_turn"
            then response_text raw
            else if String.eqb (response_text raw) ""
                 then "Unexpected stop: " ++ get (Raw.stop_reason raw) ""
                 else response_text raw)
  /\ (get (Raw.stop_reason raw) "" = "end_turn" ->
      Forall (fun block => Block.text block <> None)
        (text_blocks (get (Raw.content raw) [])))
  /\ expiry_check_passes fromisoformat raw = true.
Proof.
  invert_expiry_check raw w Hpass.
  destruct (String.eqb (get (Raw.stop_reason raw) "") "end_turn") eqn:E1.
  - apply String.eqb_eq in E1.
    destruct (comprehension _ _ w) as [[ps|e] w1] eqn:Hc; [|discriminate].
    apply comprehension_text in Hc as (-> & -> & Hall).
    unfold ret. intros Hret. inversion Hret; subst. clear Hret.
    split; [reflexivity|]. split; [|split; [reflexivity | auto]].
    rewrite E1. discriminate.
  - destruct (String.eqb (get (Raw.stop_reason raw) "") "tool_use") eqn:E2.
    + destruct (build_tool_results _ _ _ _ _ w) as [[[total rs]|e] w1];
        discriminate.
    + apply String.eqb_neq in E2.
      unfold ret. intros Hret. inversion Hret; subst. clear Hret.
      split; [reflexivity|]. split; [assumption|].
      split; [reflexivity|]. split; [|assumption].
      intros Heq. rewrite Heq in E1. discriminate.
Qed.

End Response.

(** ** The loop *)

Section Run.

Variable World : Type.
Variable json_dumps : pyval -> result string.
Variable fromisoformat : string -> result Datetime.t.
Variable now : World -> Z.
Variable self : ProgrammaticToolClient World.
Variable tools : list ToolParam.t.
Variable system : option string.

Local Abbreviation body :=
  (iteration json_dumps fromisoformat now self tools system).
Local Abbreviation loop :=
  (while_true json_dumps fromisoformat now self tools system).

Lemma iteration_inv (st : Loop.t) (w w' : World) (x : step Loop.t) :
  body st w = (Ok x, w') ->
  exists raw w1,
    _client self (build_kwargs self tools system st) w = (Ok raw, w1)
    /\ process_response json_dumps fromisoformat now self st raw w1
       = (Ok x, w').
Proof.
  unfold iteration, bind.
  destruct (_client self _ w) as [[raw|e] w1]; [|discriminate].
  intros H. exists raw, w1. auto.
Qed.

(** A run that returns does so from a state reached through [tool_use]
    responses whose invocations all dispatched, on a response whose stop
    reason is not [tool_use]. *)
Lemma while_true_Returned (P : Loop.t -> Prop) :
  (forall st raw rs w w',
      P st -> get (Raw.stop_reason raw) "" = "tool_use" ->
      dispatches json_dumps self
        (_extract_tool_calls (get (Raw.content raw) [])) w rs w' ->
      P (next_state st raw rs)) ->
  forall (fuel : nat) (st : Loop.t) (w w' : World) (r : RunResult.t),
    P st ->
    loop fuel st w = (Returned r, w') ->
    exists st_f raw,
      P st_f
      /\ get (Raw.stop_reason raw) "" <> "tool_use"
      /\ r = final_result st_f raw
               (if String.eqb (get (Raw.stop_reason raw) "") "end_turn"
                then response_text raw
                else if String.eqb (response_text raw) ""
                     then "Unexpected stop: " ++ get (Raw.stop_reason raw) ""
                     else response_text raw)
      /\ (get (Raw.stop_reason raw) "" = "end_turn" ->
          Forall (fun block => Block.text block <> None)
            (text_blocks (get (Raw.content raw) []))).
Proof.
  intros Hstep. induction fuel as [|fuel IH]; intros st w w' r HP.
  - simpl. discriminate.
  - cbn [while_true].
    destruct (body st w) as [[[r0|st1]|e] w1] eqn:Hb; [| |discriminate].
    + intros H. inversion H; subst. clear H.
      apply iteration_inv in Hb as (raw & w2 & _ & Hp).
      apply process_response_Return_inv in Hp as (_ & Hs & Hr & Ht & _).
      exists st, raw. auto.
    + apply iteration_inv in Hb as (raw & w2 & _ & Hp).
      apply process_response_Continue_inv in Hp as (Hs & _ & rs & Hd & ->).
      apply IH. eapply Hstep; eassumption.
Qed.

(** A loop that receives an [end_turn] response whose text blocks carry
    their text returns on it. *)
Lemma while_true_end_turn (fuel : nat) (st : Loop.t) (raw : Raw.t)
    (w w' : World) :
  _client self (build_kwargs self tools system st) w = (Ok raw, w') ->
  expiry_check_passes fromisoformat raw = true ->
  get (Raw.stop_reason raw) "" = "end_turn" ->
  Forall (fun block => Block.text block <> None)
    (text_blocks (get (Raw.content raw) [])) ->
  loop (S fuel) st w
  = (Returned (final_result st raw (response_text raw)), w').
Proof.
  intros Hc Hpass Hs Ht. cbn [while_true]. unfold iteration, bind.
  rewrite Hc.
  now rewrite (process_response_end_turn World json_dumps fromisoformat now
                 self st raw w' Hpass Hs Ht).
Qed.

(** A loop whose first pass raises ends with that error. *)
Lemma while_true_Raised (fuel : nat) (st : Loop.t) (raw : Raw.t)
    (w w1 w' : World) (e : exn) :
  _client self (build_kwargs self tools system st) w = (Ok raw, w1) ->
  process_response json_dumps fromisoformat now self st raw w1
  = (Err e, w') ->
  loop (S fuel) st w = (Raised e, w').
Proof.
  intros Hc Hp. cbn [while_true]. unfold iteration, bind.
  now rewrite Hc, Hp.
Qed.

(** With a transport that always answers [tool_use], no number of
    iterations makes the loop return. *)
Lemma while_true_never_Returned :
  always_tool_use self ->
  forall (fuel : nat) (st : Loop.t) (w w' : World) (r : RunResult.t),
    loop fuel st w <> (Returned r, w').
Proof.
  intros Ht. induction fuel as [|fuel IH]; intros st w w' r.
  - simpl. discriminate.
  - cbn [while_true].
    destruct (body st w) as [[[r0|st1]|e] w1] eqn:Hb; [| |discriminate].
    + apply iteration_inv in Hb as (raw & w2 & Hc & Hp).
      apply process_response_Return_inv in Hp as (_ & Hs & _).
      destruct (Ht (build_kwargs self tools system st) w)
        as (raw' & w3 & Hc' & Hs').
      rewrite Hc in Hc'. inversion Hc'; subst. contradiction.
    + apply IH.
Qed.

(** With such a transport, well-formed responses and handlers that raise
    nothing outside [Exception], the loop is still running after any number
    of iterations, having made that many exchanges. *)
Lemma while_true_Running :
  always_tool_use self ->
  well_formed_responses fromisoformat self ->
  handlers_raise_Exception_only self ->
  dumps_raises_Exception_only json_dumps ->
  forall (fuel : nat) (st : Loop.t) (w : World),
  exists st' w',
    loop fuel st w = (Running st', w')
    /\ length (Loop.all_raw st') = (length (Loop.all_raw st) + fuel)%nat.
Proof.
  intros Ht Hwf Hh Hj. induction fuel as [|fuel IH]; intros st w.
  - exists st, w. simpl. split; [reflexivity | lia].
  - cbn [while_true]. unfold iteration, bind.
    destruct (Ht (build_kwargs self tools system st) w)
      as (raw & w1 & Hc & Hs).
    rewrite Hc.
    destruct (Hwf _ _ _ _ Hc) as [Hcalls Hpass].
    destruct (dispatches_total World json_dumps self _ Hh Hj Hcalls w1)
      as (rs & w2 & Hd).
    rewrite (process_response_tool_use World json_dumps fromisoformat now
               self st raw w1 w2 rs Hpass Hs Hd).
    destruct (IH (next_state st raw rs) w2) as (st' & w' & Hl & Hlen).
    exists st', w'. split; [assumption|].
    rewrite Hlen. cbn [next_state Loop.all_raw]. rewrite length_app.
    simpl. lia.
Qed.

End Run.

(** ** Invariants of the accumulated state *)

Lemma invocations_app (raws raws' : list Raw.t) :
  invocations (raws ++ raws') = (invocations raws ++ invocations raws')%list.
Proof. unfold invocations. apply flat_map_app. Qed.

Lemma invocations_tool_use (raw : Raw.t) :
  get (Raw.stop_reason raw) "" = "tool_use" ->
  invocations [raw] = _extract_tool_calls (get (Raw.content raw) []).
Proof.
  intros H. unfold invocations. simpl. rewrite H. simpl.
  apply app_nil_r.
Qed.

Lemma invocations_terminal (raw : Raw.t) :
  get (Raw.stop_reason raw) "" <> "tool_use" ->
  invocations [raw] = [].
Proof.
  intros H. unfold invocations. simpl.
  apply String.eqb_neq in H. now rewrite H.
Qed.

Lemma held_container_id_app (container_id : option string)
    (raws raws' : list Raw.t) :
  held_container_id container_id (raws ++ raws')
  = held_container_id (held_container_id container_id raws) raws'.
Proof. unfold held_container_id. apply fold_left_app. Qed.

Lemma track_container_Some (container : option Container.t)
    (container_id : option string) :
  container_id <> None -> track_container container container_id <> None.
Proof.
  intros H. unfold track_container.
  destruct container as [c|]; [|assumption].
  destruct (Container.truthy c); [|assumption].
  destruct (Container.id c); [discriminate | assumption].
Qed.

Lemma held_container_id_Some (raws : list Raw.t) :
  forall container_id,
    container_id <> None -> held_container_id container_id raws <> None.
Proof.
  unfold held_container_id.
  induction raws as [|raw raws IH]; intros cid H; simpl; [assumption|].
  apply IH. now apply track_container_Some.
Qed.

Lemma held_container_id_no_descriptor (raws : list Raw.t) :
  forall container_id,
    Forall (fun raw => Raw.container raw = None) raws ->
    held_container_id container_id raws = container_id.
Proof.
  unfold held_container_id.
  induction raws as [|raw raws IH]; intros cid H; simpl; [reflexivity|].
  inversion H as [|? ? Hraw Hrest]; subst.
  rewrite Hraw. simpl. now apply IH.
Qed.

(** * The properties of the registry, of dispatch and of the run loop *)

Section Claims.

Variable World : Type.
Variable json_dumps : pyval -> result string.
Variable fromisoformat : string -> result Datetime.t.
Variable now : World -> Z.

(** The content of a response, the tool-use blocks and the text blocks of a
    content, and the line feed, written out. *)
Local Abbreviation content_of raw :=
  (match Raw.content raw with Some content => content | None => [] end).
Local Abbreviation tool_use_blocks content :=
  (filter (fun block : Block.t =>
             match Block.type block with
             | Some type => String.eqb type "tool_use"
             | None => false
             end) content).
Local Abbreviation text_type_blocks content :=
  (filter (fun block : Block.t =>
             match Block.type block with
             | Some type => String.eqb type "text"
             | None => false
             end) content).
Local Abbreviation LF := (String "010"%char EmptyString).

Lemma execute_tool_registered (self : ProgrammaticToolClient World)
    (name : string) (td : ToolDefinition.t World) (input_data : kwargs)
    (w : World) :
  dict_get name (_tools self) = Some td ->
  _execute_tool json_dumps self name input_data w
  = dispatch_outcome json_dumps
      (PyFunction.call (ToolDefinition.handler td) input_data w).
Proof.
  intros Hg.
  destruct (PyFunction.call (ToolDefinition.handler td) input_data w)
    as [[v|e] w'] eqn:Hc.
  - rewrite (execute_tool_returns _ _ _ _ _ _ _ _ _ Hg Hc).
    unfold dispatch_outcome. destruct v; reflexivity.
  - now rewrite (execute_tool_raises _ _ _ _ _ _ _ _ _ Hg Hc).
Qed.

(** The texts of the text blocks that carry one are the values the joined
    text is made of. *)
Lemma text_blocks_texts (blocks : list Block.t) :
  Forall (fun block => Block.text block <> None) blocks ->
  map Block.text blocks
  = map Some (map (fun block => get (Block.text block) "") blocks).
Proof.
  induction 1 as [|block blocks Hb _ IH]; [reflexivity|].
  cbn [map]. rewrite IH.
  destruct (Block.text block); [reflexivity | congruence].
Qed.

(** C1, as amended.  The only exceptions that leave dispatch do not derive
    from [Exception].  An unregistered name yields the error string
    "Error: Unknown tool '<name>'".  An exception raised by the registered
    handler, or by the serialisation of the value it returned, is caught
    and yields the error string "Error: <kind>: <message>" when it derives
    from [Exception], and leaves dispatch when it does not.  Whatever
    string dispatch returns becomes the content of the tool-result entry,
    and the [for] loop goes on with the remaining invocations; an exception
    that leaves dispatch leaves the [for] loop and the run loop too.  When
    no handler and no serialisation raises outside [Exception], a
    [tool_use] response with well-formed invocations, whose expiry check
    passes, continues the run loop. *)
Theorem execute_tool_contains_Exception
    (self : ProgrammaticToolClient World) (name : string)
    (input_data : kwargs) (w : World) :
  (forall e w',
      _execute_tool json_dumps self name input_data w = (Err e, w') ->
      exc_is_Exception e = false)
  /\ (dict_get name (_tools self) = None ->
      _execute_tool json_dumps self name input_data w
      = (Ok ("Error: Unknown tool '" ++ name ++ "'"), w))
  /\ (forall td e w',
         dict_get name (_tools self) = Some td ->
         PyFunction.call (ToolDefinition.handler td) input_data w
         = (Err e, w') ->
         _execute_tool json_dumps self name input_data w
         = if exc_is_Exception e
           then (Ok ("Error: " ++ exc_name e ++ ": " ++ exc_str e), w')
           else (Err e, w'))
  /\ (forall td v e w',
         dict_get name (_tools self) = Some td ->
         PyFunction.call (ToolDefinition.handler td) input_data w
         = (Ok v, w') ->
         isinstance_str v = false ->
         json_dumps v = Err e ->
         _execute_tool json_dumps self name input_data w
         = if exc_is_Exception e
           then (Ok ("Error: " ++ exc_name e ++ ": " ++ exc_str e), w')
           else (Err e, w'))
  /\ (forall tc rest is_prog id result_str w1 total results,
         _is_programmatic tc = Ok is_prog ->
         Block.name tc = Some name ->
         Block.input tc = Some input_data ->
         Block.id tc = Some id ->
         _execute_tool json_dumps self name input_data w
         = (Ok result_str, w1) ->
         build_tool_results json_dumps self (tc :: rest) total results w
         = build_tool_results json_dumps self rest (total + 1)
             (results ++ [Block.tool_result id result_str])%list w1)
  /\ (forall tc rest is_prog e w1,
         _is_programmatic tc = Ok is_prog ->
         Block.name tc = Some name ->
         Block.input tc = Some input_data ->
         _execute_tool json_dumps self name input_data w = (Err e, w1) ->
         (forall total results,
             build_tool_results json_dumps self (tc :: rest) total results w
             = (Err e, w1))
         /\ (forall st raw tools system fuel w0,
                _client self (build_kwargs self tools system st) w0
                = (Ok raw, w) ->
                expiry_check_passes fromisoformat raw = true ->
                Raw.stop_reason raw = Some "tool_use" ->
                tool_use_blocks (content_of raw) = tc :: rest ->
                process_response json_dumps fromisoformat now self st raw w
                = (Err e, w1)
                /\ while_true json_dumps fromisoformat now self tools system
                     (S fuel) st w0
                   = (Raised e, w1)))
  /\ (handlers_raise_Exception_only self ->
      dumps_raises_Exception_only json_dumps ->
      forall st raw w0,
        expiry_check_passes fromisoformat raw = true ->
        Raw.stop_reason raw = Some "tool_use" ->
        forallb well_formed_call (tool_use_blocks (content_of raw)) = true ->
        exists rs w',
          dispatches json_dumps self (tool_use_blocks (content_of raw))
            w0 rs w'
          /\ process_response json_dumps fromisoformat now self st raw w0
             = (Ok (Continue (next_state st raw rs)), w')).
Proof.
  split; [|split; [|split; [|split; [|split; [|split]]]]].
  - intros e w'. apply execute_tool_escapes.
  - apply execute_tool_unknown.
  - intros td e w' Hg Hc. apply (execute_tool_raises _ _ _ _ _ _ _ _ _ Hg Hc).
  - intros td v e w' Hg Hc Hv Hj.
    rewrite (execute_tool_returns _ _ _ _ _ _ _ _ _ Hg Hc).
    destruct v; try discriminate; now rewrite Hj.
  - intros tc rest b id s w1 total results Hp Hn Hi Hid He.
    eapply build_tool_results_step; eassumption.
  - intros tc rest b e w1 Hp Hn Hi He.
    assert (Hb : forall total results,
               build_tool_results json_dumps self (tc :: rest) total results w
               = (Err e, w1)).
    { intros total results. eapply build_tool_results_raise; eassumption. }
    split; [exact Hb|].
    intros st raw tools system fuel w0 Hc Hpass Hs Hcalls.
    assert (Hproc : process_response json_dumps fromisoformat now self
                      st raw w = (Err e, w1)).
    { apply process_response_tool_use_Err; [assumption | now rewrite Hs |].
      change (_extract_tool_calls (get (Raw.content raw) []))
        with (tool_use_blocks (content_of raw)).
      rewrite Hcalls. apply Hb. }
    split; [exact Hproc|].
    eapply while_true_Raised; eassumption.
  - intros Hh Hj st raw w0 Hpass Hs Hwf.
    destruct (dispatches_total World json_dumps self _ Hh Hj Hwf w0)
      as (rs & w' & Hd).
    exists rs, w'. split; [assumption|].
    apply process_response_tool_use; [assumption | now rewrite Hs |].
    exact Hd.
Qed.


(** C3.  For a registered name whose handler, called with the arguments,
    returns a value: dispatch passes a string through verbatim and returns
    the JSON text of any other value. *)
Theorem execute_tool_returns_handler_result
    (self : ProgrammaticToolClient World) (name : string)
    (td : ToolDefinition.t World) (input_data : kwargs)
    (w w' : World) (v : pyval) :
  dict_get name (_tools self) = Some td ->
  PyFunction.call (ToolDefinition.handler td) input_data w = (Ok v, w') ->
  (forall s, v = PStr s ->
             _execute_tool json_dumps self name input_data w = (Ok s, w'))
  /\ (forall t, isinstance_str v = false -> json_dumps v = Ok t ->
                _execute_tool json_dumps self name input_data w = (Ok t, w')).
Proof.
  intros Hg Hc. rewrite (execute_tool_returns _ _ _ _ _ _ _ _ _ Hg Hc).
  split.
  - intros s ->. reflexivity.
  - intros t Hv Hj. destruct v; try discriminate; now rewrite Hj.
Qed.

(** C4.  A run that returns has received at least one response; when the
    last one has stop reason [end_turn], every text block of it carries its
    text and the returned text is these texts, in order, joined by a line
    feed -- the empty string when the response has no text block. *)
Theorem end_turn_text_is_joined_text_blocks
    (self : ProgrammaticToolClient World) (user_message : string)
    (system container_id : option string) (fuel : nat) (w w' : World)
    (r : RunResult.t) :
  run json_dumps fromisoformat now self user_message system container_id
    fuel w = (Returned r, w') ->
  exists raws final,
    RunResult.raw_messages r = (raws ++ [final])%list
    /\ (Raw.stop_reason final = Some "end_turn" ->
        exists texts,
          map Block.text (text_type_blocks (content_of final))
          = map Some texts
          /\ RunResult.text r = String.concat LF texts
          /\ (text_type_blocks (content_of final) = [] ->
              RunResult.text r = "")).
Proof.
  unfold run. intros Hrun.
  apply (while_true_Returned World json_dumps fromisoformat now self _ _
           (fun _ => True)) in Hrun as (st & final & _ & _ & -> & Ht);
    [|auto|exact I].
  exists (Loop.all_raw st), final. split; [reflexivity|].
  intros Hs. cbn [final_result RunResult.text].
  assert (Hs' : get (Raw.stop_reason final) "" = "end_turn")
    by now rewrite Hs.
  rewrite Hs'. cbn [String.eqb Ascii.eqb Bool.eqb].
  exists (map (fun block => get (Block.text block) "")
            (text_type_blocks (content_of final))).
  split; [|split].
  - apply text_blocks_texts. exact (Ht Hs').
  - reflexivity.
  - unfold response_text, text_blocks, get_eqb, get. intros ->. reflexivity.
Qed.

(** C5.  The number of tool calls a run reports is the number of tool-use
    blocks in the responses that had stop reason [tool_use], whatever their
    distribution over these responses; every such block was classified, and
    counts, whether classified as programmatic or as direct. *)
Theorem tool_calls_made_counts_invocations
    (self : ProgrammaticToolClient World) (user_message : string)
    (system container_id : option string) (fuel : nat) (w w' : World)
    (r : RunResult.t) :
  run json_dumps fromisoformat now self user_message system container_id
    fuel w = (Returned r, w') ->
  RunResult.tool_calls_made r
  = Z.of_nat (length (invocations (RunResult.raw_messages r)))
  /\ Forall (fun tc => exists is_prog, _is_programmatic tc = Ok is_prog)
       (invocations (RunResult.raw_messages r))
  /\ RunResult.tool_calls_made r
     = Z.of_nat
         (length (filter (fun tc => match _is_programmatic tc with
                                    | Ok is_prog => is_prog
                                    | Err _ => false
                                    end)
                    (invocations (RunResult.raw_messages r))))
       + Z.of_nat
           (length (filter (fun tc => match _is_programmatic tc with
                                      | Ok is_prog => negb is_prog
                                      | Err _ => false
                                      end)
                      (invocations (RunResult.raw_messages r)))).
Proof.
  unfold run. intros Hrun.
  apply (while_true_Returned World json_dumps fromisoformat now self _ _
           (fun st =>
              Loop.total_tool_calls st
              = Z.of_nat (length (invocations (Loop.all_raw st)))
              /\ Forall (fun tc => exists is_prog,
                             _is_programmatic tc = Ok is_prog)
                   (invocations (Loop.all_raw st))))
    in Hrun as (st & final & [Hinv Hcl] & Hs & -> & _).
  - match goal with
    | |- context [final_result st final ?t] => generalize t; intros text
    end.
    cbn [final_result RunResult.tool_calls_made RunResult.raw_messages].
    rewrite invocations_app, (invocations_terminal _ Hs), app_nil_r.
    split; [exact Hinv|]. split; [exact Hcl|].
    rewrite Hinv, <- Nat2Z.inj_add. f_equal.
    clear Hinv.
    induction Hcl as [|tc l [b Hb] _ IH]; [reflexivity|].
    simpl. rewrite Hb. destruct b; simpl; lia.
  - intros st raw rs w0 w1 [Hinv Hcl] Hs Hd.
    cbn [next_state Loop.total_tool_calls Loop.all_raw].
    rewrite invocations_app, (invocations_tool_use _ Hs). split.
    + rewrite length_app, Hinv. lia.
    + apply Forall_app. split; [exact Hcl|].
      eapply dispatches_classified; eassumption.
  - split; [reflexivity | constructor].
Qed.

(** The classification of an invocation by its [caller]: direct exactly
    when it is a dictionary whose type is "direct", programmatic when the
    key is absent or the dictionary has another type or none, and an error
    when it is [None]. *)
Lemma is_programmatic_unless_direct (tool_call : Block.t) :
  (_is_programmatic tool_call = Ok false
   <-> exists caller,
         Block.caller tool_call = Some (Value caller)
         /\ Caller.type caller = Some "direct")
  /\ (Block.caller tool_call = None -> _is_programmatic tool_call = Ok true)
  /\ (forall caller,
         Block.caller tool_call = Some (Value caller) ->
         Caller.type caller <> Some "direct" ->
         _is_programmatic tool_call = Ok true)
  /\ (Block.caller tool_call = Some IsNone ->
      _is_programmatic tool_call
      = Err (mk_exn "AttributeError"
               "'NoneType' object has no attribute 'get'" true)).
Proof.
  unfold _is_programmatic.
  destruct (Block.caller tool_call) as [[|[[t|] tid]]|];
    cbn [get Caller.type].
  - split; [|split; [|split]]; [|discriminate|discriminate|reflexivity].
    split; [discriminate|].
    intros (caller & Hc & _). discriminate.
  - destruct (String.eqb t "direct") eqn:E.
    + apply String.eqb_eq in E. subst t.
      split; [|split; [|split]]; [|discriminate| |discriminate].
      * split; [eauto | reflexivity].
      * intros caller Hc Hne. inversion Hc; subst. now elim Hne.
    + split; [|split; [|split]]; [|discriminate|reflexivity|discriminate].
      split; [discriminate|].
      intros (caller & Hc & Ht). inversion Hc; subst.
      cbn in Ht. inversion Ht; subst.
      now rewrite String.eqb_refl in E.
  - split; [|split; [|split]]; [|discriminate|reflexivity|discriminate].
    split; [discriminate|].
    intros (caller & Hc & Ht). inversion Hc; subst. discriminate.
  - split; [|split; [|split]]; [|reflexivity|discriminate|discriminate].
    split; [discriminate|].
    intros (caller & Hc & _). discriminate.
Qed.

(** On a response whose stop reason is neither [end_turn] nor [tool_use]
    and whose expiry check passes, the loop body returns: the text is the
    texts of the text blocks joined by a line feed when that is not empty
    and the placeholder "Unexpected stop: <stop reason>" otherwise -- in
    particular when the response has no text block; the totals are the
    accumulated ones; and a loop that receives this response returns this
    result. *)
Lemma unexpected_stop_returns
    (self : ProgrammaticToolClient World) (st : Loop.t) (raw : Raw.t)
    (w : World) :
  expiry_check_passes fromisoformat raw = true ->
  get (Raw.stop_reason raw) "" <> "end_turn" ->
  get (Raw.stop_reason raw) "" <> "tool_use" ->
  let joined :=
    String.concat LF
      (map (fun block : Block.t =>
              match Block.text block with Some text => text | None => "" end)
         (text_type_blocks (content_of raw))) in
  exists r,
    process_response json_dumps fromisoformat now self st raw w
    = (Ok (Return r), w)
    /\ (joined <> "" -> RunResult.text r = joined)
    /\ (joined = "" ->
        RunResult.text r
        = "Unexpected stop: " ++ get (Raw.stop_reason raw) "")
    /\ (text_type_blocks (content_of raw) = [] ->
        RunResult.text r
        = "Unexpected stop: " ++ get (Raw.stop_reason raw) "")
    /\ RunResult.tool_calls_made r = Loop.total_tool_calls st
    /\ RunResult.total_input_tokens r
       = Loop.total_input st + input_tokens_of raw
    /\ RunResult.total_output_tokens r
       = Loop.total_output st + output_tokens_of raw
    /\ RunResult.container_id r
       = track_container (Raw.container raw) (Loop.container_id st)
    /\ RunResult.raw_messages r = (Loop.all_raw st ++ [raw])%list
    /\ (forall tools system fuel w0,
           _client self (build_kwargs self tools system st) w0 = (Ok raw, w) ->
           while_true json_dumps fromisoformat now self tools system
             (S fuel) st w0
           = (Returned r, w)).
Proof.
  intros Hpass H1 H2 joined.
  pose proof (process_response_other World json_dumps fromisoformat now
                self st raw w Hpass H1 H2) as Hp.
  eexists. split; [exact Hp|].
  cbn [final_result RunResult.text RunResult.tool_calls_made
         RunResult.total_input_tokens RunResult.total_output_tokens
         RunResult.container_id RunResult.raw_messages].
  change (response_text raw) with joined.
  repeat split.
  - intros Hne. apply String.eqb_neq in Hne. now rewrite Hne.
  - intros ->. reflexivity.
  - subst joined. intros ->. reflexivity.
  - intros tools system fuel w0 Hc.
    cbn [while_true]. unfold iteration, bind. now rewrite Hc, Hp.
Qed.

(** C8, as amended.  The loop has no iteration bound.  A run returns only
    on a response whose stop reason is not [tool_use] ([end_turn] or an
    unrecognised one).  With a transport that answers [tool_use] to every
    request, no number of iterations makes [run] return a result; and
    when, moreover, the responses are well formed and nothing raises
    outside [Exception], the run is still looping after any number of
    iterations, having made as many exchanges.  A handler that raises an
    exception not deriving from [Exception] ends the run with that
    exception. *)
Theorem tool_use_forever_never_returns
    (self : ProgrammaticToolClient World) (user_message : string)
    (system container_id : option string) (w : World) :
  (forall fuel r w',
      run json_dumps fromisoformat now self user_message system container_id
        fuel w = (Returned r, w') ->
      exists raws final,
        RunResult.raw_messages r = (raws ++ [final])%list
        /\ Raw.stop_reason final <> Some "tool_use")
  /\ (always_tool_use self ->
      forall fuel r w',
        run json_dumps fromisoformat now self user_message system
          container_id fuel w <> (Returned r, w'))
  /\ (always_tool_use self ->
      well_formed_responses fromisoformat self ->
      handlers_raise_Exception_only self ->
      dumps_raises_Exception_only json_dumps ->
      forall fuel, exists st w',
        run json_dumps fromisoformat now self user_message system
          container_id fuel w = (Running st, w')
        /\ length (Loop.all_raw st) = fuel)
  /\ (forall raw w1 tc rest is_prog name input td e w2,
         _client self
           (build_kwargs self (_build_tools self) system
              (initial user_message container_id)) w = (Ok raw, w1) ->
         expiry_check_passes fromisoformat raw = true ->
         Raw.stop_reason raw = Some "tool_use" ->
         tool_use_blocks (content_of raw) = tc :: rest ->
         _is_programmatic tc = Ok is_prog ->
         Block.name tc = Some name ->
         Block.input tc = Some input ->
         dict_get name (_tools self) = Some td ->
         PyFunction.call (ToolDefinition.handler td) input w1 = (Err e, w2) ->
         exc_is_Exception e = false ->
         forall fuel,
           run json_dumps fromisoformat now self user_message system
             container_id (S fuel) w = (Raised e, w2)).
Proof.
  split; [|split; [|split]].
  - unfold run. intros fuel r w' Hrun.
    apply (while_true_Returned World json_dumps fromisoformat now self _ _
             (fun _ => True)) in Hrun as (st & final & _ & Hs & -> & _);
      [|auto|exact I].
    exists (Loop.all_raw st), final. split; [reflexivity|].
    intros Heq. apply Hs. now rewrite Heq.
  - intros Ht fuel r w'. unfold run. now apply while_true_never_Returned.
  - intros Ht Hwf Hh Hj fuel. unfold run.
    destruct (while_true_Running World json_dumps fromisoformat now self
                (_build_tools self) system Ht Hwf Hh Hj fuel
                (initial user_message container_id) w)
      as (st & w' & Hl & Hlen).
    exists st, w'. split; [assumption|]. rewrite Hlen. reflexivity.
  - intros raw w1 tc rest b name input td e w2
      Hc Hpass Hs Hcalls Hp Hn Hi Hg Hcall He fuel.
    unfold run. eapply while_true_Raised; [exact Hc|].
    apply process_response_tool_use_Err; [assumption | now rewrite Hs |].
    change (_extract_tool_calls (get (Raw.content raw) []))
      with (tool_use_blocks (content_of raw)).
    rewrite Hcalls.
    eapply build_tool_results_raise; try eassumption.
    rewrite (execute_tool_raises _ _ _ _ _ _ _ _ _ Hg Hcall).
    now rewrite He.
Qed.

(** C9.  Registering twice under one name leaves exactly one entry for the
    name, holding the definition of the second registration, and dispatch
    of the name reaches the second handler only. *)
Theorem last_registration_wins
    (self : ProgrammaticToolClient World)
    (description1 description2 : string) (input_schema1 input_schema2 : pyval)
    (caller1 caller2 : caller_literal) (name1 name2 : option string)
    (fn1 fn2 : PyFunction.t World) :
  NoDup (dict_keys (_tools self)) ->
  tool_name name1 fn1 = tool_name name2 fn2 ->
  let self' :=
    tool (tool self description1 input_schema1 caller1 name1 fn1)
      description2 input_schema2 caller2 name2 fn2 in
  dict_count (tool_name name2 fn2) (_tools self') = 1%nat
  /\ dict_get (tool_name name2 fn2) (_tools self')
     = Some (ToolDefinition.mk (tool_name name2 fn2) description2
               input_schema2 fn2 (caller_map caller2))
  /\ NoDup (dict_keys (_tools self'))
  /\ (forall input_data w,
         _execute_tool json_dumps self' (tool_name name2 fn2) input_data w
         = dispatch_outcome json_dumps (PyFunction.call fn2 input_data w)).
Proof.
  intros Hnd Hname self'.
  assert (Hget : dict_get (tool_name name2 fn2) (_tools self')
                 = Some (ToolDefinition.mk (tool_name name2 fn2) description2
                           input_schema2 fn2 (caller_map caller2))).
  { unfold self', tool. cbn [_tools]. apply dict_get_set_eq. }
  assert (Hnd' : NoDup (dict_keys (_tools self'))).
  { unfold self', tool. cbn [_tools]. now do 2 apply dict_set_NoDup. }
  split; [|split; [|split]].
  - eapply dict_count_NoDup; eassumption.
  - exact Hget.
  - exact Hnd'.
  - intros input_data w.
    now rewrite (execute_tool_registered self' _ _ input_data w Hget).
Qed.

(** C10.  The session handle a run returns is the caller-supplied handle
    updated, response after response, by the identifier of each session
    descriptor that carries one.  A descriptor without an identifier leaves
    the held handle as it is; when no response carries a descriptor the
    returned handle is the caller-supplied one; and a supplied handle is
    never replaced by no handle. *)
Theorem session_handle_replaced_never_cleared
    (self : ProgrammaticToolClient World) (user_message : string)
    (system container_id : option string) (fuel : nat) (w w' : World)
    (r : RunResult.t) :
  run json_dumps fromisoformat now self user_message system container_id
    fuel w = (Returned r, w') ->
  RunResult.container_id r
  = held_container_id container_id (RunResult.raw_messages r)
  /\ (Forall (fun raw => Raw.container raw = None)
        (RunResult.raw_messages r) ->
      RunResult.container_id r = container_id)
  /\ (container_id <> None -> RunResult.container_id r <> None)
  /\ (forall descriptor held,
         Container.id descriptor = None ->
         track_container (Some descriptor) held = held).
Proof.
  unfold run. intros Hrun.
  apply (while_true_Returned World json_dumps fromisoformat now self _ _
           (fun st => Loop.container_id st
                      = held_container_id container_id (Loop.all_raw st)))
    in Hrun as (st & final & Hinv & _ & -> & _).
  - match goal with
    | |- context [final_result st final ?t] => generalize t; intros text
    end.
    cbn [final_result RunResult.container_id RunResult.raw_messages].
    assert (Hheld : track_container (Raw.container final)
                      (Loop.container_id st)
                    = held_container_id container_id
                        (Loop.all_raw st ++ [final])).
    { rewrite held_container_id_app, <- Hinv. reflexivity. }
    rewrite Hheld. split; [reflexivity|]. split; [|split].
    + apply held_container_id_no_descriptor.
    + apply held_container_id_Some.
    + intros descriptor held Hid. unfold track_container.
      rewrite Hid. now destruct (Container.truthy descriptor).
  - intros st raw rs w0 w1 Hinv _ _.
    cbn [next_state Loop.container_id Loop.all_raw].
    rewrite held_container_id_app, <- Hinv. reflexivity.
  - reflexivity.
Qed.

End Claims.

(** * The example clients *)

Lemma sequence_Err {A} (rs : list (result A)) (e : exn) :
  sequence rs = Err e -> In (Err e) rs.
Proof.
  induction rs as [|[a|e0] rs IH]; simpl; [discriminate| |].
  - destruct (sequence rs); [discriminate|].
    intros H; inversion H; subst. right. now apply IH.
  - intros H; inversion H; subst. now left.
Qed.

(** The reference serialiser raises [TypeError] only. *)
Lemma json_dumps_ref_Exception_only :
  dumps_raises_Exception_only json_dumps_ref.
Proof.
  unfold dumps_raises_Exception_only.
  fix IH 1. intros v e. destruct v as [| [|] | z | s | l | d | c]; simpl;
    try discriminate.
  - destruct (sequence (map json_dumps_ref l)) as [items|e1] eqn:Hs;
      [discriminate|].
    intros H; inversion H; subst. apply sequence_Err in Hs.
    clear H. induction l as [|x l IHl]; simpl in Hs; [contradiction|].
    destruct Hs as [Hx | Hl]; [now apply (IH x) | now apply IHl].
  - destruct (sequence (map _ d)) as [items|e1] eqn:Hs; [discriminate|].
    intros H; inversion H; subst. apply sequence_Err in Hs.
    clear H. induction d as [|[k x] d IHd]; simpl in Hs; [contradiction|].
    destruct Hs as [Hx | Hl]; [|now apply IHd].
    destruct (json_dumps_ref x) as [s|e0] eqn:Hj; [discriminate|].
    inversion Hx; subst. now apply (IH x).
  - intros H; inversion H; subst. reflexivity.
Qed.

(** The handlers [add], [fail] and [echo] raise [TypeError] and
    [ValueError] only. *)
Lemma ex_client_handlers (client : Request.t -> M nat Raw.t) :
  handlers_raise_Exception_only (ex_client client).
Proof.
  intros name td input_data w e w'. cbn.
  destruct (String.eqb name "add").
  { intros H; inversion H; subst; cbn.
    repeat match goal with
           | |- context [match ?x with _ => _ end] => destruct x
           end;
      unfold ret, raise; intros H1; inversion H1; reflexivity. }
  destruct (String.eqb name "fail").
  { intros H; inversion H; subst; cbn.
    unfold raise; intros H1; inversion H1; reflexivity. }
  destruct (String.eqb name "echo"); [|discriminate].
  intros H; inversion H; subst; cbn.
  destruct (dict_get "text" input_data);
    unfold ret, raise; intros H1; inversion H1; reflexivity.
Qed.

Lemma constant_transport_always_tool_use
    (self : ProgrammaticToolClient nat) (raw : Raw.t) :
  _client self = constant_transport raw ->
  get (Raw.stop_reason raw) "" = "tool_use" ->
  always_tool_use self.
Proof.
  intros Hc Hs request w. exists raw, (S w). rewrite Hc. auto.
Qed.

Lemma constant_transport_well_formed
    (self : ProgrammaticToolClient nat) (raw : Raw.t) :
  _client self = constant_transport raw ->
  forallb well_formed_call (_extract_tool_calls (get (Raw.content raw) []))
  = true ->
  expiry_check_passes ex_fromisoformat raw = true ->
  well_formed_responses ex_fromisoformat self.
Proof.
  intros Hc Hwf Hpass request w raw' w'. rewrite Hc.
  unfold constant_transport.
  intros H; inversion H; subst. split; assumption.
Qed.

(** * The properties on the example clients *)

(** Dispatch on the example clients: an unknown tool, a handler raising
    [ValueError] and a returned value that cannot be serialised all give an
    error string, which becomes the content of the tool-result entry, and
    the response [ex_raw_tools] continues the loop; the [KeyboardInterrupt]
    of [quit] leaves dispatch, the [for] loop and the run. *)
Lemma execute_tool_contains_Exception_witness :
  let self := ex_client (scripted []) in
  let quitter := ex_client_quit (constant_transport ex_raw_quit) in
  _execute_tool json_dumps_ref self "nope" [] 0%nat
  = (Ok "Error: Unknown tool 'nope'", 0%nat)
  /\ _execute_tool json_dumps_ref self "fail" [] 0%nat
     = (Ok "Error: ValueError: bad input", 0%nat)
  /\ _execute_tool json_dumps_ref self "echo"
       [("text", PObject "datetime")] 0%nat
     = (Ok "Error: TypeError: Object of type datetime is not JSON serializable",
        0%nat)
  /\ _execute_tool json_dumps_ref quitter "quit" [] 1%nat
     = (Err (mk_exn "KeyboardInterrupt" "" false), 1%nat)
  /\ build_tool_results json_dumps_ref self
       [Block.tool_use "t3" "fail" [] ex_code] 0 [] 0%nat
     = (Ok (1, [Block.mk (Some "tool_result") None None None None None
                  (Some "t3") (Some "Error: ValueError: bad input")]),
        0%nat)
  /\ build_tool_results json_dumps_ref quitter
       [Block.tool_use "q1" "quit" [] None] 0 [] 1%nat
     = (Err (mk_exn "KeyboardInterrupt" "" false), 1%nat)
  /\ while_true json_dumps_ref ex_fromisoformat ex_now quitter
       (_build_tools quitter) None 1 (initial "hi" None) 0%nat
     = (Raised (mk_exn "KeyboardInterrupt" "" false), 1%nat)
  /\ (exists rs w',
         dispatches json_dumps_ref self
           (filter (fun block : Block.t =>
                      match Block.type block with
                      | Some type => String.eqb type "tool_use"
                      | None => false
                      end)
              (match Raw.content ex_raw_tools with
               | Some content => content
               | None => []
               end)) 0%nat rs w'
         /\ process_response json_dumps_ref ex_fromisoformat ex_now self
              (initial "hi" None) ex_raw_tools 0%nat
            = (Ok (Continue (next_state (initial "hi" None) ex_raw_tools rs)),
               w'))
  /\ process_response json_dumps_ref ex_fromisoformat ex_now self
       (initial "hi" None) ex_raw_tools 0%nat
     = (Ok (Continue
              (Loop.mk
                 [Message.mk "user" (ContentStr "hi");
                  Message.mk "assistant"
                    (ContentList
                       [Block.text_block "Let me compute.";
                        Block.tool_use "t1" "add" (ex_args 1 2) ex_direct;
                        Block.tool_use "t2" "nope" [] None;
                        Block.tool_use "t3" "fail" [] ex_code]);
                  Message.mk "user"
                    (ContentList
                       [Block.mk (Some "tool_result") None None None None
                          None (Some "t1") (Some "3");
                        Block.mk (Some "tool_result") None None None None
                          None (Some "t2")
                          (Some "Error: Unknown tool 'nope'");
                        Block.mk (Some "tool_result") None None None None
                          None (Some "t3")
                          (Some "Error: ValueError: bad input")])]
                 (Some "cont_1") 10 5 3 [ex_raw_tools])),
        0%nat).
Proof.
  intros self quitter.
  pose proof (execute_tool_contains_Exception nat json_dumps_ref
                ex_fromisoformat ex_now self "nope" [] 0%nat)
    as (_ & Hunknown & _ & _ & _ & _ & Hloop).
  pose proof (execute_tool_contains_Exception nat json_dumps_ref
                ex_fromisoformat ex_now self "fail" [] 0%nat)
    as (_ & _ & Hraise & _ & Hnext & _ & _).
  pose proof (execute_tool_contains_Exception nat json_dumps_ref
                ex_fromisoformat ex_now self "echo"
                [("text", PObject "datetime")] 0%nat)
    as (_ & _ & _ & Hdumps & _ & _ & _).
  pose proof (execute_tool_contains_Exception nat json_dumps_ref
                ex_fromisoformat ex_now quitter "quit" [] 1%nat)
    as (_ & _ & Hquit & _ & _ & Hout & _).
  assert (Hq : _execute_tool json_dumps_ref quitter "quit" [] 1%nat
               = (Err (mk_exn "KeyboardInterrupt" "" false), 1%nat)).
  { eapply (Hquit _ (mk_exn "KeyboardInterrupt" "" false)); reflexivity. }
  destruct (Hout (Block.tool_use "q1" "quit" [] None) [] true
              (mk_exn "KeyboardInterrupt" "" false) 1%nat
              eq_refl eq_refl eq_refl Hq) as [Hfor Hrun].
  split; [|split; [|split; [|split; [|split; [|split; [|split; [|split]]]]]]].
  - apply Hunknown. reflexivity.
  - eapply (Hraise _ (mk_exn "ValueError" "bad input" true)); reflexivity.
  - eapply (Hdumps _ (PObject "datetime")
              (mk_exn "TypeError"
                 "Object of type datetime is not JSON serializable" true));
      reflexivity.
  - exact Hq.
  - rewrite (Hnext (Block.tool_use "t3" "fail" [] ex_code) [] true "t3"
               "Error: ValueError: bad input" 0%nat 0 []); reflexivity.
  - apply Hfor.
  - apply (Hrun (initial "hi" None) ex_raw_quit (_build_tools quitter) None
             0%nat 0%nat); reflexivity.
  - apply Hloop.
    + apply ex_client_handlers.
    + apply json_dumps_ref_Exception_only.
    + reflexivity.
    + reflexivity.
    + reflexivity.
  - reflexivity.
Defined.

(** C1 as stated fails: the registered handler [quit] raises
    [KeyboardInterrupt], which [except Exception] does not catch, so
    dispatch raises instead of returning a string. *)
Lemma execute_tool_raises_KeyboardInterrupt :
  let self := ex_client_quit (scripted []) in
  (exists td,
      dict_get "quit" (_tools self) = Some td
      /\ PyFunction.call (ToolDefinition.handler td) [] 0%nat
         = (Err (mk_exn "KeyboardInterrupt" "" false), 0%nat))
  /\ _execute_tool json_dumps_ref self "quit" [] 0%nat
     = (Err (mk_exn "KeyboardInterrupt" "" false), 0%nat)
  /\ ~ (exists s w',
          _execute_tool json_dumps_ref self "quit" [] 0%nat = (Ok s, w')).
Proof.
  intros self. split; [|split].
  - eexists. split; reflexivity.
  - reflexivity.
  - intros (s & w' & H). discriminate H.
Qed.


(** [add(a=1, b=2)] dispatches to "3"; [echo] passes a string through and
    has a list serialised. *)
Lemma execute_tool_returns_handler_result_witness :
  let self := ex_client (scripted []) in
  _execute_tool json_dumps_ref self "add" (ex_args 1 2) 0%nat
  = (Ok "3", 0%nat)
  /\ _execute_tool json_dumps_ref self "echo" [("text", PStr "as is")] 0%nat
     = (Ok "as is", 0%nat)
  /\ _execute_tool json_dumps_ref self "echo"
       [("text", PList [PStr "a"; PNone; PBool true])] 0%nat
     = (Ok ("[" ++ json_quote "a" ++ ", null, true]"), 0%nat).
Proof.
  intros self. split; [|split].
  - eapply (proj2 (execute_tool_returns_handler_result nat json_dumps_ref
                     self "add" _ (ex_args 1 2) 0%nat 0%nat (PInt 3)
                     eq_refl eq_refl));
      reflexivity.
  - eapply (proj1 (execute_tool_returns_handler_result nat json_dumps_ref
                     self "echo" _ [("text", PStr "as is")] 0%nat 0%nat
                     (PStr "as is") eq_refl eq_refl));
      reflexivity.
  - eapply (proj2 (execute_tool_returns_handler_result nat json_dumps_ref
                     self "echo" _
                     [("text", PList [PStr "a"; PNone; PBool true])]
                     0%nat 0%nat (PList [PStr "a"; PNone; PBool true])
                     eq_refl eq_refl));
      reflexivity.
Defined.

(** The text of the session [ex_session]: the two text blocks of the last
    response, joined by a line feed, the block of another type between them
    left out; and the empty text of a session that ends without a text
    block. *)
Lemma end_turn_text_is_joined_text_blocks_witness :
  (exists r w',
      run json_dumps_ref ex_fromisoformat ex_now
        (ex_client (scripted ex_session)) "hi" None None 5 0%nat
      = (Returned r, w')
      /\ RunResult.text r = "Result: 3" ++ String "010"%char "Done."
      /\ exists raws final,
           RunResult.raw_messages r = (raws ++ [final])%list
           /\ (Raw.stop_reason final = Some "end_turn" ->
               exists texts,
                 map Block.text
                   (filter (fun block : Block.t =>
                              match Block.type block with
                              | Some type => String.eqb type "text"
                              | None => false
                              end)
                      (match Raw.content final with
                       | Some content => content
                       | None => []
                       end))
                 = map Some texts
                 /\ RunResult.text r
                    = String.concat (String "010"%char EmptyString) texts))
  /\ (exists r w',
         run json_dumps_ref ex_fromisoformat ex_now
           (ex_client (scripted [ex_raw_end_empty])) "hi" None None 5 0%nat
         = (Returned r, w')
         /\ RunResult.text r = "").
Proof.
  split.
  - eexists. eexists. split; [reflexivity|]. split; [reflexivity|].
    destruct (end_turn_text_is_joined_text_blocks nat json_dumps_ref
                ex_fromisoformat ex_now (ex_client (scripted ex_session))
                "hi" None None 5 0%nat 3%nat _ eq_refl)
      as (raws & final & Hraw & Htext).
    exists raws, final. split; [exact Hraw|].
    intros Hs. destruct (Htext Hs) as (texts & Hm & Ht & _).
    exists texts. split; assumption.
  - eexists. eexists. split; [reflexivity|].
    destruct (end_turn_text_is_joined_text_blocks nat json_dumps_ref
                ex_fromisoformat ex_now
                (ex_client (scripted [ex_raw_end_empty]))
                "hi" None None 5 0%nat 1%nat _ eq_refl)
      as (raws & final & Hraw & Htext).
    cbn [RunResult.raw_messages final_result] in Hraw.
    apply (app_inj_tail [] raws) in Hraw as [_ <-].
    destruct (Htext eq_refl) as (texts & _ & _ & Hempty).
    apply Hempty. reflexivity.
Defined.

(** The session [ex_session] makes four tool calls: three in the first
    response, of which one direct, and one in the second. *)
Lemma tool_calls_made_counts_invocations_witness :
  let self := ex_client (scripted ex_session) in
  exists r w',
    run json_dumps_ref ex_fromisoformat ex_now self "hi" None None 5 0%nat
    = (Returned r, w')
    /\ RunResult.tool_calls_made r = 4
    /\ map Block.id (invocations (RunResult.raw_messages r))
       = [Some "t1"; Some "t2"; Some "t3"; Some "t1"]
    /\ map _is_programmatic (invocations (RunResult.raw_messages r))
       = [Ok false; Ok true; Ok true; Ok true]
    /\ RunResult.tool_calls_made r
       = Z.of_nat (length (invocations (RunResult.raw_messages r)))
    /\ RunResult.tool_calls_made r
       = Z.of_nat
           (length (filter (fun tc => match _is_programmatic tc with
                                      | Ok is_prog => is_prog
                                      | Err _ => false
                                      end)
                      (invocations (RunResult.raw_messages r))))
         + Z.of_nat
             (length (filter (fun tc => match _is_programmatic tc with
                                        | Ok is_prog => negb is_prog
                                        | Err _ => false
                                        end)
                        (invocations (RunResult.raw_messages r)))).
Proof.
  intros self. eexists. eexists. split; [reflexivity|].
  split; [reflexivity|]. split; [reflexivity|]. split; [reflexivity|].
  destruct (tool_calls_made_counts_invocations nat json_dumps_ref
              ex_fromisoformat ex_now self "hi" None None 5 0%nat 3%nat
              _ eq_refl) as (Hcount & _ & Hsplit).
  split; assumption.
Defined.

(** C6.  An invocation whose [caller] is [None] -- what the dump of a
    response holds for an invocation without a caller tag -- is not
    classified as programmatic: the classification raises
    [AttributeError], and so does a run that receives the invocation, at
    its first exchange and before the tool is dispatched.  The same
    invocation without the [caller] key is classified as programmatic. *)
Theorem is_programmatic_raises_on_caller_None :
  let tool_call :=
    Block.mk (Some "tool_use") None (Some "toolu_01") (Some "add")
      (Some [("a", PInt 1); ("b", PInt 2)]) (Some IsNone) None None in
  let untagged :=
    Block.mk (Some "tool_use") None (Some "toolu_01") (Some "add")
      (Some [("a", PInt 1); ("b", PInt 2)]) None None None in
  let raw := Raw.mk ex_usage None (Some "tool_use") (Some [tool_call]) in
  _is_programmatic tool_call
  = Err (mk_exn "AttributeError"
           "'NoneType' object has no attribute 'get'" true)
  /\ _is_programmatic untagged = Ok true
  /\ build_tool_results json_dumps_ref (ex_client (scripted [raw]))
       [tool_call] 0 [] 1%nat
     = (Err (mk_exn "AttributeError"
               "'NoneType' object has no attribute 'get'" true), 1%nat)
  /\ run json_dumps_ref ex_fromisoformat ex_now (ex_client (scripted [raw]))
       "hi" None None 3 0%nat
     = (Raised (mk_exn "AttributeError"
                  "'NoneType' object has no attribute 'get'" true), 1%nat).
Proof. repeat split. Qed.

(** C7.  A response with the stop reason [max_tokens], some text, and a
    session descriptor whose [expires_at] is a datetime object -- what the
    dump of a response holds -- does not end the run with a result: the
    expiry check raises [TypeError], and so do the loop body and the run.
    With the timestamp as a string, the same response ends the run with
    its text. *)
Theorem unexpected_stop_raises_on_datetime_expires_at :
  let response expires_at :=
    Raw.mk ex_usage (Some (Container.mk (Some "cont_1") (Some expires_at)))
      (Some "max_tokens") (Some [Block.text_block "partial answer"]) in
  let raw :=
    response (ExpiresDatetime (Datetime.mk 1767225600000000 true)) in
  let raw' := response (ExpiresStr "2026-01-01T00:00:00Z") in
  let self := ex_client (scripted [raw]) in
  _check_container_expiry ex_fromisoformat ex_now self (Raw.container raw)
    1%nat
  = (Err (mk_exn "TypeError"
            "'str' object cannot be interpreted as an integer" true), 1%nat)
  /\ process_response json_dumps_ref ex_fromisoformat ex_now self
       (initial "hi" None) raw 1%nat
     = (Err (mk_exn "TypeError"
               "'str' object cannot be interpreted as an integer" true),
        1%nat)
  /\ run json_dumps_ref ex_fromisoformat ex_now self "hi" None None 3 0%nat
     = (Raised (mk_exn "TypeError"
                  "'str' object cannot be interpreted as an integer" true),
        1%nat)
  /\ run json_dumps_ref ex_fromisoformat ex_now
       (ex_client (scripted [raw'])) "hi" None None 3 0%nat
     = (Returned
          (RunResult.mk "partial answer" 0 (Some "cont_1") 10 5 [raw']),
        1%nat).
Proof. repeat split. Qed.

(** A run that stops on [max_tokens] after one tool call, with no text in
    the last response, and a response that stops on [pause_turn] with
    text. *)
Example unexpected_stop_examples :
  let self := ex_client (scripted [ex_raw_add; ex_raw_max_tokens]) in
  run json_dumps_ref ex_fromisoformat ex_now self "hi" None None 2 0%nat
  = (Returned
       (RunResult.mk "Unexpected stop: max_tokens" 1 None 20 10
          [ex_raw_add; ex_raw_max_tokens]), 2%nat)
  /\ exists r,
       process_response json_dumps_ref ex_fromisoformat ex_now
         (ex_client (scripted [])) (initial "hi" None) ex_raw_pause 0%nat
       = (Ok (Return r), 0%nat)
       /\ RunResult.text r = "Wait".
Proof.
  intros self. split; [reflexivity|].
  destruct (unexpected_stop_returns nat json_dumps_ref ex_fromisoformat
              ex_now (ex_client (scripted [])) (initial "hi" None)
              ex_raw_pause 0%nat eq_refl)
    as (r & Hp & Htext & _); [discriminate | discriminate |].
  exists r. split; [exact Hp|]. apply Htext. discriminate.
Qed.

(** A transport that always asks for [add(a=1, b=2)] keeps the run looping
    for any number of iterations; one that always asks for [quit] ends the
    run with the [KeyboardInterrupt] of the handler. *)
Lemma tool_use_forever_never_returns_witness :
  let self := ex_client (constant_transport ex_raw_add) in
  let quitter := ex_client_quit (constant_transport ex_raw_quit) in
  always_tool_use self
  /\ (forall fuel r w',
         run json_dumps_ref ex_fromisoformat ex_now self "hi" None None fuel
           0%nat <> (Returned r, w'))
  /\ (forall fuel, exists st w',
         run json_dumps_ref ex_fromisoformat ex_now self "hi" None None fuel
           0%nat = (Running st, w')
         /\ length (Loop.all_raw st) = fuel)
  /\ (exists st,
         run json_dumps_ref ex_fromisoformat ex_now self "hi" None None 2
           0%nat = (Running st, 2%nat)
         /\ Loop.all_raw st = [ex_raw_add; ex_raw_add]
         /\ Loop.total_tool_calls st = 2)
  /\ (forall fuel,
         run json_dumps_ref ex_fromisoformat ex_now quitter "hi" None None
           (S fuel) 0%nat
         = (Raised (mk_exn "KeyboardInterrupt" "" false), 1%nat)).
Proof.
  intros self quitter.
  assert (Ht : always_tool_use self).
  { apply (constant_transport_always_tool_use self ex_raw_add); reflexivity. }
  assert (Hwf : well_formed_responses ex_fromisoformat self).
  { apply (constant_transport_well_formed self ex_raw_add); reflexivity. }
  pose proof (tool_use_forever_never_returns nat json_dumps_ref
                ex_fromisoformat ex_now self "hi" None None 0%nat)
    as (_ & Hnever & Hrunning & _).
  pose proof (tool_use_forever_never_returns nat json_dumps_ref
                ex_fromisoformat ex_now quitter "hi" None None 0%nat)
    as (_ & _ & _ & Hraised).
  split; [exact Ht|]. split; [|split; [|split]].
  - exact (Hnever Ht).
  - exact (Hrunning Ht Hwf (ex_client_handlers _)
             json_dumps_ref_Exception_only).
  - eexists. repeat split.
  - eapply (Hraised ex_raw_quit 1%nat (Block.tool_use "q1" "quit" [] None)
              [] true "quit" [] _ (mk_exn "KeyboardInterrupt" "" false)
              1%nat);
      reflexivity.
Defined.

(** C8 as stated fails: with a transport that always answers [tool_use],
    the run ends in its first iteration when the invoked handler raises
    [KeyboardInterrupt]. *)
Lemma tool_use_forever_terminates_on_KeyboardInterrupt :
  let self := ex_client_quit (constant_transport ex_raw_quit) in
  always_tool_use self
  /\ run json_dumps_ref ex_fromisoformat ex_now self "hi" None None 1 0%nat
     = (Raised (mk_exn "KeyboardInterrupt" "" false), 1%nat)
  /\ ~ (forall fuel, exists st w',
           run json_dumps_ref ex_fromisoformat ex_now self "hi" None None
             fuel 0%nat = (Running st, w')).
Proof.
  intros self. split; [|split].
  - apply (constant_transport_always_tool_use self ex_raw_quit); reflexivity.
  - reflexivity.
  - intros H. destruct (H 1%nat) as (st & w' & Hrun). discriminate Hrun.
Qed.

(** Registering [sub] under the name [add] after [add]: one entry, in the
    position of the first, and [add(a=5, b=3)] dispatches to "2". *)
Lemma last_registration_wins_witness :
  let self := ex_client (scripted []) in
  let self' :=
    tool (tool self "Adds." ex_schema CodeExecution None ex_add)
      "Subtracts." ex_schema Direct (Some "add") ex_sub in
  dict_count "add" (_tools self') = 1%nat
  /\ dict_keys (_tools self') = ["add"; "fail"; "echo"]
  /\ dict_get "add" (_tools self')
     = Some (ToolDefinition.mk "add" "Subtracts." ex_schema ex_sub ["direct"])
  /\ _execute_tool json_dumps_ref self' "add" (ex_args 5 3) 0%nat
     = (Ok "2", 0%nat).
Proof.
  intros self self'.
  assert (Hnd : NoDup (dict_keys (_tools self))).
  { repeat constructor; simpl; intuition discriminate. }
  destruct (last_registration_wins nat json_dumps_ref self
              "Adds." "Subtracts." ex_schema ex_schema CodeExecution Direct
              None (Some "add") ex_add ex_sub Hnd eq_refl)
    as (Hcount & Hget & _ & Hdispatch).
  split; [exact Hcount|]. split; [reflexivity|]. split; [exact Hget|].
  exact (Hdispatch (ex_args 5 3) 0%nat).
Defined.

(** A run without any session descriptor returns the supplied handle; in
    [ex_session] the first response replaces it and the last one, whose
    descriptor has no identifier, leaves it. *)
Lemma session_handle_replaced_never_cleared_witness :
  (exists r w',
      run json_dumps_ref ex_fromisoformat ex_now
        (ex_client (scripted [ex_raw_add; ex_raw_end_empty]))
        "hi" None (Some "c0") 5 0%nat = (Returned r, w')
      /\ RunResult.container_id r = Some "c0")
  /\ (exists r w',
         run json_dumps_ref ex_fromisoformat ex_now
           (ex_client (scripted ex_session))
           "hi" None (Some "c0") 5 0%nat = (Returned r, w')
         /\ RunResult.container_id r = Some "cont_1"
         /\ RunResult.container_id r <> None).
Proof.
  split.
  - eexists. eexists. split; [reflexivity|].
    apply (proj1 (proj2 (session_handle_replaced_never_cleared nat
                           json_dumps_ref ex_fromisoformat ex_now
                           (ex_client (scripted [ex_raw_add; ex_raw_end_empty]))
                           "hi" None (Some "c0") 5 0%nat 2%nat _ eq_refl))).
    repeat constructor.
  - eexists. eexists. split; [reflexivity|].
    destruct (session_handle_replaced_never_cleared nat
                json_dumps_ref ex_fromisoformat ex_now
                (ex_client (scripted ex_session))
                "hi" None (Some "c0") 5 0%nat 3%nat _ eq_refl)
      as (Hheld & _ & Hsome & _).
    split; [exact Hheld|]. apply Hsome. discriminate.
Defined.

(** The two scenarios of section 8 of the specification. *)
Example scenario_immediate_end_turn :
  let raw :=
    Raw.mk ex_usage None (Some "end_turn") (Some [Block.text_block "2+2=4"]) in
  exists r,
    run json_dumps_ref ex_fromisoformat ex_now (ex_client (scripted [raw]))
      "What is 2+2?" None None 3 0%nat = (Returned r, 1%nat)
    /\ RunResult.text r = "2+2=4"
    /\ RunResult.tool_calls_made r = 0.
Proof. eexists. repeat split. Qed.

Example scenario_one_tool_call :
  let final :=
    Raw.mk ex_usage None (Some "end_turn")
      (Some [Block.text_block "Result: 3"]) in
  let self := ex_client (scripted [ex_raw_add; final]) in
  (exists r,
      run json_dumps_ref ex_fromisoformat ex_now self "Add 1 and 2." None None
        3 0%nat = (Returned r, 2%nat)
      /\ RunResult.text r = "Result: 3"
      /\ RunResult.tool_calls_made r = 1)
  /\ exists st,
       iteration json_dumps_ref ex_fromisoformat ex_now self
         (_build_tools self) None (initial "Add 1 and 2." None) 0%nat
       = (Ok (Continue st), 1%nat)
       /\ Request.messages (build_kwargs self (_build_tools self) None st)
          = [Message.mk "user" (ContentStr "Add 1 and 2.");
             Message.mk "assistant"
               (ContentList [Block.tool_use "t1" "add" (ex_args 1 2) None]);
             Message.mk "user" (ContentList [Block.tool_result "t1" "3"])].
Proof.
  split.
  - eexists. repeat split.
  - eexists. split; reflexivity.
Qed.

(** * Further properties *)

(** ** The registry after a sequence of registrations *)

Lemma filter_compose {A} (f g : A -> bool) (l : list A) :
  filter f (filter g l) = filter (fun x => g x && f x) l.
Proof.
  induction l as [|x l IH]; simpl; [reflexivity|].
  destruct (g x); simpl; [destruct (f x)|]; now rewrite IH.
Qed.

Lemma dict_get_In {V} (k : string) (v : V) (d : list (string * V)) :
  NoDup (dict_keys d) -> (In (k, v) d <-> dict_get k d = Some v).
Proof.
  unfold dict_keys. induction d as [|[k' v'] d IH]; simpl; intros Hnd.
  - split; [contradiction | discriminate].
  - inversion Hnd as [|? ? Hnin Hnd']; subst.
    destruct (String.eqb k k') eqn:E.
    + apply String.eqb_eq in E. subst k'. split.
      * intros [H | H]; [now inversion H|].
        exfalso. apply Hnin. apply (in_map fst) in H. exact H.
      * intros H. inversion H. now left.
    + apply String.eqb_neq in E. rewrite <- (IH Hnd'). split.
      * intros [H | H]; [inversion H; congruence | assumption].
      * now right.
Qed.

Lemma dict_set_Forall {V} (P : string -> V -> Prop) (k : string) (v : V)
    (d : list (string * V)) :
  Forall (fun kv => P (fst kv) (snd kv)) d -> P k v ->
  Forall (fun kv => P (fst kv) (snd kv)) (dict_set k v d).
Proof.
  intros Hd Hk. induction d as [|[k' v'] d IH]; simpl.
  - now repeat constructor.
  - inversion Hd; subst. destruct (String.eqb k k') eqn:E.
    + apply String.eqb_eq in E. subst k'. now constructor.
    + constructor; auto.
Qed.

Section Registry.

Variable World : Type.
Variable json_dumps : pyval -> result string.

Lemma register_all_snoc (self : ProgrammaticToolClient World)
    (regs : list (Registration.t World)) (r : Registration.t World) :
  register_all self (regs ++ [r]) = register (register_all self regs) r.
Proof. unfold register_all. now rewrite fold_left_app. Qed.

Lemma last_registration_snoc (name : string)
    (regs : list (Registration.t World)) (r : Registration.t World) :
  last_registration name (regs ++ [r])
  = if String.eqb (registered_name r) name then Some r
    else last_registration name regs.
Proof. unfold last_registration. now rewrite rev_unit. Qed.

Lemma lookup_register_all (self : ProgrammaticToolClient World)
    (regs : list (Registration.t World)) (name : string) :
  dict_get name (_tools (register_all self regs))
  = match last_registration name regs with
    | Some r => Some (definition_of r)
    | None => dict_get name (_tools self)
    end.
Proof.
  induction regs as [|r regs IH] using rev_ind; [reflexivity|].
  rewrite register_all_snoc, last_registration_snoc.
  unfold register, tool. cbn [_tools].
  fold (registered_name r).
  destruct (String.eqb (registered_name r) name) eqn:E.
  - apply String.eqb_eq in E. subst name. apply dict_get_set_eq.
  - apply String.eqb_neq in E. rewrite dict_get_set_neq; [exact IH|congruence].
Qed.

(** X1.  After any sequence of registrations on any client, a name looks up
    to the definition of the last registration made under it -- or to what
    the client held before when there is none -- and dispatch of the name
    is the outcome of that registration's handler. *)
Theorem dispatch_after_registrations (self : ProgrammaticToolClient World)
    (regs : list (Registration.t World)) (name : string)
    (input_data : kwargs) (w : World) :
  dict_get name (_tools (register_all self regs))
  = match last_registration name regs with
    | Some r => Some (definition_of r)
    | None => dict_get name (_tools self)
    end
  /\ _execute_tool json_dumps (register_all self regs) name input_data w
     = match last_registration name regs with
       | Some r =>
           dispatch_outcome json_dumps
             (PyFunction.call (Registration.fn r) input_data w)
       | None => _execute_tool json_dumps self name input_data w
       end.
Proof.
  pose proof (lookup_register_all self regs name) as Hl.
  split; [exact Hl|].
  destruct (last_registration name regs) as [r|].
  - now rewrite (execute_tool_registered World json_dumps _ _ _ input_data w Hl).
  - unfold _execute_tool. now rewrite Hl.
Qed.

Lemma keys_register_all (regs : list (Registration.t World)) :
  forall self : ProgrammaticToolClient World,
    dict_keys (_tools (register_all self regs))
    = (dict_keys (_tools self)
         ++ filter (fun n => negb (existsb (String.eqb n)
                                     (dict_keys (_tools self))))
              (first_occurrences (map registered_name regs)))%list.
Proof.
  induction regs as [|r regs IH]; intros self.
  - simpl. now rewrite app_nil_r.
  - cbn [register_all fold_left]. fold (register_all (register self r) regs).
    rewrite IH. unfold register at 1 2, tool. cbn [_tools].
    fold (registered_name r). rewrite dict_keys_set.
    cbn [map first_occurrences filter].
    destruct (dict_get (registered_name r) (_tools self)) as [td|] eqn:Hg.
    + assert (Hin : existsb (String.eqb (registered_name r))
                      (dict_keys (_tools self)) = true).
      { apply existsb_exists. exists (registered_name r).
        split; [|apply String.eqb_refl].
        destruct (in_dec string_dec (registered_name r)
                    (dict_keys (_tools self))) as [H|H]; [exact H|].
        apply dict_get_None_iff in H. congruence. }
      rewrite Hin. cbn [negb]. f_equal.
      rewrite filter_compose. apply filter_ext_in. intros n _.
      destruct (String.eqb n (registered_name r)) eqn:E; [|reflexivity].
      apply String.eqb_eq in E. subst n. now rewrite Hin.
    + assert (Hnin : existsb (String.eqb (registered_name r))
                       (dict_keys (_tools self)) = false).
      { apply not_true_is_false. intros H.
        apply existsb_exists in H as (n & Hn & E).
        apply String.eqb_eq in E. subst n.
        apply dict_get_None_iff in Hg. contradiction. }
      rewrite Hnin. cbn [negb]. rewrite <- app_assoc. cbn [app]. do 2 f_equal.
      rewrite filter_compose. apply filter_ext. intros n.
      rewrite existsb_app. cbn [existsb]. rewrite orb_false_r, negb_orb.
      apply andb_comm.
Qed.

Lemma first_occurrences_NoDup (names : list string) :
  NoDup (first_occurrences names).
Proof.
  induction names as [|n names IH]; simpl; constructor.
  - intros H. apply filter_In in H as [_ H].
    now rewrite String.eqb_refl in H.
  - now apply NoDup_filter.
Qed.

Lemma first_occurrences_In (names : list string) (n : string) :
  In n (first_occurrences names) <-> In n names.
Proof.
  induction names as [|n' names IH]; simpl; [tauto|].
  rewrite filter_In, IH. split.
  - tauto.
  - intros [H | H]; [now left|].
    destruct (String.eqb n n') eqn:E.
    + apply String.eqb_eq in E. now left.
    + right. split; [assumption | reflexivity].
Qed.

Lemma registered_named (regs : list (Registration.t World)) :
  forall self : ProgrammaticToolClient World,
    Forall (fun kv => ToolDefinition.name (snd kv) = fst kv) (_tools self) ->
    Forall (fun kv => ToolDefinition.name (snd kv) = fst kv)
      (_tools (register_all self regs)).
Proof.
  induction regs as [|r regs IH]; intros self Hs; [exact Hs|].
  cbn [register_all fold_left]. apply IH.
  unfold register, tool. cbn [_tools].
  now apply (dict_set_Forall (fun k td => ToolDefinition.name td = k)).
Qed.

Lemma registered_NoDup (regs : list (Registration.t World)) :
  forall self : ProgrammaticToolClient World,
    NoDup (dict_keys (_tools self)) ->
    NoDup (dict_keys (_tools (register_all self regs))).
Proof.
  induction regs as [|r regs IH]; intros self Hs; [exact Hs|].
  cbn [register_all fold_left]. apply IH.
  unfold register, tool. cbn [_tools]. now apply dict_set_NoDup.
Qed.

Lemma keys_init_register_all
    (client : Request.t -> M World Raw.t) (model : option string)
    (max_tokens timeout_buffer_seconds : Z)
    (regs : list (Registration.t World)) :
  dict_keys
    (_tools (register_all
               (__init__ client model max_tokens timeout_buffer_seconds) regs))
  = first_occurrences (map registered_name regs).
Proof.
  rewrite keys_register_all. cbn [__init__ _tools dict_keys map app existsb].
  cbn [negb]. induction (first_occurrences (map registered_name regs))
    as [|n l IH]; [reflexivity|]. simpl. now rewrite IH.
Qed.

(** X2.  On a client built by [__init__] and any sequence of
    registrations, the registry holds each registered name once, in the
    order of the first registration of each name: registering a name again
    keeps its position. *)
Theorem registry_keeps_first_registration_order
    (client : Request.t -> M World Raw.t) (model : option string)
    (max_tokens timeout_buffer_seconds : Z)
    (regs : list (Registration.t World)) :
  dict_keys
    (_tools (register_all
               (__init__ client model max_tokens timeout_buffer_seconds) regs))
  = first_occurrences (map registered_name regs)
  /\ NoDup (first_occurrences (map registered_name regs))
  /\ (forall name,
         In name (first_occurrences (map registered_name regs))
         <-> exists r, In r regs /\ registered_name r = name).
Proof.
  split; [|split].
  - apply keys_init_register_all.
  - apply first_occurrences_NoDup.
  - intros name. rewrite first_occurrences_In, in_map_iff.
    split; intros (r & H1 & H2); exists r; auto.
Qed.

(** X3.  The tools array of such a client starts with the code-execution
    entry, which has no description, schema or allowed callers; the other
    entries are named by the registered names in the order of their first
    registration, and each carries the description, the schema and the
    allowed callers of the last registration made under its name. *)
Theorem build_tools_lists_latest_definitions
    (client : Request.t -> M World Raw.t) (model : option string)
    (max_tokens timeout_buffer_seconds : Z)
    (regs : list (Registration.t World)) :
  let self :=
    register_all (__init__ client model max_tokens timeout_buffer_seconds)
      regs in
  hd_error (_build_tools self)
  = Some (ToolParam.mk (Some CODE_EXECUTION_TOOL_TYPE) "code_execution"
            None None None)
  /\ map ToolParam.name (tl (_build_tools self))
     = first_occurrences (map registered_name regs)
  /\ (forall entry,
         In entry (tl (_build_tools self))
         <-> exists r,
               last_registration (ToolParam.name entry) regs = Some r
               /\ entry = tool_param (definition_of r)).
Proof.
  intros self.
  assert (Hnamed : Forall (fun kv => ToolDefinition.name (snd kv) = fst kv)
                     (_tools self)).
  { apply registered_named. constructor. }
  assert (Hnd : NoDup (dict_keys (_tools self))).
  { apply registered_NoDup. constructor. }
  assert (Hlook : forall name,
             dict_get name (_tools self)
             = option_map definition_of (last_registration name regs)).
  { intros name. unfold self. rewrite lookup_register_all.
    now destruct (last_registration name regs). }
  split; [reflexivity|]. split.
  - unfold _build_tools. cbn [tl]. unfold dict_values.
    rewrite !map_map.
    rewrite <- (keys_init_register_all client model max_tokens
                  timeout_buffer_seconds regs).
    fold self. unfold dict_keys. apply map_ext_in.
    intros kv Hin. cbn [ToolParam.name].
    rewrite Forall_forall in Hnamed. now apply Hnamed.
  - intros entry. unfold _build_tools. cbn [tl]. unfold dict_values.
    rewrite map_map, in_map_iff. fold (@tool_param World). split.
    + intros ([k td] & <- & Hin). cbn [snd].
      rewrite Forall_forall in Hnamed. pose proof (Hnamed _ Hin) as Hk.
      cbn in Hk. cbn [tool_param ToolParam.name]. rewrite Hk.
      apply (dict_get_In k td _ Hnd) in Hin. rewrite Hlook in Hin.
      destruct (last_registration k regs) as [r|]; [|discriminate].
      inversion Hin; subst. exists r. split; reflexivity.
    + intros (r & Hr & ->). cbn [tool_param ToolParam.name definition_of
                                 ToolDefinition.name] in Hr.
      exists (registered_name r, definition_of r). split; [reflexivity|].
      apply (dict_get_In _ _ _ Hnd). rewrite Hlook, Hr. reflexivity.
Qed.

(** X4.  Registering a tool changes nothing for the other names -- their
    lookup and their dispatch -- and nothing of the configuration. *)
Theorem tool_leaves_other_names
    (self : ProgrammaticToolClient World) (description : string)
    (input_schema : pyval) (caller : caller_literal) (name : option string)
    (fn : PyFunction.t World) (other : string) :
  other <> tool_name name fn ->
  let self' := tool self description input_schema caller name fn in
  dict_get other (_tools self') = dict_get other (_tools self)
  /\ (forall input_data w,
         _execute_tool json_dumps self' other input_data w
         = _execute_tool json_dumps self other input_data w)
  /\ _client self' = _client self
  /\ _model self' = _model self
  /\ _max_tokens self' = _max_tokens self
  /\ _timeout_buffer self' = _timeout_buffer self.
Proof.
  intros Hne self'.
  assert (Hg : dict_get other (_tools self') = dict_get other (_tools self)).
  { unfold self', tool. cbn [_tools]. now apply dict_get_set_neq. }
  split; [exact Hg|]. split; [|repeat split].
  intros input_data w. unfold _execute_tool. now rewrite Hg.
Qed.

Lemma register_all_model (regs : list (Registration.t World)) :
  forall self : ProgrammaticToolClient World,
    _model (register_all self regs) = _model self
    /\ _max_tokens (register_all self regs) = _max_tokens self
    /\ _client (register_all self regs) = _client self.
Proof.
  induction regs as [|r regs IH]; intros self; [auto|].
  cbn [register_all fold_left].
  destruct (IH (register self r)) as (H1 & H2 & H3).
  unfold register_all in *. rewrite H1, H2, H3. auto.
Qed.

(** X5.  A client built by [__init__] and any registrations never sends an
    empty model identifier: its requests carry the model given to
    [__init__] when that is a non-empty string and the default model when
    it is [None] or empty. *)
Theorem requests_carry_a_model
    (client : Request.t -> M World Raw.t) (model : option string)
    (max_tokens timeout_buffer_seconds : Z)
    (regs : list (Registration.t World)) (tools : list ToolParam.t)
    (system : option string) (st : Loop.t) :
  let self :=
    register_all (__init__ client model max_tokens timeout_buffer_seconds)
      regs in
  Request.model (build_kwargs self tools system st) <> ""
  /\ (forall m, model = Some m -> m <> "" ->
                Request.model (build_kwargs self tools system st) = m)
  /\ (model = None \/ model = Some "" ->
      Request.model (build_kwargs self tools system st) = MODEL).
Proof.
  intros self. cbn [build_kwargs Request.model]. unfold self.
  rewrite (proj1 (register_all_model regs _)). cbn [__init__ _model].
  split; [|split].
  - destruct model as [m|]; cbn [truthy_str get]; [|discriminate].
    destruct (String.eqb m "") eqn:E; cbn [negb]; [discriminate|].
    now apply String.eqb_neq.
  - intros m -> Hm. cbn [truthy_str get].
    apply String.eqb_neq in Hm. now rewrite Hm.
  - intros [-> | ->]; reflexivity.
Qed.

(** X6.  Dispatch does not enforce the allowed callers: the [caller]
    given at registration does not change the dispatch of any name, and
    replacing the [caller] of invocations, absent or a dictionary, by
    another one that is absent or a dictionary does not change what the
    [for] loop does.  The one [caller] that matters is [None]: its
    invocation ends the [for] loop with [AttributeError] before anything
    is dispatched for it. *)
Theorem allowed_callers_not_enforced
    (self : ProgrammaticToolClient World) (description : string)
    (input_schema : pyval) (caller1 caller2 : caller_literal)
    (name : option string) (fn : PyFunction.t World) :
  (forall called input_data w,
      _execute_tool json_dumps
        (tool self description input_schema caller1 name fn)
        called input_data w
      = _execute_tool json_dumps
          (tool self description input_schema caller2 name fn)
          called input_data w)
  /\ (forall (tag : Block.t -> option Caller.t) tool_calls total results w,
         Forall (fun tc => Block.caller tc <> Some IsNone) tool_calls ->
         build_tool_results json_dumps self
           (map (fun tc => with_caller tc (option_map Value (tag tc)))
              tool_calls)
           total results w
         = build_tool_results json_dumps self tool_calls total results w)
  /\ (forall tc rest total results w,
         Block.caller tc = Some IsNone ->
         build_tool_results json_dumps self (tc :: rest) total results w
         = (Err (mk_exn "AttributeError"
                   "'NoneType' object has no attribute 'get'" true), w)).
Proof.
  split; [|split].
  - intros called input_data w.
    destruct (string_dec called (tool_name name fn)) as [-> | Hne].
    + rewrite (execute_tool_registered World json_dumps _ _
                 (ToolDefinition.mk (tool_name name fn) description
                    input_schema fn (caller_map caller1)) input_data w);
        [|unfold tool; cbn [_tools]; apply dict_get_set_eq].
      rewrite (execute_tool_registered World json_dumps _ _
                 (ToolDefinition.mk (tool_name name fn) description
                    input_schema fn (caller_map caller2)) input_data w);
        [|unfold tool; cbn [_tools]; apply dict_get_set_eq].
      reflexivity.
    + unfold _execute_tool, tool. cbn [_tools].
      now rewrite !dict_get_set_neq by assumption.
  - intros tag tool_calls total results w Hcallers.
    revert total results w.
    induction Hcallers as [|tc rest Htc _ IH]; intros total results w;
      [reflexivity|].
    cbn [map build_tool_results].
    destruct (is_programmatic_Ok tc Htc) as [b Hb].
    destruct (is_programmatic_Ok
                (with_caller tc (option_map Value (tag tc)))) as [b' Hb'].
    { cbn [with_caller Block.caller]. destruct (tag tc); discriminate. }
    rewrite Hb, Hb'.
    cbn [with_caller Block.name Block.input Block.id].
    unfold bind, lift.
    destruct (getitem "name" (Block.name tc) w) as [[n|e] w1];
      [|reflexivity].
    destruct (getitem "input" (Block.input tc) w1) as [[a|e] w2];
      [|reflexivity].
    destruct (_execute_tool json_dumps self n a w2) as [[s|e] w3];
      [|reflexivity].
    destruct (getitem "id" (Block.id tc) w3) as [[i|e] w4]; [|reflexivity].
    apply IH.
  - intros tc rest total results w Hc.
    cbn [build_tool_results]. unfold bind, lift, _is_programmatic.
    rewrite Hc. reflexivity.
Qed.

End Registry.

(** ** The run loop, further *)

Lemma sum_tokens_snoc (count : Raw.t -> Z) (raws : list Raw.t) (raw : Raw.t) :
  sum_tokens count (raws ++ [raw]) = sum_tokens count raws + count raw.
Proof.
  unfold sum_tokens. induction raws as [|r raws IH]; simpl; [lia|].
  rewrite IH. lia.
Qed.

Section RunLoop.

Variable World : Type.
Variable json_dumps : pyval -> result string.
Variable fromisoformat : string -> result Datetime.t.
Variable now : World -> Z.
Variable self : ProgrammaticToolClient World.

Local Abbreviation process :=
  (process_response json_dumps fromisoformat now self).
Local Abbreviation loop :=
  (while_true json_dumps fromisoformat now self).
Local Abbreviation running :=
  (run json_dumps fromisoformat now self).
Local Abbreviation content_of raw :=
  (match Raw.content raw with Some content => content | None => [] end).
Local Abbreviation tool_use_blocks content :=
  (filter (fun block : Block.t =>
             match Block.type block with
             | Some type => String.eqb type "tool_use"
             | None => false
             end) content).
Local Abbreviation text_type_blocks content :=
  (filter (fun block : Block.t =>
             match Block.type block with
             | Some type => String.eqb type "text"
             | None => false
             end) content).
Local Abbreviation LF := (String "010"%char EmptyString).

(** The state of a loop that is still running after [fuel] iterations was
    reached through [fuel] responses with stop reason [tool_use]. *)
Lemma while_true_Running_inv (tools : list ToolParam.t)
    (system : option string) (P : nat -> Loop.t -> Prop) :
  (forall n st raw rs,
      P n st -> is_tool_use raw -> P (S n) (next_state st raw rs)) ->
  forall (fuel n : nat) (st st' : Loop.t) (w w' : World),
    P n st ->
    loop tools system fuel st w = (Running st', w') ->
    P (n + fuel)%nat st'.
Proof.
  intros Hstep. induction fuel as [|fuel IH]; intros n st st' w w' HP.
  - simpl. intros H. inversion H; subst. now rewrite Nat.add_0_r.
  - cbn [while_true].
    destruct (iteration json_dumps fromisoformat now self tools system st w)
      as [[[r0|st1]|e] w1] eqn:Hb; try discriminate.
    apply iteration_inv in Hb as (raw & w2 & _ & Hp).
    apply process_response_Continue_inv in Hp as (Hs & _ & rs & _ & ->).
    intros H. rewrite <- Nat.add_succ_comm.
    apply (IH (S n) _ _ _ _ (Hstep _ _ _ _ HP Hs) H).
Qed.

Lemma while_true_Returned_length (tools : list ToolParam.t)
    (system : option string) :
  forall (fuel : nat) (st : Loop.t) (w w' : World) (r : RunResult.t),
    loop tools system fuel st w = (Returned r, w') ->
    (length (Loop.all_raw st) < length (RunResult.raw_messages r)
     <= length (Loop.all_raw st) + fuel)%nat.
Proof.
  induction fuel as [|fuel IH]; intros st w w' r.
  - simpl. discriminate.
  - cbn [while_true].
    destruct (iteration json_dumps fromisoformat now self tools system st w)
      as [[[r0|st1]|e] w1] eqn:Hb; try discriminate.
    + intros H. inversion H; subst. clear H.
      apply iteration_inv in Hb as (raw & w2 & _ & Hp).
      apply process_response_Return_inv in Hp as (_ & _ & -> & _).
      cbn [final_result RunResult.raw_messages]. rewrite length_app. simpl.
      lia.
    + apply iteration_inv in Hb as (raw & w2 & _ & Hp).
      apply process_response_Continue_inv in Hp as (_ & _ & rs & _ & ->).
      intros H. apply IH in H.
      cbn [next_state Loop.all_raw] in H. rewrite length_app in H.
      simpl in H. lia.
Qed.

(** Once the loop has returned or raised, allowing more iterations changes
    nothing: the bound on the iterations is no part of the result. *)
Lemma while_true_more_fuel (tools : list ToolParam.t)
    (system : option string) :
  forall (fuel : nat) (st : Loop.t) (w w' : World) (o : outcome),
    loop tools system fuel st w = (o, w') ->
    (forall st', o <> Running st') ->
    forall extra, loop tools system (fuel + extra) st w = (o, w').
Proof.
  induction fuel as [|fuel IH]; intros st w w' o Hl Hdone extra.
  - simpl in Hl. inversion Hl; subst. now elim (Hdone st).
  - cbn [while_true Nat.add] in *.
    destruct (iteration json_dumps fromisoformat now self tools system st w)
      as [[[r0|st1]|e] w1]; try exact Hl.
    now apply IH.
Qed.

(** X7.  The token totals a run returns are the sums of the input and of
    the output counts over all the responses received, a response without
    usage record, or a record without a count, adding nothing. *)
Theorem token_totals_are_sums (user_message : string)
    (system container_id : option string) (fuel : nat) (w w' : World)
    (r : RunResult.t) :
  running user_message system container_id fuel w = (Returned r, w') ->
  RunResult.total_input_tokens r
  = sum_tokens input_tokens_of (RunResult.raw_messages r)
  /\ RunResult.total_output_tokens r
     = sum_tokens output_tokens_of (RunResult.raw_messages r)
  /\ (forall raw, Raw.usage raw = None ->
                  input_tokens_of raw = 0 /\ output_tokens_of raw = 0)
  /\ (forall raw u, Raw.usage raw = Some u ->
                    Usage.output_tokens u = None -> output_tokens_of raw = 0).
Proof.
  unfold run. intros Hrun.
  apply (while_true_Returned World json_dumps fromisoformat now self _ _
           (fun st =>
              Loop.total_input st
              = sum_tokens input_tokens_of (Loop.all_raw st)
              /\ Loop.total_output st
                 = sum_tokens output_tokens_of (Loop.all_raw st)))
    in Hrun as (st & final & [Hin Hout] & _ & -> & _).
  - match goal with
    | |- context [final_result st final ?t] => generalize t; intros text
    end.
    cbn [final_result RunResult.total_input_tokens
           RunResult.total_output_tokens RunResult.raw_messages].
    rewrite !sum_tokens_snoc, Hin, Hout.
    split; [reflexivity|]. split; [reflexivity|]. split.
    + intros raw Hu. unfold input_tokens_of, output_tokens_of.
      rewrite Hu. split; reflexivity.
    + intros raw u Hu Ho. unfold output_tokens_of. rewrite Hu. cbn [get].
      now rewrite Ho.
  - intros st raw rs w0 w1 [Hin Hout] _ _.
    cbn [next_state Loop.total_input Loop.total_output Loop.all_raw].
    rewrite !sum_tokens_snoc, Hin, Hout. split; reflexivity.
  - split; reflexivity.
Qed.

(** X8.  The responses a run returns are, in order, those it received:
    every one but the last has stop reason [tool_use], the last has not,
    and there are at least one and at most as many as iterations were
    allowed. *)
Theorem raw_messages_end_on_first_terminal_response (user_message : string)
    (system container_id : option string) (fuel : nat) (w w' : World)
    (r : RunResult.t) :
  running user_message system container_id fuel w = (Returned r, w') ->
  (exists raws final,
      RunResult.raw_messages r = (raws ++ [final])%list
      /\ Forall is_tool_use raws
      /\ ~ is_tool_use final)
  /\ (1 <= length (RunResult.raw_messages r) <= fuel)%nat.
Proof.
  unfold run. intros Hrun. split.
  - apply (while_true_Returned World json_dumps fromisoformat now self _ _
             (fun st => Forall is_tool_use (Loop.all_raw st)))
      in Hrun as (st & final & Hall & Hs & -> & _).
    + exists (Loop.all_raw st), final. repeat split; assumption.
    + intros st raw rs w0 w1 Hall Hs _. cbn [next_state Loop.all_raw].
      apply Forall_app. split; [assumption | now repeat constructor].
    + constructor.
  - apply while_true_Returned_length in Hrun. cbn in Hrun. lia.
Qed.

(** X9.  A run that is still looping after [fuel] iterations has made
    [fuel] exchanges, all answered with [tool_use]; its conversation starts
    with the user's message and goes on with one assistant turn and one
    user turn per exchange, the assistant turns holding the contents of the
    responses in order. *)
Theorem running_conversation_alternates (user_message : string)
    (system container_id : option string) (fuel : nat) (w w' : World)
    (st : Loop.t) :
  running user_message system container_id fuel w = (Running st, w') ->
  length (Loop.all_raw st) = fuel
  /\ Forall is_tool_use (Loop.all_raw st)
  /\ hd_error (Loop.messages st)
     = Some (Message.mk "user" (ContentStr user_message))
  /\ map Message.role (Loop.messages st)
     = ("user" :: alternating_roles fuel)%list
  /\ assistant_contents (Loop.messages st)
     = map (fun raw => ContentList (get (Raw.content raw) []))
         (Loop.all_raw st).
Proof.
  unfold run. intros Hrun.
  apply (while_true_Running_inv _ _
           (fun n st =>
              length (Loop.all_raw st) = n
              /\ Forall is_tool_use (Loop.all_raw st)
              /\ hd_error (Loop.messages st)
                 = Some (Message.mk "user" (ContentStr user_message))
              /\ map Message.role (Loop.messages st)
                 = ("user" :: alternating_roles n)%list
              /\ assistant_contents (Loop.messages st)
                 = map (fun raw => ContentList (get (Raw.content raw) []))
                     (Loop.all_raw st))
           ) with (n := 0%nat) in Hrun.
  - exact Hrun.
  - intros n s raw rs (Hlen & Hall & Hhd & Hroles & Hasst) Hs.
    cbn [next_state Loop.all_raw Loop.messages].
    split; [rewrite length_app; simpl; lia|].
    split; [apply Forall_app; split; [assumption | now repeat constructor]|].
    split.
    { destruct (Loop.messages s) as [|m ms]; [discriminate | exact Hhd]. }
    split.
    { rewrite !map_app, Hroles. cbn [map Message.role app].
      f_equal. clear. induction n as [|n IH]; [reflexivity|].
      cbn [alternating_roles app]. now rewrite IH. }
    unfold assistant_contents in *.
    rewrite !filter_app, !map_app, Hasst. cbn. now rewrite app_nil_r.
  - repeat split; constructor.
Qed.

(** X10.  A [tool_use] response without any tool-use block, whose expiry
    check passes, continues the loop: no handler runs, the call count
    stays, and the conversation gains the assistant turn and a user turn
    with no entry. *)
Theorem tool_use_without_invocations (st : Loop.t) (raw : Raw.t) (w : World) :
  expiry_check_passes fromisoformat raw = true ->
  Raw.stop_reason raw = Some "tool_use" ->
  tool_use_blocks (content_of raw) = [] ->
  exists st',
    process st raw w = (Ok (Continue st'), w)
    /\ Loop.total_tool_calls st' = Loop.total_tool_calls st
    /\ Loop.messages st'
       = ((Loop.messages st
             ++ [Message.mk "assistant" (ContentList (content_of raw))])
            ++ [Message.mk "user" (ContentList [])])%list.
Proof.
  intros Hpass Hs Hcalls.
  assert (Hcalls' : _extract_tool_calls (get (Raw.content raw) []) = [])
    by exact Hcalls.
  exists (next_state st raw []).
  split; [|split].
  - apply process_response_tool_use;
      [exact Hpass | unfold get; now rewrite Hs |].
    rewrite Hcalls'. constructor.
  - cbn [next_state Loop.total_tool_calls]. rewrite Hcalls'. simpl. lia.
  - reflexivity.
Qed.

(** X11.  The request after a [tool_use] response reuses the session: it
    carries the identifier of the response's session descriptor when that
    is a non-empty string, and what the previous request carried when the
    response has no descriptor. *)
Theorem next_request_reuses_session (tools : list ToolParam.t)
    (system : option string) (st st' : Loop.t) (raw : Raw.t) (w w' : World) :
  process st raw w = (Ok (Continue st'), w') ->
  (forall c i,
      Raw.container raw = Some c -> Container.id c = Some i -> i <> "" ->
      Request.container (build_kwargs self tools system st') = Some i)
  /\ (Raw.container raw = None ->
      Request.container (build_kwargs self tools system st')
      = Request.container (build_kwargs self tools system st)).
Proof.
  intros Hp.
  apply process_response_Continue_inv in Hp as (_ & _ & rs & _ & ->).
  cbn [build_kwargs Request.container next_state Loop.container_id].
  split.
  - intros c i Hc Hi Hne. rewrite Hc. unfold track_container.
    unfold Container.truthy. rewrite Hi. cbn [truthy_str].
    apply String.eqb_neq in Hne. now rewrite Hne.
  - intros ->. reflexivity.
Qed.

(** The exceptions the expiry check raises. *)
Lemma check_container_expiry_Err (container : option Container.t)
    (w w' : World) (e : exn) :
  _check_container_expiry fromisoformat now self container w = (Err e, w') ->
  (exists s, fromisoformat s = Err e)
  \/ e = mk_exn "AttributeError"
           "'NoneType' object has no attribute 'replace'" true
  \/ e = mk_exn "TypeError"
           "'str' object cannot be interpreted as an integer" true
  \/ e = mk_exn "TypeError"
           "can't subtract offset-naive and offset-aware datetimes" true.
Proof.
  unfold _check_container_expiry, ret, raise, bind, lift.
  destruct container as [c|]; [|discriminate].
  destruct (negb (Container.truthy c)); [discriminate|].
  destruct (Container.expires_at c) as [[s|d|]|]; try discriminate.
  - destruct (fromisoformat (replace_Z s)) as [dt|e0] eqn:Hf.
    + destruct (Datetime.aware dt); [discriminate|].
      intros H. inversion H. auto.
    + intros H. inversion H; subst. eauto.
  - intros H. inversion H. auto.
  - intros H. inversion H. auto.
Qed.

Lemma build_tool_results_Err (tool_calls : list Block.t) :
  forall (total : Z) (results : list Block.t) (w w' : World) (e : exn),
    build_tool_results json_dumps self tool_calls total results w
    = (Err e, w') ->
    e = mk_exn "AttributeError" "'NoneType' object has no attribute 'get'"
          true
    \/ e = KeyError "name" \/ e = KeyError "input" \/ e = KeyError "id"
    \/ exc_is_Exception e = false.
Proof.
  induction tool_calls as [|tc rest IH]; intros total results w w' e.
  - simpl. discriminate.
  - cbn [build_tool_results]. unfold bind, getitem, lift.
    destruct (_is_programmatic tc) as [b|e0] eqn:Hp.
    2:{ apply is_programmatic_Err in Hp as [_ ->].
        intros H. inversion H. auto. }
    destruct (Block.name tc) as [name|];
      [|unfold raise; intros H; inversion H; auto].
    destruct (Block.input tc) as [input|];
      [|unfold ret at 1, raise; intros H; inversion H; auto].
    unfold ret at 1 2.
    destruct (_execute_tool json_dumps self name input w) as [[s|e0] w1] eqn:He.
    + destruct (Block.id tc) as [id|];
        [|unfold raise; intros H; inversion H; auto].
      unfold ret at 1. apply IH.
    + intros H. inversion H; subst.
      do 4 right. eapply execute_tool_escapes. eassumption.
Qed.

Lemma comprehension_text_Err (blocks : list Block.t) :
  forall (w w' : World) (e : exn),
    comprehension (fun block => getitem "text" (Block.text block)) blocks w
    = (Err e, w') ->
    e = KeyError "text".
Proof.
  induction blocks as [|b blocks IH]; intros w w' e.
  - simpl. discriminate.
  - cbn [comprehension]. unfold bind, getitem.
    destruct (Block.text b) as [t|];
      [|unfold raise; intros H; now inversion H].
    unfold ret at 1.
    destruct (comprehension _ blocks w) as [[ps|e0] w1] eqn:Hc;
      [discriminate|].
    intros H. inversion H; subst. eapply IH. eassumption.
Qed.

(** A text block without text makes the comprehension of the [end_turn]
    branch raise. *)
Lemma comprehension_text_missing (blocks : list Block.t) (w : World) :
  (exists block, In block blocks /\ Block.text block = None) ->
  comprehension (fun block => getitem "text" (Block.text block)) blocks w
  = (Err (KeyError "text"), w).
Proof.
  intros (block & Hin & Ht). revert Hin.
  set (F := fun block : Block.t => getitem "text" (Block.text block)).
  induction blocks as [|blk bs IH]; [contradiction|].
  intros [-> | Hin]; cbn [comprehension]; unfold bind at 1; unfold F at 1.
  - now rewrite Ht.
  - destruct (Block.text blk) as [t|]; [|reflexivity].
    cbn [getitem]. unfold ret at 1, bind at 1. now rewrite (IH Hin).
Qed.

Lemma process_response_Err (st : Loop.t) (raw : Raw.t) (w w' : World)
    (e : exn) :
  process st raw w = (Err e, w') ->
  _check_container_expiry fromisoformat now self (Raw.container raw) w
  = (Err e, w)
  \/ e = KeyError "text"
  \/ e = mk_exn "AttributeError" "'NoneType' object has no attribute 'get'"
           true
  \/ e = KeyError "name" \/ e = KeyError "input"
  \/ e = KeyError "id" \/ exc_is_Exception e = false.
Proof.
  unfold process_response, bind.
  destruct (match Raw.container raw with
            | Some c =>
                if Container.truthy c
                then _check_container_expiry fromisoformat now self
                       (Raw.container raw)
                else ret false
            | None => ret false
            end w) as [[b|e0] w1] eqn:Hc;
    apply expiry_check_inv in Hc as [-> Hc].
  2:{ intros H. inversion H; subst. left. apply Hc. }
  destruct (String.eqb (get (Raw.stop_reason raw) "") "end_turn").
  - destruct (comprehension _ _ w) as [[ps|e0] w1] eqn:Hcomp; [discriminate|].
    intros H. inversion H; subst. right. left.
    eapply comprehension_text_Err. eassumption.
  - destruct (String.eqb (get (Raw.stop_reason raw) "") "tool_use");
      [|discriminate].
    destruct (build_tool_results _ _ _ _ _ w) as [[[total rs]|e0] w1] eqn:Hb;
      [discriminate|].
    intros H. inversion H; subst. right. right.
    eapply build_tool_results_Err. eassumption.
Qed.

(** X12.  An exception that leaves [run] was raised by the transport; or
    by the expiry check: the error of the timestamp parser, the
    [AttributeError] of an [expires_at] that is [None], the [TypeError] of
    one that is a datetime object or of a timestamp without offset; or it
    is the [KeyError] of a text block without text, the [AttributeError] of
    an invocation whose [caller] is [None], the [KeyError] of an invocation
    without name, input or id; or it does not derive from [Exception].  No
    exception deriving from [Exception] that a handler or the
    serialisation raises ever leaves [run]. *)
Theorem run_raises_classified (user_message : string)
    (system container_id : option string) (fuel : nat) (w w' : World)
    (e : exn) :
  running user_message system container_id fuel w = (Raised e, w') ->
  (exists request w0 w1, _client self request w0 = (Err e, w1))
  \/ (exists s, fromisoformat s = Err e)
  \/ e = mk_exn "AttributeError"
           "'NoneType' object has no attribute 'replace'" true
  \/ e = mk_exn "TypeError"
           "'str' object cannot be interpreted as an integer" true
  \/ e = mk_exn "TypeError"
           "can't subtract offset-naive and offset-aware datetimes" true
  \/ e = KeyError "text"
  \/ e = mk_exn "AttributeError" "'NoneType' object has no attribute 'get'"
           true
  \/ e = KeyError "name" \/ e = KeyError "input"
  \/ e = KeyError "id" \/ exc_is_Exception e = false.
Proof.
  unfold run. generalize (initial user_message container_id).
  generalize (_build_tools self). intros tools.
  revert w. induction fuel as [|fuel IH]; intros w st.
  - simpl. discriminate.
  - cbn [while_true]. unfold iteration, bind.
    destruct (_client self (build_kwargs self tools system st) w)
      as [[raw|e0] w1] eqn:Hc.
    + destruct (process st raw w1) as [[[r|st1]|e1] w2] eqn:Hp.
      * discriminate.
      * apply IH.
      * intros H. inversion H; subst. right.
        apply process_response_Err in Hp as [Hchk | Hrest].
        -- apply check_container_expiry_Err in Hchk. tauto.
        -- tauto.
    + intros H. inversion H; subst. left. eauto.
Qed.

(** X13.  An invocation without [name] raises [KeyError] before anything
    is dispatched; an invocation without [id] raises [KeyError] after its
    handler has run, in the world the handler left.  Both come after the
    classification of the invocation, which raises [AttributeError] first
    when the [caller] is [None]. *)
Theorem malformed_invocation_raises_KeyError (tc : Block.t)
    (rest : list Block.t) (total : Z) (results : list Block.t) (w : World) :
  (Block.caller tc <> Some IsNone ->
   Block.name tc = None ->
   build_tool_results json_dumps self (tc :: rest) total results w
   = (Err (KeyError "name"), w))
  /\ (forall name input result_str w1,
         Block.caller tc <> Some IsNone ->
         Block.name tc = Some name ->
         Block.input tc = Some input ->
         Block.id tc = None ->
         _execute_tool json_dumps self name input w = (Ok result_str, w1) ->
         build_tool_results json_dumps self (tc :: rest) total results w
         = (Err (KeyError "id"), w1))
  /\ (Block.caller tc = Some IsNone ->
      build_tool_results json_dumps self (tc :: rest) total results w
      = (Err (mk_exn "AttributeError"
                "'NoneType' object has no attribute 'get'" true), w)).
Proof.
  split; [|split].
  - intros Hc Hn. destruct (is_programmatic_Ok tc Hc) as [b Hb].
    cbn [build_tool_results]. unfold bind, getitem, lift.
    now rewrite Hb, Hn.
  - intros name input s w1 Hc Hn Hi Hid He.
    destruct (is_programmatic_Ok tc Hc) as [b Hb].
    cbn [build_tool_results]. unfold bind, getitem, lift.
    rewrite Hb, Hn, Hi. unfold ret at 1 2. now rewrite He, Hid.
  - intros Hc. cbn [build_tool_results].
    unfold bind, lift, _is_programmatic. now rewrite Hc.
Qed.

(** X14.  On a response whose expiry check passes, a text block without
    [text] makes an [end_turn] response raise [KeyError]; under any stop
    reason other than [end_turn] and [tool_use] the same response is
    returned on, the block counting as the empty text. *)
Theorem text_block_without_text (st : Loop.t) (raw : Raw.t) (w : World) :
  expiry_check_passes fromisoformat raw = true ->
  (exists block,
      In block (text_type_blocks (content_of raw))
      /\ Block.text block = None) ->
  let joined :=
    String.concat LF
      (map (fun block : Block.t =>
              match Block.text block with Some text => text | None => "" end)
         (text_type_blocks (content_of raw))) in
  (Raw.stop_reason raw = Some "end_turn" ->
   process st raw w = (Err (mk_exn "KeyError" "'text'" true), w))
  /\ (get (Raw.stop_reason raw) "" <> "end_turn" ->
      get (Raw.stop_reason raw) "" <> "tool_use" ->
      exists r,
        process st raw w = (Ok (Return r), w)
        /\ (joined <> "" -> RunResult.text r = joined)
        /\ (joined = "" ->
            RunResult.text r
            = "Unexpected stop: " ++ get (Raw.stop_reason raw) "")).
Proof.
  intros Hpass Hblock joined. split.
  - intros Hs. unfold process_response, bind.
    destruct (expiry_check_Ok World fromisoformat now self raw w Hpass)
      as [b Hb].
    rewrite Hb. unfold get at 1. rewrite Hs.
    cbn [String.eqb Ascii.eqb Bool.eqb].
    change (text_blocks (get (Raw.content raw) []))
      with (text_type_blocks (content_of raw)).
    now rewrite (comprehension_text_missing _ w Hblock).
  - intros H1 H2. eexists. split.
    + apply process_response_other; assumption.
    + cbn [final_result RunResult.text].
      change (response_text raw) with joined. split.
      * intros Hne. apply String.eqb_neq in Hne. now rewrite Hne.
      * intros ->. reflexivity.
Qed.

(** X16.  An [expires_at] that the expiry check cannot handle ends the
    run, whatever the stop reason of the response, before anything of the
    response is dispatched or returned: a datetime object and a timestamp
    without offset raise [TypeError], [None] raises [AttributeError], and a
    string the parser rejects, once its "Z" is replaced by "+00:00", raises
    the error of the parser. *)
Theorem expiry_check_failure_ends_run (st : Loop.t) (raw : Raw.t)
    (c : Container.t) (expires_at : expires_value) (w : World) :
  Raw.container raw = Some c ->
  Container.expires_at c = Some expires_at ->
  let raised :=
    match expires_at with
    | ExpiresDatetime _ =>
        Some (mk_exn "TypeError"
                "'str' object cannot be interpreted as an integer" true)
    | ExpiresNone =>
        Some (mk_exn "AttributeError"
                "'NoneType' object has no attribute 'replace'" true)
    | ExpiresStr s =>
        match fromisoformat (replace_Z s) with
        | Err e => Some e
        | Ok expires =>
            if Datetime.aware expires then None
            else Some (mk_exn "TypeError"
                         "can't subtract offset-naive and offset-aware datetimes"
                         true)
        end
    end in
  forall e,
    raised = Some e ->
    process st raw w = (Err e, w)
    /\ (forall tools system fuel w0,
           _client self (build_kwargs self tools system st) w0
           = (Ok raw, w) ->
           loop tools system (S fuel) st w0 = (Raised e, w)).
Proof.
  intros Hc He raised e Hr.
  assert (Hp : process st raw w = (Err e, w)).
  { unfold process_response, _check_container_expiry, bind, raise, lift.
    rewrite Hc. unfold Container.truthy. rewrite He.
    assert (Ht : match Container.id c with
                 | Some _ => true
                 | None => true
                 end = true) by now destruct (Container.id c).
    rewrite Ht. cbn [negb].
    subst raised. destruct expires_at as [s|d|].
    - destruct (fromisoformat (replace_Z s)) as [dt|e0].
      + destruct (Datetime.aware dt); [discriminate|].
        injection Hr as <-. reflexivity.
      + injection Hr as <-. reflexivity.
    - injection Hr as <-. reflexivity.
    - injection Hr as <-. reflexivity. }
  split; [exact Hp|].
  intros tools system fuel w0 Hcl.
  eapply while_true_Raised; eassumption.
Qed.

End RunLoop.

(** ** The clock and the buffer, serialisation failures and the example
    tool *)

Section Clock.

Variable World : Type.
Variable json_dumps : pyval -> result string.
Variable fromisoformat : string -> result Datetime.t.

Lemma build_tool_results_timeout_buffer (self : ProgrammaticToolClient World)
    (timeout_buffer_seconds : Z) (tool_calls : list Block.t) :
  forall total results w,
    build_tool_results json_dumps
      (with_timeout_buffer self timeout_buffer_seconds)
      tool_calls total results w
    = build_tool_results json_dumps self tool_calls total results w.
Proof.
  induction tool_calls as [|tc rest IH]; intros total results w;
    [reflexivity|].
  cbn [build_tool_results]. unfold bind, lift.
  destruct (_is_programmatic tc) as [b|e]; [|reflexivity].
  destruct (getitem "name" (Block.name tc) w) as [[n|e] w1]; [|reflexivity].
  destruct (getitem "input" (Block.input tc) w1) as [[a|e] w2];
    [|reflexivity].
  change (_execute_tool json_dumps
            (with_timeout_buffer self timeout_buffer_seconds) n a w2)
    with (_execute_tool json_dumps self n a w2).
  destruct (_execute_tool json_dumps self n a w2) as [[s|e] w3];
    [|reflexivity].
  destruct (getitem "id" (Block.id tc) w3) as [[i|e] w4]; [|reflexivity].
  apply IH.
Qed.

(** The clock and the buffer decide whether the check warns, not whether
    it raises, nor what. *)
Lemma check_container_expiry_timeout_buffer (now1 now2 : World -> Z)
    (self : ProgrammaticToolClient World) (timeout_buffer_seconds : Z)
    (container : option Container.t) (w : World) :
  match
    _check_container_expiry fromisoformat now2
      (with_timeout_buffer self timeout_buffer_seconds) container w,
    _check_container_expiry fromisoformat now1 self container w
  with
  | (Ok _, w2), (Ok _, w1) => w2 = w /\ w1 = w
  | (Err e2, w2), (Err e1, w1) => e2 = e1 /\ w2 = w /\ w1 = w
  | _, _ => False
  end.
Proof.
  unfold _check_container_expiry, ret, raise, bind, lift.
  destruct container as [c|]; [|auto].
  destruct (negb (Container.truthy c)); [auto|].
  destruct (Container.expires_at c) as [[s|d|]|]; auto.
  destruct (fromisoformat (replace_Z s)) as [dt|e]; [|auto].
  destruct (Datetime.aware dt); auto.
Qed.

Lemma process_response_timeout_buffer (now1 now2 : World -> Z)
    (self : ProgrammaticToolClient World) (timeout_buffer_seconds : Z)
    (st : Loop.t) (raw : Raw.t) (w : World) :
  process_response json_dumps fromisoformat now2
    (with_timeout_buffer self timeout_buffer_seconds) st raw w
  = process_response json_dumps fromisoformat now1 self st raw w.
Proof.
  unfold process_response, bind.
  pose proof (check_container_expiry_timeout_buffer now1 now2 self
                timeout_buffer_seconds (Raw.container raw) w) as Hchk.
  destruct (Raw.container raw) as [c|].
  - destruct (Container.truthy c).
    + destruct (_check_container_expiry fromisoformat now2 _ (Some c) w)
        as [[b2|e2] w2];
        destruct (_check_container_expiry fromisoformat now1 self (Some c) w)
          as [[b1|e1] w1]; try contradiction.
      * destruct Hchk as [-> ->].
        destruct (String.eqb (get (Raw.stop_reason raw) "") "end_turn");
          [reflexivity|].
        destruct (String.eqb (get (Raw.stop_reason raw) "") "tool_use");
          [|reflexivity].
        now rewrite build_tool_results_timeout_buffer.
      * destruct Hchk as (-> & -> & ->). reflexivity.
    + unfold ret.
      destruct (String.eqb (get (Raw.stop_reason raw) "") "end_turn");
        [reflexivity|].
      destruct (String.eqb (get (Raw.stop_reason raw) "") "tool_use");
        [|reflexivity].
      now rewrite build_tool_results_timeout_buffer.
  - unfold ret.
    destruct (String.eqb (get (Raw.stop_reason raw) "") "end_turn");
      [reflexivity|].
    destruct (String.eqb (get (Raw.stop_reason raw) "") "tool_use");
      [|reflexivity].
    now rewrite build_tool_results_timeout_buffer.
Qed.

(** X15.  Neither the clock nor the warning buffer changes what a run
    does -- its result, the exception it raises, the state it is in after
    any number of iterations, or the world it leaves: they decide the
    warning only, and whether the expiry check raises, and what, depends
    on the value of [expires_at] alone. *)
Theorem clock_and_buffer_do_not_change_run (now1 now2 : World -> Z)
    (self : ProgrammaticToolClient World) (timeout_buffer_seconds : Z)
    (user_message : string) (system container_id : option string)
    (fuel : nat) (w : World) :
  run json_dumps fromisoformat now2
    (with_timeout_buffer self timeout_buffer_seconds)
    user_message system container_id fuel w
  = run json_dumps fromisoformat now1 self user_message system container_id
      fuel w.
Proof.
  unfold run.
  change (_build_tools (with_timeout_buffer self timeout_buffer_seconds))
    with (_build_tools self).
  generalize (_build_tools self) (initial user_message container_id).
  intros tools. revert w.
  induction fuel as [|fuel IH]; intros w st; [reflexivity|].
  cbn [while_true]. unfold iteration, bind.
  change (_client (with_timeout_buffer self timeout_buffer_seconds))
    with (_client self).
  change (build_kwargs (with_timeout_buffer self timeout_buffer_seconds)
            tools system st)
    with (build_kwargs self tools system st).
  destruct (_client self (build_kwargs self tools system st) w)
    as [[raw|e] w1]; [|reflexivity].
  rewrite (process_response_timeout_buffer now1 now2).
  destruct (process_response json_dumps fromisoformat now1 self st raw w1)
    as [[[r|st1]|e] w2]; try reflexivity.
  apply IH.
Qed.

(** X17.  A value that the serialisation rejects with an exception
    deriving from [Exception] does not make dispatch fail: the result is
    the error string of that exception, like for a failing handler. *)
Theorem serialisation_failure_is_contained
    (self : ProgrammaticToolClient World) (name : string)
    (td : ToolDefinition.t World) (input_data : kwargs) (w w' : World)
    (v : pyval) (e : exn) :
  dict_get name (_tools self) = Some td ->
  PyFunction.call (ToolDefinition.handler td) input_data w = (Ok v, w') ->
  isinstance_str v = false ->
  json_dumps v = Err e ->
  exc_is_Exception e = true ->
  _execute_tool json_dumps self name input_data w
  = (Ok ("Error: " ++ exc_name e ++ ": " ++ exc_str e), w').
Proof.
  intros Hg Hc Hv Hj He.
  rewrite (execute_tool_returns World json_dumps self _ _ _ _ _ _ Hg Hc).
  destruct v; try discriminate; now rewrite Hj, He.
Qed.

(** X18.  The tool [fetch_logs] of the examples, on any client that holds
    it under its name: for every string server identifier dispatch returns
    the log of that server, or "No logs found" when the table has none,
    and leaves the world as it is; without the argument the result is the
    error string of a [TypeError]. *)
Theorem fetch_logs_dispatch (self : ProgrammaticToolClient World)
    (td : ToolDefinition.t World) (server_id : string) (w : World) :
  dict_get "fetch_logs" (_tools self) = Some td ->
  ToolDefinition.handler td = fetch_logs ->
  _execute_tool json_dumps self "fetch_logs"
    [("server_id", PStr server_id)] w
  = (Ok (get (dict_get server_id fetch_logs_table) "No logs found"), w)
  /\ (server_id <> "web-01" -> server_id <> "db-01" ->
      _execute_tool json_dumps self "fetch_logs"
        [("server_id", PStr server_id)] w
      = (Ok "No logs found", w))
  /\ (exists message,
         _execute_tool json_dumps self "fetch_logs" [] w
         = (Ok ("Error: TypeError: " ++ message), w)).
Proof.
  intros Hg Hh.
  assert (Hd : forall input_data,
             _execute_tool json_dumps self "fetch_logs" input_data w
             = dispatch_outcome json_dumps
                 (PyFunction.call fetch_logs input_data w)).
  { intros input_data.
    rewrite (execute_tool_registered World json_dumps self _ _ input_data w Hg).
    now rewrite Hh. }
  split; [|split].
  - rewrite Hd. reflexivity.
  - intros H1 H2. rewrite Hd. cbn.
    apply String.eqb_neq in H1, H2.
    unfold fetch_logs_table. cbn [dict_get]. now rewrite H1, H2.
  - rewrite Hd. eexists. reflexivity.
Qed.

End Clock.

(** ** The further properties on the example clients *)

(** Registering [add], [fail] and then [sub] under the name [add]: two
    names, [add] first. *)
Lemma registry_keeps_first_registration_order_witness :
  dict_keys
    (_tools (register_all (__init__ (scripted []) None 4096 30)
               [ex_registration ex_add; ex_registration ex_fail;
                Registration.mk "Subtracts." ex_schema Direct (Some "add")
                  ex_sub]))
  = ["add"; "fail"].
Proof.
  exact (proj1 (registry_keeps_first_registration_order nat (scripted [])
                  None 4096 30
                  [ex_registration ex_add; ex_registration ex_fail;
                   Registration.mk "Subtracts." ex_schema Direct (Some "add")
                     ex_sub])).
Defined.

(** The tools array of the same client: the entry of [add] is that of the
    registration made last. *)
Lemma build_tools_lists_latest_definitions_witness :
  let regs :=
    [ex_registration ex_add; ex_registration ex_fail;
     Registration.mk "Subtracts." ex_schema Direct (Some "add") ex_sub] in
  map ToolParam.name
    (tl (_build_tools (register_all (__init__ (scripted []) None 4096 30) regs)))
  = ["add"; "fail"]
  /\ In (ToolParam.mk None "add" (Some "Subtracts.") (Some ex_schema)
           (Some ["direct"]))
       (tl (_build_tools
              (register_all (__init__ (scripted []) None 4096 30) regs))).
Proof.
  intros regs.
  destruct (build_tools_lists_latest_definitions nat (scripted []) None
              4096 30 regs) as (_ & Hnames & Hentries).
  split; [exact Hnames|].
  apply Hentries. eexists. split; reflexivity.
Defined.

(** Registering [sub] leaves the dispatch of [add] as it was. *)
Lemma tool_leaves_other_names_witness :
  let self := ex_client (scripted []) in
  let self' := tool self "Subtracts." ex_schema Direct None ex_sub in
  "add" <> tool_name None ex_sub
  /\ dict_get "add" (_tools self') = dict_get "add" (_tools self)
  /\ _execute_tool json_dumps_ref self' "add" (ex_args 1 2) 0%nat
     = (Ok "3", 0%nat).
Proof.
  intros self self'.
  assert (Hne : "add" <> tool_name None ex_sub) by discriminate.
  destruct (tool_leaves_other_names nat json_dumps_ref self "Subtracts."
              ex_schema Direct None ex_sub "add" Hne) as (Hg & Hd & _).
  split; [exact Hne|]. split; [exact Hg|].
  unfold self'. rewrite Hd. reflexivity.
Defined.

(** The totals of [ex_session], and of a session whose last response
    reports no output count. *)
Lemma token_totals_are_sums_witness :
  (exists r w',
      run json_dumps_ref ex_fromisoformat ex_now (ex_client (scripted ex_session))
        "hi" None None 5 0%nat = (Returned r, w')
      /\ RunResult.total_input_tokens r = 30
      /\ RunResult.total_output_tokens r = 15)
  /\ (exists r w',
         run json_dumps_ref ex_fromisoformat ex_now
           (ex_client (scripted [ex_raw_add; ex_raw_partial_usage]))
           "hi" None None 5 0%nat = (Returned r, w')
         /\ RunResult.total_input_tokens r = 17
         /\ RunResult.total_output_tokens r = 5).
Proof.
  split.
  - eexists. eexists. split; [reflexivity|].
    destruct (token_totals_are_sums nat json_dumps_ref ex_fromisoformat ex_now
                (ex_client (scripted ex_session)) "hi" None None 5 0%nat
                3%nat _ eq_refl) as (Hin & Hout & _).
    split; [exact Hin | exact Hout].
  - eexists. eexists. split; [reflexivity|].
    destruct (token_totals_are_sums nat json_dumps_ref ex_fromisoformat ex_now
                (ex_client (scripted [ex_raw_add; ex_raw_partial_usage]))
                "hi" None None 5 0%nat 2%nat _ eq_refl) as (Hin & Hout & _).
    split; [exact Hin | exact Hout].
Defined.

(** [ex_session]: three responses, the first two with [tool_use]. *)
Lemma raw_messages_end_on_first_terminal_response_witness :
  exists r w',
    run json_dumps_ref ex_fromisoformat ex_now (ex_client (scripted ex_session))
      "hi" None None 5 0%nat = (Returned r, w')
    /\ RunResult.raw_messages r = ex_session
    /\ (exists raws final,
           RunResult.raw_messages r = (raws ++ [final])%list
           /\ Forall is_tool_use raws
           /\ ~ is_tool_use final)
    /\ (1 <= length (RunResult.raw_messages r) <= 5)%nat.
Proof.
  eexists. eexists. split; [reflexivity|]. split; [reflexivity|].
  apply (raw_messages_end_on_first_terminal_response nat json_dumps_ref
           ex_fromisoformat ex_now (ex_client (scripted ex_session))
           "hi" None None 5 0%nat 3%nat).
  reflexivity.
Defined.

(** Two iterations against a transport that always asks for [add]. *)
Lemma running_conversation_alternates_witness :
  exists st w',
    run json_dumps_ref ex_fromisoformat ex_now
      (ex_client (constant_transport ex_raw_add)) "hi" None None 2 0%nat
    = (Running st, w')
    /\ map Message.role (Loop.messages st)
       = ["user"; "assistant"; "user"; "assistant"; "user"]
    /\ length (Loop.all_raw st) = 2%nat.
Proof.
  eexists. eexists. split; [reflexivity|].
  destruct (running_conversation_alternates nat json_dumps_ref
              ex_fromisoformat ex_now (ex_client (constant_transport ex_raw_add))
              "hi" None None 2 0%nat 2%nat _ eq_refl)
    as (Hlen & _ & _ & Hroles & _).
  split; [exact Hroles | exact Hlen].
Defined.

(** The response [ex_raw_no_calls] asks for tools without naming any. *)
Lemma tool_use_without_invocations_witness :
  exists st',
    process_response json_dumps_ref ex_fromisoformat ex_now
      (ex_client (scripted [])) (initial "hi" None) ex_raw_no_calls 0%nat
    = (Ok (Continue st'), 0%nat)
    /\ Loop.total_tool_calls st' = 0
    /\ Loop.messages st'
       = [Message.mk "user" (ContentStr "hi");
          Message.mk "assistant"
            (ContentList [Block.text_block "Thinking about it."]);
          Message.mk "user" (ContentList [])].
Proof.
  apply (tool_use_without_invocations nat json_dumps_ref ex_fromisoformat
           ex_now (ex_client (scripted [])) (initial "hi" None)
           ex_raw_no_calls 0%nat); reflexivity.
Defined.

(** After [ex_raw_tools], whose descriptor names the session [cont_1], the
    next request carries that session. *)
Lemma next_request_reuses_session_witness :
  let self := ex_client (scripted []) in
  exists st',
    process_response json_dumps_ref ex_fromisoformat ex_now self
      (initial "hi" None) ex_raw_tools 0%nat = (Ok (Continue st'), 0%nat)
    /\ Request.container (build_kwargs self (_build_tools self) None st')
       = Some "cont_1".
Proof.
  intros self. eexists. split; [reflexivity|].
  eapply (proj1 (next_request_reuses_session nat json_dumps_ref
                   ex_fromisoformat ex_now self (_build_tools self) None
                   (initial "hi" None) _ ex_raw_tools 0%nat 0%nat eq_refl)).
  - reflexivity.
  - reflexivity.
  - discriminate.
Defined.

(** The run that ends on [KeyboardInterrupt] raises an exception that does
    not derive from [Exception]; a run that receives a session descriptor
    with an unparsable timestamp raises the error of the parser. *)
Lemma run_raises_classified_witness :
  let classified (self : ProgrammaticToolClient nat) (e : exn) :=
    (exists request w0 w1, _client self request w0 = (Err e, w1))
    \/ (exists s, ex_fromisoformat s = Err e)
    \/ e = mk_exn "AttributeError"
             "'NoneType' object has no attribute 'replace'" true
    \/ e = mk_exn "TypeError"
             "'str' object cannot be interpreted as an integer" true
    \/ e = mk_exn "TypeError"
             "can't subtract offset-naive and offset-aware datetimes" true
    \/ e = KeyError "text"
    \/ e = mk_exn "AttributeError"
             "'NoneType' object has no attribute 'get'" true
    \/ e = KeyError "name" \/ e = KeyError "input"
    \/ e = KeyError "id" \/ exc_is_Exception e = false in
  let quitter := ex_client_quit (constant_transport ex_raw_quit) in
  let e := mk_exn "KeyboardInterrupt" "" false in
  let raw :=
    Raw.mk ex_usage
      (Some (Container.mk (Some "cont_1") (Some (ExpiresStr "tomorrow"))))
      (Some "end_turn") (Some [Block.text_block "Done."]) in
  let self := ex_client (scripted [raw]) in
  let e' := mk_exn "ValueError" "Invalid isoformat string: 'tomorrow'" true in
  run json_dumps_ref ex_fromisoformat ex_now quitter "hi" None None 3 0%nat
  = (Raised e, 1%nat)
  /\ classified quitter e
  /\ run json_dumps_ref ex_fromisoformat ex_now self "hi" None None 3 0%nat
     = (Raised e', 1%nat)
  /\ classified self e'.
Proof.
  intros classified quitter e raw self e'.
  split; [reflexivity|]. split; [|split; [reflexivity|]].
  - apply (run_raises_classified nat json_dumps_ref ex_fromisoformat ex_now
             quitter "hi" None None 3 0%nat 1%nat e).
    reflexivity.
  - apply (run_raises_classified nat json_dumps_ref ex_fromisoformat ex_now
             self "hi" None None 3 0%nat 1%nat e').
    reflexivity.
Defined.

(** An invocation of [bump] without [id]: the handler has run when the
    [KeyError] is raised.  An entry without [name] raises at once, and so
    does an entry whose [caller] is [None], with another error. *)
Lemma malformed_invocation_raises_KeyError_witness :
  let self := ex_register (ex_client (scripted [])) ex_bump in
  build_tool_results json_dumps_ref self [ex_call_without_id] 0 [] 0%nat
  = (Err (mk_exn "KeyError" "'id'" true), 1%nat)
  /\ build_tool_results json_dumps_ref self [Block.empty; ex_call_without_id]
       0 [] 0%nat
     = (Err (mk_exn "KeyError" "'name'" true), 0%nat)
  /\ build_tool_results json_dumps_ref self
       [with_caller ex_call_without_id (Some IsNone)] 0 [] 0%nat
     = (Err (mk_exn "AttributeError"
               "'NoneType' object has no attribute 'get'" true), 0%nat).
Proof.
  intros self. split; [|split].
  - apply (proj1 (proj2 (malformed_invocation_raises_KeyError nat
                           json_dumps_ref self ex_call_without_id [] 0 []
                           0%nat))
             "bump" [] "null" 1%nat);
      try reflexivity.
    discriminate.
  - apply (proj1 (malformed_invocation_raises_KeyError nat json_dumps_ref
                    self Block.empty [ex_call_without_id] 0 [] 0%nat)).
    + discriminate.
    + reflexivity.
  - apply (proj2 (proj2 (malformed_invocation_raises_KeyError nat
                           json_dumps_ref self
                           (with_caller ex_call_without_id (Some IsNone))
                           [] 0 [] 0%nat))).
    reflexivity.
Defined.

(** A response with a text block without text, under [end_turn] and under
    [max_tokens]. *)
Lemma text_block_without_text_witness :
  let self := ex_client (scripted []) in
  process_response json_dumps_ref ex_fromisoformat ex_now self
    (initial "hi" None) (ex_raw_textless "end_turn") 0%nat
  = (Err (mk_exn "KeyError" "'text'" true), 0%nat)
  /\ exists r,
       process_response json_dumps_ref ex_fromisoformat ex_now self
         (initial "hi" None) (ex_raw_textless "max_tokens") 0%nat
       = (Ok (Return r), 0%nat)
       /\ RunResult.text r = String "a" (String "010"%char EmptyString).
Proof.
  intros self.
  assert (Hblock : forall stop_reason, exists block,
             In block
               (filter (fun block : Block.t =>
                          match Block.type block with
                          | Some type => String.eqb type "text"
                          | None => false
                          end)
                  (match Raw.content (ex_raw_textless stop_reason) with
                   | Some content => content
                   | None => []
                   end))
             /\ Block.text block = None).
  { intros stop_reason. eexists.
    split; [right; left; reflexivity | reflexivity]. }
  split.
  - apply (text_block_without_text nat json_dumps_ref ex_fromisoformat
             ex_now self (initial "hi" None) (ex_raw_textless "end_turn")
             0%nat eq_refl (Hblock "end_turn")).
    reflexivity.
  - destruct (proj2 (text_block_without_text nat json_dumps_ref
                       ex_fromisoformat ex_now self (initial "hi" None)
                       (ex_raw_textless "max_tokens") 0%nat eq_refl
                       (Hblock "max_tokens")))
      as (r & Hp & Ht & _); [discriminate | discriminate |].
    exists r. split; [exact Hp|]. apply Ht. discriminate.
Defined.

(** Session descriptors that end a run at its first response: a datetime
    object under [end_turn], and a timestamp without offset and one the
    parser rejects under [tool_use], where [add] is not dispatched. *)
Lemma expiry_check_failure_ends_run_witness :
  let response stop_reason expires_at :=
    Raw.mk ex_usage (Some (Container.mk (Some "cont_1") (Some expires_at)))
      (Some stop_reason)
      (Some [Block.text_block "Done.";
             Block.tool_use "t1" "add" (ex_args 1 2) None]) in
  let run_on raw :=
    run json_dumps_ref ex_fromisoformat ex_now (ex_client (scripted [raw]))
      "hi" None None 3 0%nat in
  run_on (response "end_turn"
            (ExpiresDatetime (Datetime.mk 1767225600000000 true)))
  = (Raised (mk_exn "TypeError"
               "'str' object cannot be interpreted as an integer" true),
     1%nat)
  /\ run_on (response "tool_use" (ExpiresStr "2026-01-01T00:00:00"))
     = (Raised (mk_exn "TypeError"
                  "can't subtract offset-naive and offset-aware datetimes"
                  true), 1%nat)
  /\ run_on (response "tool_use" (ExpiresStr "tomorrow"))
     = (Raised (mk_exn "ValueError" "Invalid isoformat string: 'tomorrow'"
                  true), 1%nat)
  /\ run_on (response "max_tokens" ExpiresNone)
     = (Raised (mk_exn "AttributeError"
                  "'NoneType' object has no attribute 'replace'" true),
        1%nat)
  /\ exists r,
       run_on (response "end_turn" (ExpiresStr "2026-01-01T00:00:00Z"))
       = (Returned r, 1%nat)
       /\ RunResult.text r = "Done.".
Proof.
  intros response run_on.
  assert (H : forall stop_reason expires_at e,
             match expires_at with
             | ExpiresDatetime _ =>
                 Some (mk_exn "TypeError"
                         "'str' object cannot be interpreted as an integer"
                         true)
             | ExpiresNone =>
                 Some (mk_exn "AttributeError"
                         "'NoneType' object has no attribute 'replace'" true)
             | ExpiresStr s =>
                 match ex_fromisoformat (replace_Z s) with
                 | Err e => Some e
                 | Ok expires =>
                     if Datetime.aware expires then None
                     else Some (mk_exn "TypeError"
                                  "can't subtract offset-naive and offset-aware datetimes"
                                  true)
                 end
             end = Some e ->
             run_on (response stop_reason expires_at) = (Raised e, 1%nat)).
  { intros stop_reason expires_at e He.
    destruct (expiry_check_failure_ends_run nat json_dumps_ref
                ex_fromisoformat ex_now
                (ex_client (scripted [response stop_reason expires_at]))
                (initial "hi" None) (response stop_reason expires_at)
                _ expires_at 1%nat eq_refl eq_refl e He) as [_ Hrun].
    apply (Hrun (_build_tools
                   (ex_client (scripted [response stop_reason expires_at])))
             None 2%nat 0%nat).
    reflexivity. }
  split; [|split; [|split; [|split]]].
  - apply H. reflexivity.
  - apply H. reflexivity.
  - apply H. reflexivity.
  - apply H. reflexivity.
  - eexists. split; reflexivity.
Defined.

(** A handler that returns a set. *)
Lemma serialisation_failure_is_contained_witness :
  let self := ex_register (ex_client (scripted [])) ex_make_set in
  _execute_tool json_dumps_ref self "make_set" [] 0%nat
  = (Ok "Error: TypeError: Object of type set is not JSON serializable",
     0%nat).
Proof.
  intros self.
  eapply (serialisation_failure_is_contained nat json_dumps_ref self
            "make_set" _ [] 0%nat 0%nat (PObject "set")
            (mk_exn "TypeError"
               "Object of type set is not JSON serializable" true));
    reflexivity.
Defined.

(** [fetch_logs] on a client of its own: a known and an unknown server. *)
Lemma fetch_logs_dispatch_witness :
  let self :=
    register (__init__ (scripted []) None 4096 30) fetch_logs_registration in
  _execute_tool json_dumps_ref self "fetch_logs"
    [("server_id", PStr "db-01")] 0%nat
  = (Ok ("2025-01-15 10:00:01 INFO  Checkpoint complete" ++ newline
         ++ "2025-01-15 10:00:02 ERROR Replication lag: 15s" ++ newline
         ++ "2025-01-15 10:00:03 INFO  Vacuum started"), 0%nat)
  /\ _execute_tool json_dumps_ref self "fetch_logs"
       [("server_id", PStr "web-99")] 0%nat
     = (Ok "No logs found", 0%nat).
Proof.
  intros self. split.
  - apply (proj1 (fetch_logs_dispatch nat json_dumps_ref self _ "db-01" 0%nat
                    eq_refl eq_refl)).
  - apply (proj1 (proj2 (fetch_logs_dispatch nat json_dumps_ref self _
                           "web-99" 0%nat eq_refl eq_refl)));
      discriminate.
Defined.
